(** * The filter-to-query compiler of RealTimeTranslator-base_async

    A shallow embedding of [models/filter/models.py] (operator registry,
    [Filter], [FilterGroup], [FilterQuery], [FilterParams], [FilterConfig]),
    of [src/models/filter/engine.py] ([AsyncQueryFilterEngine]) and of
    [services/filter.py] ([FilterService]), followed by the properties of
    the specification that concern them and by further properties of the
    same code.

    Conventions of the embedding.
    - A Python [str] is a [string] whose characters are code points below
      256; the character classes used by [str.strip], [str.isalnum] and
      [str.lower] are those of the Unicode database on that range.  The
      Cyrillic text of the messages is kept as the bytes of the source file.
    - A Python value is a [pyval]; a float is a [spec_float] in binary64.
    - Integers are converted to and from decimal text without a limit on
      the number of digits.
    - A raised exception is the [Raise] case of [result]; [await] is
      sequencing in the session monad [M], whose state records every query
      handed to [session.exec].
    - The entry points are modelled as the repository calls them, without a
      [base_query]: the query starts from [select(self._model)].
    - An attribute that [getattr] finds on the entity is taken for a column
      expression: the operators and the orderings apply to it.
    - Assigning to a field of a model does not validate the value, as is
      pydantic's default; the validator of [FilterParams], which assigns to
      the fields of the model it validates, relies on it as well.
    - Built-ins that are not modelled (float printing and parsing,
      [datetime.fromisoformat]) are the fields of [PyRuntime]; the storage
      engine's evaluation of predicates and orderings are the fields of
      [Backend]. *)

From Stdlib Require Import ZArith List String Ascii Bool Lia DecimalString SpecFloat.
From Stdlib Require Import Permutation.
Import ListNotations.

Set Warnings "-register-all".

Open Scope string_scope.
Open Scope Z_scope.

(** ** Python strings *)

Module PyStr.

Definition code (c : ascii) : N := N_of_ascii c.

Definition in_range (lo hi : N) (c : ascii) : bool :=
  ((lo <=? code c) && (code c <=? hi))%N.

Definition code_in (l : list N) (c : ascii) : bool :=
  existsb (N.eqb (code c)) l.

(** The characters [str.strip()] removes: U+0009..U+000D, U+001C..U+0020,
    U+0085 and U+00A0. *)
Definition isspace_char (c : ascii) : bool :=
  in_range 9 13 c || in_range 28 32 c || code_in [133; 160]%N c.

Definition is_ascii_alnum (c : ascii) : bool :=
  in_range 48 57 c || in_range 65 90 c || in_range 97 122 c.

(** [c.isalnum()]: letters, decimal digits, and the other digits and numbers
    of the range (feminine and masculine ordinal, micro sign, superscript
    1 2 3, the vulgar fractions, and the accented letters). *)
Definition isalnum_char (c : ascii) : bool :=
  is_ascii_alnum c
  || code_in [170; 178; 179; 181; 185; 186; 188; 189; 190]%N c
  || in_range 192 214 c || in_range 216 246 c || in_range 248 255 c.

Fixpoint forall_chars (p : ascii -> bool) (s : string) : bool :=
  match s with
  | EmptyString => true
  | String c r => p c && forall_chars p r
  end.

(** [s.isalnum()]: at least one character, and all of them alphanumeric. *)
Definition isalnum (s : string) : bool :=
  match s with
  | EmptyString => false
  | _ => forall_chars isalnum_char s
  end.

Definition is_empty (s : string) : bool :=
  match s with EmptyString => true | _ => false end.

(** Some character of [s] is alphanumeric. *)
Fixpoint has_alnum (s : string) : bool :=
  match s with
  | EmptyString => false
  | String c r => isalnum_char c || has_alnum r
  end.

Fixpoint lstrip (s : string) : string :=
  match s with
  | EmptyString => EmptyString
  | String c r => if isspace_char c then lstrip r else s
  end.

Fixpoint rstrip (s : string) : string :=
  match s with
  | EmptyString => EmptyString
  | String c r =>
      match rstrip r with
      | EmptyString => if isspace_char c then EmptyString else String c EmptyString
      | r' => String c r'
      end
  end.

(** [s.strip()] *)
Definition strip (s : string) : string := rstrip (lstrip s).

(** [s.replace(old, new)] for a one-character [old]. *)
Fixpoint replace (old : ascii) (new : string) (s : string) : string :=
  match s with
  | EmptyString => EmptyString
  | String c r =>
      if Ascii.eqb c old then new ++ replace old new r
      else String c (replace old new r)
  end.

Definition lower_char (c : ascii) : ascii :=
  if in_range 65 90 c || in_range 192 214 c || in_range 216 222 c
  then ascii_of_N (code c + 32)
  else c.

(** [s.lower()] *)
Fixpoint lower (s : string) : string :=
  match s with
  | EmptyString => EmptyString
  | String c r => String (lower_char c) (lower r)
  end.

(** [sep.join(l)] *)
Fixpoint join (sep : string) (l : list string) : string :=
  match l with
  | [] => EmptyString
  | [x] => x
  | x :: r => x ++ sep ++ join sep r
  end.

(** [x in l] for a list of strings. *)
Definition mem (x : string) (l : list string) : bool :=
  existsb (String.eqb x) l.

Fixpoint is_prefix (p s : string) : bool :=
  match p, s with
  | EmptyString, _ => true
  | String a p', String b s' => Ascii.eqb a b && is_prefix p' s'
  | String _ _, EmptyString => false
  end.

(** [p in s] for strings: [p] occurs in [s]. *)
Fixpoint contains (p s : string) : bool :=
  is_prefix p s ||
  match s with
  | EmptyString => false
  | String _ s' => contains p s'
  end.

(** [str(n)] for an integer. *)
Definition of_Z (n : Z) : string := NilZero.string_of_int (Z.to_int n).

Definition dquote : ascii := ascii_of_N 34.
Definition backslash : ascii := ascii_of_N 92.

Definition hex_digit (n : N) : ascii :=
  if (n <? 10)%N then ascii_of_N (48 + n) else ascii_of_N (87 + n).

(** One character of [repr(s)] inside the quotes [q]. *)
Definition repr_char (q : ascii) (c : ascii) : string :=
  let n := code c in
  if Ascii.eqb c q || (n =? 92)%N then String backslash (String c EmptyString)
  else if (n =? 9)%N then String backslash "t"
  else if (n =? 10)%N then String backslash "n"
  else if (n =? 13)%N then String backslash "r"
  else if (n <? 32)%N || in_range 127 160 c || (n =? 173)%N
  then String backslash
         (String "x" (String (hex_digit (n / 16)) (String (hex_digit (n mod 16)) EmptyString)))
  else String c EmptyString.

Fixpoint concat_map (f : ascii -> string) (s : string) : string :=
  match s with
  | EmptyString => EmptyString
  | String c r => f c ++ concat_map f r
  end.

Definition has_char (c : ascii) (s : string) : bool :=
  negb (forall_chars (fun x => negb (Ascii.eqb x c)) s).

(** [repr(s)] for a string: single quotes, unless the string holds a single
    quote and no double quote. *)
Definition repr (s : string) : string :=
  let q := if has_char "'" s && negb (has_char dquote s) then dquote else "'"%char in
  String q (concat_map (repr_char q) s) ++ String q EmptyString.

(** Zero-padded decimal of width [w] (as [%0wd] for a non-negative number). *)
Fixpoint pad (w : nat) (s : string) : string :=
  match w with
  | O => s
  | S w' => if (String.length s <? w)%nat then pad w' ("0" ++ s) else s
  end.

End PyStr.

(** ** Python values, exceptions and results *)

(** [datetime.date] and [datetime.datetime] *)
Record date := { year : Z; month : Z; day : Z }.

Record datetime := {
  dt_date : date;
  hour : Z; minute : Z; second : Z; microsecond : Z;
  utcoffset : option Z
}.

Inductive pyval :=
| VNone
| VBool (b : bool)
| VInt (n : Z)
| VFloat (f : spec_float)
| VStr (s : string)
| VList (l : list pyval)
| VDict (d : list (string * pyval))
| VDate (d : date).

(** A [dict] with string keys, in insertion order. *)
Definition pydict := list (string * pyval).

Inductive ErrorCode := DbError | ValidationErrorCode.

(** The exceptions the modelled code raises or lets through.
    [ValidationError] is pydantic's (a subclass of [ValueError]) with its
    list of messages; [StorageError] stands for any failure of the storage
    collaborator; [EXC] is the service's own exception. *)
Inductive exn :=
| ValueError (msg : string)
| ValidationError (errors : list string)
| TypeError
| AttributeError
| KeyError
| OverflowError
| StorageError
| EXC (code : ErrorCode) (details : list string).

Inductive result (A : Type) :=
| Ok (a : A)
| Raise (e : exn).

Arguments Ok {A} a.
Arguments Raise {A} e.

Definition bind {A B} (r : result A) (k : A -> result B) : result B :=
  match r with
  | Ok a => k a
  | Raise e => Raise e
  end.

Notation "x <- r ;; k" := (bind r (fun x => k))
  (at level 61, r at next level, right associativity).

Notation "' p <- r ;; k" := (bind r (fun x => match x with p => k end))
  (at level 61, p pattern, r at next level, right associativity).

(** [except ValueError]: the class and its subclass. *)
Definition is_ValueError (e : exn) : bool :=
  match e with
  | ValueError _ | ValidationError _ => true
  | _ => false
  end.

(** [dict.get(key)] / [key in dict] *)
Fixpoint dict_get (d : pydict) (key : string) : option pyval :=
  match d with
  | [] => None
  | (k, v) :: r => if String.eqb k key then Some v else dict_get r key
  end.

Definition dict_has (d : pydict) (key : string) : bool :=
  match dict_get d key with Some _ => true | None => false end.

Definition is_none (v : pyval) : bool :=
  match v with VNone => true | _ => false end.

(** The built-ins the embedding leaves open. [None] is a [ValueError]. *)
Class PyRuntime := {
  float_repr : spec_float -> string;
  float_of_str : string -> option spec_float;
  fromisoformat : string -> option datetime
}.

Module Py.

(** [d.isoformat()], also [str(d)], of a date. *)
Definition date_isoformat (d : date) : string :=
  PyStr.pad 4 (PyStr.of_Z (year d)) ++ "-" ++ PyStr.pad 2 (PyStr.of_Z (month d))
  ++ "-" ++ PyStr.pad 2 (PyStr.of_Z (day d)).

Section Printing.
Context {RT : PyRuntime}.

(** [repr(v)] *)
Fixpoint repr (v : pyval) : string :=
  match v with
  | VNone => "None"
  | VBool true => "True"
  | VBool false => "False"
  | VInt n => PyStr.of_Z n
  | VFloat f => float_repr f
  | VStr s => PyStr.repr s
  | VList l => "[" ++ PyStr.join ", " (map repr l) ++ "]"
  | VDict d =>
      "{" ++ PyStr.join ", "
               (map (fun kv => PyStr.repr (fst kv) ++ ": " ++ repr (snd kv)) d) ++ "}"
  | VDate d =>
      "datetime.date(" ++ PyStr.of_Z (year d) ++ ", " ++ PyStr.of_Z (month d)
      ++ ", " ++ PyStr.of_Z (day d) ++ ")"
  end.

(** [str(v)], which is also what an f-string field [{v}] prints. *)
Definition str (v : pyval) : string :=
  match v with
  | VStr s => s
  | VDate d => date_isoformat d
  | _ => repr v
  end.

End Printing.

Definition is_digit (c : ascii) : bool := PyStr.in_range 48 57 c.

Definition digit_val (c : ascii) : Z := Z.of_N (PyStr.code c) - 48.

(** Digits with single underscores between them. *)
Fixpoint parse_digits (acc : Z) (after_digit : bool) (s : string) : option Z :=
  match s with
  | EmptyString => if after_digit then Some acc else None
  | String c r =>
      if is_digit c then parse_digits (10 * acc + digit_val c) true r
      else if Ascii.eqb c "_" then
        if after_digit then parse_digits acc false r else None
      else None
  end.

(** [int(s)] for a string; [None] is a [ValueError]. *)
Definition int_of_str (s : string) : option Z :=
  match PyStr.strip s with
  | String "+" r => parse_digits 0 false r
  | String "-" r => option_map Z.opp (parse_digits 0 false r)
  | r => parse_digits 0 false r
  end.

(** [float(n)] for an integer: rounding to nearest even in binary64. *)
Definition float_of_Z (n : Z) : spec_float := binary_normalize 53 1024 n 0 false.

(** [int(x)] for a float: truncation; infinities and NaN raise. *)
Definition Z_of_float (f : spec_float) : result Z :=
  match f with
  | S754_zero _ => Ok 0
  | S754_infinity _ => Raise OverflowError
  | S754_nan => Raise (ValueError "cannot convert float NaN to integer")
  | S754_finite s m e =>
      let a := if 0 <=? e then Z.pos m * 2 ^ e else Z.pos m / 2 ^ (- e) in
      Ok (if s then - a else a)
  end.

Section Conversions.
Context {RT : PyRuntime}.

(** [int(v)] *)
Definition to_int (v : pyval) : result pyval :=
  match v with
  | VInt n => Ok (VInt n)
  | VBool b => Ok (VInt (if b then 1 else 0))
  | VFloat f => n <- Z_of_float f ;; Ok (VInt n)
  | VStr s =>
      match int_of_str s with
      | Some n => Ok (VInt n)
      | None => Raise (ValueError ("invalid literal for int() with base 10: " ++ PyStr.repr s))
      end
  | VNone | VList _ | VDict _ | VDate _ => Raise TypeError
  end.

(** [float(v)] *)
Definition to_float (v : pyval) : result pyval :=
  match v with
  | VInt n =>
      match float_of_Z n with
      | S754_infinity _ => Raise OverflowError
      | f => Ok (VFloat f)
      end
  | VBool b => Ok (VFloat (float_of_Z (if b then 1 else 0)))
  | VFloat f => Ok (VFloat f)
  | VStr s =>
      match float_of_str s with
      | Some f => Ok (VFloat f)
      | None => Raise (ValueError ("could not convert string to float: " ++ PyStr.repr s))
      end
  | VNone | VList _ | VDict _ | VDate _ => Raise TypeError
  end.

End Conversions.

End Py.

(** ** Predicates handed to the storage collaborator *)

Definition column := string.

Inductive cmp := CmpEq | CmpNe | CmpGt | CmpGe | CmpLt | CmpLe.

(** The expressions the operators build over a column: comparison with a
    bound value, [c.in_(vs)], [c.like(p)], [c.ilike(p)], negation, and the
    [and_] / [or_] of a group's conditions. *)
Inductive predicate :=
| PCmp (o : cmp) (c : column) (v : pyval)
| PIn (c : column) (vs : list pyval)
| PLike (c : column) (pattern : string)
| PILike (c : column) (pattern : string)
| PNot (p : predicate)
| PAnd (ps : list predicate)
| POr (ps : list predicate).

(** ** models.py: the operator registry [Op] *)

Module Op.

Inductive t := EQ | NE | GT | GTE | LT | LTE | IN | NOT_IN | LIKE | ILIKE.

(** The members in definition order, as [for op in cls] visits them. *)
Definition members : list t := [EQ; NE; GT; GTE; LT; LTE; IN; NOT_IN; LIKE; ILIKE].

Definition symbol (op : t) : string :=
  match op with
  | EQ => "=" | NE => "!=" | GT => ">" | GTE => ">=" | LT => "<" | LTE => "<="
  | IN => "in" | NOT_IN => "not_in" | LIKE => "like" | ILIKE => "ilike"
  end.

Definition aliases (op : t) : list string :=
  match op with
  | EQ => ["="; "eq"]
  | NE => ["!="; "ne"; "not_eq"]
  | GT => [">"; "gt"]
  | GTE => [">="; "gte"; "ge"]
  | LT => ["<"; "lt"]
  | LTE => ["<="; "lte"; "le"]
  | IN => ["in"; "IN"]
  | NOT_IN => ["not_in"; "NOT_IN"]
  | LIKE => ["like"; "LIKE"]
  | ILIKE => ["ilike"; "ILIKE"]
  end.

(** [v if isinstance(v, list) else [v]] *)
Definition as_list (v : pyval) : list pyval :=
  match v with
  | VList l => l
  | _ => [v]
  end.

(** [cls.get_all_aliases()] *)
Definition get_all_aliases : list string := flat_map aliases members.

(** [op_str in op.aliases]: only a string equals an alias. *)
Definition in_aliases (op_str : pyval) (op : t) : bool :=
  match op_str with
  | VStr s => PyStr.mem s (aliases op)
  | _ => false
  end.

Section WithRuntime.
Context {RT : PyRuntime}.

(** [op.apply(column, value)], the [operation] lambda of each member. *)
Definition apply (op : t) (c : column) (v : pyval) : predicate :=
  match op with
  | EQ => PCmp CmpEq c v
  | NE => PCmp CmpNe c v
  | GT => PCmp CmpGt c v
  | GTE => PCmp CmpGe c v
  | LT => PCmp CmpLt c v
  | LTE => PCmp CmpLe c v
  | IN => PIn c (as_list v)
  | NOT_IN => PNot (PIn c (as_list v))
  | LIKE => PLike c ("%" ++ Py.str v ++ "%")
  | ILIKE => PILike c ("%" ++ Py.str v ++ "%")
  end.

Definition unsupported_message (op_str : pyval) : string :=
  "Неподдерживаемый оператор: '" ++ Py.str op_str ++ "'. Доступные: "
  ++ Py.repr (VList (map VStr get_all_aliases)).

(** [Op.from_string(op_str)] *)
Definition from_string (op_str : pyval) : result t :=
  match find (in_aliases op_str) members with
  | Some op => Ok op
  | None => Raise (ValueError (unsupported_message op_str))
  end.

End WithRuntime.

End Op.

(** ** models.py: the validated models *)

(** The messages of the errors one model's validation collected. *)
Definition errors_of {A} (r : result A) : list string :=
  match r with
  | Ok _ => []
  | Raise (ValueError m) => [m]
  | Raise (ValidationError ms) => ms
  | Raise _ => ["error"]
  end.

(** The two [replace] calls of the name validators. *)
Definition without_separators (v : string) : string :=
  PyStr.replace "-" "" (PyStr.replace "_" "" v).

Module Filter.

Record t := { name : string; op : Op.t; value : pyval; type_ : option string }.

(** The [name] field: a string ([str]) of [min_length=1], then
    [validate_name]. *)
Definition validate_name (name : pyval) : result string :=
  match name with
  | VStr v =>
  if (String.length v <? 1)%nat then
    Raise (ValueError "String should have at least 1 character")
  else if PyStr.is_empty v || PyStr.is_empty (PyStr.strip v) then
    Raise (ValueError "Название поля не может быть пустым")
  else if negb (PyStr.isalnum (without_separators v)) then
    Raise (ValueError ("Недопустимые символы в названии поля: '" ++ v ++ "'"))
  else Ok (PyStr.strip v)
  | _ => Raise (ValueError "Input should be a valid string")
  end.

Definition validate_value (v : pyval) : result pyval :=
  if is_none v then Raise (ValueError "Значение фильтра не может быть None")
  else Ok v.

Definition type_names : list string := ["str"; "int"; "float"; "bool"; "date"].

(** The type of the field: one of the five literals, or [None]. *)
Definition validate_type (ty : pyval) : result (option string) :=
  match ty with
  | VNone => Ok None
  | VStr s =>
      if PyStr.mem s type_names then Ok (Some s)
      else Raise (ValueError "Input should be 'str', 'int', 'float', 'bool' or 'date'")
  | _ => Raise (ValueError "Input should be 'str', 'int', 'float', 'bool' or 'date'")
  end.

Section WithRuntime.
Context {RT : PyRuntime}.

(** [validate_op]: a string is resolved, a member is kept. *)
Definition validate_op (v : Op.t + string) : result Op.t :=
  match v with
  | inl o => Ok o
  | inr s => Op.from_string (VStr s)
  end.

(** [Filter(name=..., op=..., value=..., type=...)]: every field is
    validated and the failures are reported together. *)
Definition make (name : pyval) (op : Op.t + string) (value : pyval)
    (ty : pyval) : result t :=
  match validate_name name, validate_op op, validate_value value, validate_type ty with
  | Ok n, Ok o, Ok v, Ok y => Ok {| name := n; op := o; value := v; type_ := y |}
  | rn, ro, rv, ry =>
      Raise (ValidationError (errors_of rn ++ errors_of ro ++ errors_of rv ++ errors_of ry))
  end.

End WithRuntime.

End Filter.

Module FilterGroup.

Record t := { op : string; filters : list Filter.t }.

(** The [Literal['and', 'or']] type of the field, then [validate_group_op]. *)
Definition validate_group_op (v : string) : result string :=
  if negb (PyStr.mem v ["and"; "or"]) then
    Raise (ValueError "Input should be 'and' or 'or'")
  else if PyStr.mem v ["and"; "AND"; "all"] then Ok "and"
  else if PyStr.mem v ["or"; "OR"; "any"] then Ok "or"
  else Raise (ValueError ("Неподдерживаемый оператор группы: '" ++ v ++ "'")).

Definition validate_filters (l : list Filter.t) : result (list Filter.t) :=
  match l with
  | [] => Raise (ValueError "List should have at least 1 item after validation, not 0")
  | _ => Ok l
  end.

(** [FilterGroup(op=..., filters=...)] *)
Definition make (op : string) (filters : list Filter.t) : result t :=
  match validate_group_op op, validate_filters filters with
  | Ok o, Ok l => Ok {| op := o; filters := l |}
  | ro, rl => Raise (ValidationError (errors_of ro ++ errors_of rl))
  end.

End FilterGroup.

(** [validate_order_by], shared by [FilterQuery] and [FilterParams]. *)
Definition validate_order_by (v : option string) : result (option string) :=
  match v with
  | None => Ok None
  | Some s =>
      let s' := PyStr.strip s in
      if negb (PyStr.is_empty s') && negb (PyStr.isalnum (without_separators s')) then
        Raise (ValueError ("Недопустимые символы в поле сортировки: '" ++ s' ++ "'"))
      else Ok (Some s')
  end.

(** [Field(ge=0)] *)
Definition validate_offset (n : Z) : result Z :=
  if 0 <=? n then Ok n
  else Raise (ValueError "Input should be greater than or equal to 0").

(** [Field(ge=1, le=1000)] *)
Definition validate_limit (n : Z) : result Z :=
  if n <? 1 then Raise (ValueError "Input should be greater than or equal to 1")
  else if 1000 <? n then Raise (ValueError "Input should be less than or equal to 1000")
  else Ok n.

Module FilterQuery.

Record t := {
  offset : Z;
  limit : Z;
  order_by : option string;
  desc : bool;
  groups : list FilterGroup.t
}.

(** [FilterQuery(offset=..., limit=..., order_by=..., desc=..., groups=...)] *)
Definition make (offset limit : Z) (order_by : option string) (desc : bool)
    (groups : list FilterGroup.t) : result t :=
  match validate_offset offset, validate_limit limit, validate_order_by order_by with
  | Ok o, Ok l, Ok ob =>
      Ok {| offset := o; limit := l; order_by := ob; desc := desc; groups := groups |}
  | ro, rl, rob => Raise (ValidationError (errors_of ro ++ errors_of rl ++ errors_of rob))
  end.

(** [FilterQuery()]: the defaults of the fields. *)
Definition default : t :=
  {| offset := 0; limit := 50; order_by := None; desc := false; groups := [] |}.

End FilterQuery.

Module FilterParams.

(** The [filters] field: [None], a mapping, or a list of group objects. *)
Inductive filters_t :=
| FNone
| FDict (d : pydict)
| FList (l : list pydict).

Record t := {
  offset : Z;
  limit : Z;
  order_by : option string;
  asc : Z;
  filters : filters_t;
  advanced_filters : option (list pydict)
}.

Definition validate_asc (v : Z) : result Z :=
  if (v =? 0) || (v =? 1) then Ok v
  else Raise (ValueError "Параметр 'asc' должен быть 0 или 1").

Definition at_group (i : Z) : string := "filters[" ++ PyStr.of_Z i ++ "]".

Definition at_item (i j : Z) : string :=
  at_group i ++ ".items[" ++ PyStr.of_Z j ++ "]".

(** The inner loop of the list branch: [for j, item in enumerate(items)]. *)
Fixpoint validate_items (i j : Z) (items : list pyval) : result unit :=
  match items with
  | [] => Ok tt
  | VDict item :: rest =>
      if negb (dict_has item "name") then
        Raise (ValueError ("В " ++ at_item i j ++ " отсутствует поле 'name'"))
      else if negb (dict_has item "value") then
        Raise (ValueError ("В " ++ at_item i j ++ " отсутствует поле 'value'"))
      else validate_items i (j + 1) rest
  | _ :: _ =>
      Raise (ValueError ("Элемент " ++ at_item i j ++ " должен быть объектом"))
  end.

(** The outer loop: [for i, filter_group in enumerate(self.filters)].  Each
    element is an object by the declared type of the field, so the
    [isinstance(filter_group, dict)] test always passes. *)
Fixpoint validate_groups (i : Z) (l : list pydict) : result unit :=
  match l with
  | [] => Ok tt
  | filter_group :: rest =>
      if negb (dict_has filter_group "operator") then
        Raise (ValueError ("В " ++ at_group i ++ " отсутствует поле 'operator'"))
      else
        match dict_get filter_group "items" with
        | None => Raise (ValueError ("В " ++ at_group i ++ " отсутствует поле 'items'"))
        | Some (VList (item :: items)) =>
            _ <- validate_items i 0 (item :: items) ;;
            validate_groups (i + 1) rest
        | Some _ =>
            Raise (ValueError
                     ("Поле 'items' в " ++ at_group i ++ " должно быть непустым списком"))
        end
  end.

(** The mapping branch: [for key, value in self.filters.items()]. *)
Fixpoint validate_mapping (d : pydict) : result unit :=
  match d with
  | [] => Ok tt
  | (key, value) :: rest =>
      if PyStr.is_empty key || PyStr.is_empty (PyStr.strip key) then
        Raise (ValueError "Ключ фильтра не может быть пустым")
      else if is_none value then
        Raise (ValueError ("Значение фильтра для поля '" ++ key ++ "' не может быть None"))
      else validate_mapping rest
  end.

(** [not self.advanced_filters]: absent or empty. *)
Definition advanced_or_empty (a : option (list pydict)) : list pydict :=
  match a with
  | Some l => l
  | None => []
  end.

(** [normalize_and_validate_filters], the model validator run after the
    fields. *)
Definition normalize_and_validate_filters (self : t) : result t :=
  match filters self with
  | FList l =>
      let advanced := advanced_or_empty (advanced_filters self) in
      _ <- validate_groups 0 l ;;
      Ok {| offset := offset self; limit := limit self; order_by := order_by self;
            asc := asc self;
            filters := FDict [];
            advanced_filters := Some (advanced ++ l)%list |}
  | FDict d =>
      _ <- validate_mapping d ;;
      Ok self
  | FNone => Ok self
  end.

(** [FilterParams(offset=..., ...)]: the field validators, then the model
    validator, whose [ValueError] is reported as a validation error. *)
Definition make (offset limit : Z) (order_by : option string) (asc : Z)
    (filters : filters_t) (advanced_filters : option (list pydict)) : result t :=
  match validate_offset offset, validate_limit limit, validate_order_by order_by,
        validate_asc asc with
  | Ok o, Ok l, Ok ob, Ok a =>
      match normalize_and_validate_filters
              {| offset := o; limit := l; order_by := ob; asc := a;
                 filters := filters; advanced_filters := advanced_filters |} with
      | Ok p => Ok p
      | Raise e => Raise (ValidationError (errors_of (Raise e : result t)))
      end
  | ro, rl, rob, ra =>
      Raise (ValidationError (errors_of ro ++ errors_of rl ++ errors_of rob ++ errors_of ra))
  end.

(** [FilterParams()] *)
Definition default : t :=
  {| offset := 0; limit := 50; order_by := None; asc := 1;
     filters := FDict []; advanced_filters := Some [] |}.

Definition is_desc (self : t) : bool := asc self =? 0.

Definition has_simple (self : t) : bool :=
  match filters self with
  | FDict (_ :: _) => true
  | _ => false
  end.

Definition has_advanced (self : t) : bool :=
  match advanced_filters self with
  | Some (_ :: _) => true
  | _ => false
  end.

Definition has_only_pagination_and_sorting (self : t) : bool :=
  negb (has_simple self || has_advanced self).

Definition has_any_filters (self : t) : bool :=
  has_simple self || has_advanced self.

End FilterParams.

Module FilterResult.

Record t := { items : list pyval; total : Z }.

(** [FilterResult(items=..., total=...)] with [total: int = Field(ge=0)]. *)
Definition make (items : list pyval) (total : pyval) : result t :=
  match total with
  | VInt n =>
      if 0 <=? n then Ok {| items := items; total := n |}
      else Raise (ValidationError ["Input should be greater than or equal to 0"])
  | _ => Raise (ValidationError ["Input should be a valid integer"])
  end.

End FilterResult.

Module FilterConfig.

Record t := {
  allowed_fields : option (list string);
  default_limit : Z;
  max_limit : Z;
  default_order_by : option string
}.

(** [FilterConfig(allowed_fields, default_limit, max_limit, default_order_by)]:
    an absent or empty allow-list is stored as [None]. *)
Definition make (allowed_fields : option (list string)) (default_limit max_limit : Z)
    (default_order_by : option string) : t :=
  {| allowed_fields :=
       match allowed_fields with
       | Some (f :: fs) => Some (f :: fs)
       | _ => None
       end;
     default_limit := default_limit;
     max_limit := max_limit;
     default_order_by := default_order_by |}.

(** [FilterConfig()] *)
Definition default : t := make None 50 1000 None.

End FilterConfig.

(** ** The storage collaborator *)

Module Select.

(** A composable query over the bound entity: [select(model)] extended by
    [.where], [.order_by], [.offset] and [.limit]. *)
Record t := {
  whereclause : list predicate;
  order_by_clauses : list (column * bool);
  offset_clause : option Z;
  limit_clause : option Z
}.

(** [select(model)] *)
Definition select : t :=
  {| whereclause := []; order_by_clauses := []; offset_clause := None; limit_clause := None |}.

Definition where_ (q : t) (p : predicate) : t :=
  {| whereclause := whereclause q ++ [p]; order_by_clauses := order_by_clauses q;
     offset_clause := offset_clause q; limit_clause := limit_clause q |}.

(** [q.order_by(column.desc())] when [desc], else [q.order_by(column.asc())]. *)
Definition order_by (q : t) (c : column) (desc : bool) : t :=
  {| whereclause := whereclause q; order_by_clauses := order_by_clauses q ++ [(c, desc)];
     offset_clause := offset_clause q; limit_clause := limit_clause q |}.

Definition offset (q : t) (n : Z) : t :=
  {| whereclause := whereclause q; order_by_clauses := order_by_clauses q;
     offset_clause := Some n; limit_clause := limit_clause q |}.

Definition limit (q : t) (n : Z) : t :=
  {| whereclause := whereclause q; order_by_clauses := order_by_clauses q;
     offset_clause := offset_clause q; limit_clause := Some n |}.

End Select.

(** What [session.exec] is given: a query for rows, or
    [select(func.count()).select_from(q.subquery())]. *)
Inductive statement :=
| Rows (q : Select.t)
| Count (q : Select.t).

Definition row := pydict.

(** The storage engine's own semantics: which rows satisfy a predicate, and
    how rows are put in the order of an ORDER BY list (a rearrangement of
    the rows). *)
Class Backend := {
  holds : predicate -> row -> bool;
  sort_rows : list (column * bool) -> list row -> list row;
  sort_rows_perm : forall keys l, Permutation (sort_rows keys l) l
}.

(** The session: the rows of the entity's table, and the statements executed
    so far. *)
Record session := { table : list row; executed : list statement }.

Section Storage.
Context {B : Backend}.

Definition matches (q : Select.t) (r : row) : bool :=
  forallb (fun p => holds p r) (Select.whereclause q).

(** OFFSET and LIMIT; the engine rejects a negative count. *)
Definition drop_rows (n : option Z) (l : list row) : result (list row) :=
  match n with
  | None => Ok l
  | Some k => if k <? 0 then Raise StorageError else Ok (skipn (Z.to_nat k) l)
  end.

Definition take_rows (n : option Z) (l : list row) : result (list row) :=
  match n with
  | None => Ok l
  | Some k => if k <? 0 then Raise StorageError else Ok (firstn (Z.to_nat k) l)
  end.

Definition run_select (tbl : list row) (q : Select.t) : result (list row) :=
  let sorted := sort_rows (Select.order_by_clauses q) (filter (matches q) tbl) in
  skipped <- drop_rows (Select.offset_clause q) sorted ;;
  take_rows (Select.limit_clause q) skipped.

(** The rows a statement yields: entity records, or the single count. *)
Definition run (tbl : list row) (st : statement) : result (list pyval) :=
  match st with
  | Rows q => rows <- run_select tbl q ;; Ok (map VDict rows)
  | Count q => rows <- run_select tbl q ;; Ok [VInt (Z.of_nat (List.length rows))]
  end.

End Storage.

(** ** The session monad *)

Definition M (A : Type) : Type := session -> result A * session.

Definition ret {A} (a : A) : M A := fun s => (Ok a, s).

Definition lift {A} (r : result A) : M A := fun s => (r, s).

Definition bindM {A C} (m : M A) (k : A -> M C) : M C :=
  fun s =>
    match m s with
    | (Ok a, s') => k a s'
    | (Raise e, s') => (Raise e, s')
    end.

Notation "x <~ m ;; k" := (bindM m (fun x => k))
  (at level 61, m at next level, right associativity).

(** [await session.exec(st)] *)
Definition exec {B : Backend} (st : statement) : M (list pyval) :=
  fun s => (run (table s) st, {| table := table s; executed := executed s ++ [st] |}).

(** [result.one()]: exactly one row. *)
Definition one (rows : list pyval) : result pyval :=
  match rows with
  | [x] => Ok x
  | _ => Raise StorageError
  end.

(** [result.all()] *)
Definition all (rows : list pyval) : list pyval := rows.

(** ** Dynamic operations of [filter_by_params] on unvalidated JSON values *)

Module Dyn.

(** [key in v] *)
Definition contains (v : pyval) (key : string) : result bool :=
  match v with
  | VDict d => Ok (dict_has d key)
  | VStr s => Ok (PyStr.contains key s)
  | VList l =>
      Ok (existsb (fun x => match x with VStr s => String.eqb s key | _ => false end) l)
  | _ => Raise TypeError
  end.

(** [v[key]] for a string key. *)
Definition getitem (v : pyval) (key : string) : result pyval :=
  match v with
  | VDict d =>
      match dict_get d key with
      | Some x => Ok x
      | None => Raise KeyError
      end
  | _ => Raise TypeError
  end.

Fixpoint chars (s : string) : list pyval :=
  match s with
  | EmptyString => []
  | String c r => VStr (String c EmptyString) :: chars r
  end.

(** [for item in v] *)
Definition iter (v : pyval) : result (list pyval) :=
  match v with
  | VList l => Ok l
  | VDict d => Ok (map (fun kv => VStr (fst kv)) d)
  | VStr s => Ok (chars s)
  | _ => Raise TypeError
  end.

(** [v.lower()] *)
Definition lower (v : pyval) : result string :=
  match v with
  | VStr s => Ok (PyStr.lower s)
  | _ => Raise AttributeError
  end.

(** [', '.join(l)]: every element must be a string. *)
Fixpoint strings (l : list pyval) : result (list string) :=
  match l with
  | [] => Ok []
  | VStr s :: r => ss <- strings r ;; Ok (s :: ss)
  | _ :: _ => Raise TypeError
  end.

Definition join (sep : string) (l : list pyval) : result string :=
  ss <- strings l ;; Ok (PyStr.join sep ss).

(** [v.get(key, default)] *)
Definition get (v : pyval) (key : string) (default : pyval) : result pyval :=
  match v with
  | VDict d =>
      match dict_get d key with
      | Some x => Ok x
      | None => Ok default
      end
  | _ => Raise AttributeError
  end.

End Dyn.

(** ** engine.py: [AsyncQueryFilterEngine] *)

(** The entity class as the engine inspects it: the keys of [model_fields]
    and the column keys of [__table__] when the class has them, and the
    attributes [getattr] finds, each with whether it has a [type]. *)
Record ModelClass := {
  model_fields : option (list string);
  table_columns : option (list string);
  attributes : list (string * bool)
}.

Module AsyncQueryFilterEngine.

Record t := {
  _model : ModelClass;
  _config : FilterConfig.t;
  _model_fields : list string
}.

Definition or_empty (l : option (list string)) : list string :=
  match l with Some x => x | None => [] end.

Definition _get_model_fields (model : ModelClass) : list string :=
  (or_empty (model_fields model) ++ or_empty (table_columns model)
   ++ map fst
        (filter (fun a => negb (PyStr.is_prefix "_" (fst a)) && snd a) (attributes model)))%list.

(** [AsyncQueryFilterEngine(model, config)] *)
Definition make (model : ModelClass) (config : option FilterConfig.t) : t :=
  {| _model := model;
     _config := match config with Some c => c | None => FilterConfig.default end;
     _model_fields := _get_model_fields model |}.

Definition _validate_field (self : t) (field_name : string) : bool :=
  match FilterConfig.allowed_fields (_config self) with
  | Some (f :: fs) => PyStr.mem field_name (f :: fs)
  | _ => PyStr.mem field_name (_model_fields self)
  end.

(** [getattr(self._model, name)] *)
Definition getattr_model (self : t) (name : string) : result column :=
  if PyStr.mem name (map fst (attributes (_model self))) then Ok name
  else Raise AttributeError.

(** The truth value of an optional string: present and not empty. *)
Definition truthy_str (s : option string) : bool :=
  match s with
  | Some (String _ _) => true
  | _ => false
  end.

Definition str_or_empty (s : option string) : string :=
  match s with
  | Some x => x
  | None => EmptyString
  end.

Section WithRuntime.
Context {RT : PyRuntime}.

Definition truthy_words : list string := ["true"; "1"; "yes"; "on"].

(** The [converters] table of [_cast_value]; a missing key is a [KeyError]. *)
Definition converters (key : string) : result (pyval -> result pyval) :=
  if String.eqb key "str" then Ok (fun x => Ok (VStr (Py.str x)))
  else if String.eqb key "int" then Ok Py.to_int
  else if String.eqb key "float" then Ok Py.to_float
  else if String.eqb key "bool" then
    Ok (fun x => Ok (VBool (PyStr.mem (PyStr.lower (Py.str x)) truthy_words)))
  else if String.eqb key "date" then
    Ok (fun x =>
          match fromisoformat (PyStr.replace "Z" "+00:00" (Py.str x)) with
          | Some dt => Ok (VDate (dt_date dt))
          | None => Raise (ValueError "Invalid isoformat string")
          end)
  else Raise KeyError.

(** [except (KeyError, ValueError, TypeError)] *)
Definition cast_caught (e : exn) : bool :=
  match e with
  | KeyError | ValueError _ | ValidationError _ | TypeError => true
  | _ => false
  end.

Definition _cast_value (value : pyval) (type_hint : option string) : result pyval :=
  match type_hint with
  | Some (String c h) =>
      if is_none value then Ok value
      else
        match (conv <- converters (String c h) ;; conv value) with
        | Ok v => Ok v
        | Raise e => if cast_caught e then Ok value else Raise e
        end
  | _ => Ok value
  end.

(** [_build_condition]: [None] when the field is not allowed or is not an
    attribute of the entity. *)
Definition _build_condition (self : t) (filter_item : Filter.t) : result (option predicate) :=
  if negb (_validate_field self (Filter.name filter_item)) then Ok None
  else
    match (column <- getattr_model self (Filter.name filter_item) ;;
           value <- _cast_value (Filter.value filter_item) (Filter.type_ filter_item) ;;
           Ok (Some (Op.apply (Filter.op filter_item) column value))) with
    | Raise AttributeError => Ok None
    | r => r
    end.

(** The inner loop of [_apply_filter_groups]. *)
Fixpoint group_conditions (self : t) (filters : list Filter.t) : result (list predicate) :=
  match filters with
  | [] => Ok []
  | filter_item :: rest =>
      condition <- _build_condition self filter_item ;;
      conditions <- group_conditions self rest ;;
      Ok (match condition with
          | Some c => c :: conditions
          | None => conditions
          end)
  end.

Fixpoint _apply_filter_groups (self : t) (query : Select.t) (groups : list FilterGroup.t)
  : result Select.t :=
  match groups with
  | [] => Ok query
  | group :: rest =>
      conditions <- group_conditions self (FilterGroup.filters group) ;;
      let query' :=
        match conditions with
        | [] => query
        | _ =>
            Select.where_ query
              (if String.eqb (FilterGroup.op group) "and" then PAnd conditions
               else POr conditions)
        end in
      _apply_filter_groups self query' rest
  end.

Definition _apply_sorting (self : t) (query : Select.t) (order_by : option string)
    (desc : bool) : result Select.t :=
  let default_order_by := FilterConfig.default_order_by (_config self) in
  if truthy_str order_by && _validate_field self (str_or_empty order_by) then
    column <- getattr_model self (str_or_empty order_by) ;;
    Ok (Select.order_by query column desc)
  else if truthy_str default_order_by
          && _validate_field self (str_or_empty default_order_by) then
    column <- getattr_model self (str_or_empty default_order_by) ;;
    Ok (Select.order_by query column false)
  else Ok query.

Definition _apply_pagination (self : t) (query : Select.t) (offset limit : Z) : Select.t :=
  let limit := Z.min limit (FilterConfig.max_limit (_config self)) in
  Select.limit (Select.offset query offset) limit.

End WithRuntime.

(** *** The entry points *)

Definition invalid_fields_message (names : string) : string :=
  "'Недопустимые поля для фильтрации: " ++ names ++ "'".

(** [self._validate_field(field_name)] on a value that was not checked to be
    a string: a list or a dict cannot be hashed, and no other value is in a
    set of names. *)
Definition _validate_field_value (self : t) (field_name : pyval) : result bool :=
  match field_name with
  | VStr s => Ok (_validate_field self s)
  | VList _ | VDict _ => Raise TypeError
  | _ => Ok false
  end.

Section Entries.
Context {RT : PyRuntime}.

(** The body of the loop over the simple filters. *)
Definition simple_step (self : t) (key : string) (value : pyval)
    (simple_filters : list Filter.t) (invalid_fields : list string)
  : result (list Filter.t * list string) :=
  if _validate_field self key then
    f <- Filter.make (VStr key) (inl Op.EQ) value VNone ;;
    Ok (simple_filters ++ [f], invalid_fields)%list
  else Ok (simple_filters, invalid_fields ++ [key])%list.

(** [for key, value in filter_params.filters.items()] *)
Fixpoint simple_loop (self : t) (d : pydict) (simple_filters : list Filter.t)
    (invalid_fields : list string) : result (list Filter.t * list string) :=
  match d with
  | [] => Ok (simple_filters, invalid_fields)
  | (key, value) :: rest =>
      ' (simple_filters, invalid_fields) <-
          simple_step self key value simple_filters invalid_fields ;;
      simple_loop self rest simple_filters invalid_fields
  end.

(** The block under [if filter_params.filters:]. *)
Definition simple_stage (self : t) (filters : FilterParams.filters_t) (query : Select.t)
  : result Select.t :=
  match filters with
  | FilterParams.FDict (kv :: d) =>
      ' (simple_filters, invalid_fields) <- simple_loop self (kv :: d) [] [] ;;
      match invalid_fields with
      | _ :: _ =>
          Raise (ValueError (invalid_fields_message (PyStr.join ", " invalid_fields)))
      | [] =>
          match simple_filters with
          | _ :: _ =>
              group <- FilterGroup.make "and" simple_filters ;;
              _apply_filter_groups self query [group]
          | [] => Ok query
          end
      end
  | FilterParams.FList (_ :: _) => Raise AttributeError
  | _ => Ok query
  end.

(** The body of the loop over the items of one advanced group. *)
Definition item_step (self : t) (item : pyval) (filters : list Filter.t)
    (invalid_fields : list pyval) : result (list Filter.t * list pyval) :=
  has_name <- Dyn.contains item "name" ;;
  has_value <- (if has_name then Dyn.contains item "value" else Ok false) ;;
  if has_name && has_value then
    field_name <- Dyn.getitem item "name" ;;
    allowed <- _validate_field_value self field_name ;;
    if negb allowed then Ok (filters, invalid_fields ++ [field_name])%list
    else
      op_str <- Dyn.get item "operator" (VStr "=") ;;
      filter_op <- Op.from_string op_str ;;
      value <- Dyn.getitem item "value" ;;
      data_type <- Dyn.get item "data_type" VNone ;;
      f <- Filter.make field_name (inl filter_op) value data_type ;;
      Ok (filters ++ [f], invalid_fields)%list
  else Ok (filters, invalid_fields).

(** [for item in advanced_filter['items']] *)
Fixpoint items_loop (self : t) (items : list pyval) (filters : list Filter.t)
    (invalid_fields : list pyval) : result (list Filter.t * list pyval) :=
  match items with
  | [] => Ok (filters, invalid_fields)
  | item :: rest =>
      ' (filters, invalid_fields) <- item_step self item filters invalid_fields ;;
      items_loop self rest filters invalid_fields
  end.

(** The body of the loop over the advanced groups. *)
Definition group_step (self : t) (advanced_filter : pydict)
    (advanced_groups : list FilterGroup.t) : result (list FilterGroup.t) :=
  if dict_has advanced_filter "operator" && dict_has advanced_filter "items" then
    operator <- Dyn.getitem (VDict advanced_filter) "operator" ;;
    group_op_str <- Dyn.lower operator ;;
    let group_op := if PyStr.mem group_op_str ["and"; "all"] then "and" else "or" in
    items_value <- Dyn.getitem (VDict advanced_filter) "items" ;;
    items <- Dyn.iter items_value ;;
    ' (filters, invalid_fields) <- items_loop self items [] [] ;;
    match invalid_fields with
    | _ :: _ =>
        names <- Dyn.join ", " invalid_fields ;;
        Raise (ValueError (invalid_fields_message names))
    | [] =>
        match filters with
        | _ :: _ =>
            group <- FilterGroup.make group_op filters ;;
            Ok (advanced_groups ++ [group])%list
        | [] => Ok advanced_groups
        end
    end
  else Ok advanced_groups.

(** [for advanced_filter in filter_params.advanced_filters] *)
Fixpoint groups_loop (self : t) (advanced_filters : list pydict)
    (advanced_groups : list FilterGroup.t) : result (list FilterGroup.t) :=
  match advanced_filters with
  | [] => Ok advanced_groups
  | advanced_filter :: rest =>
      advanced_groups <- group_step self advanced_filter advanced_groups ;;
      groups_loop self rest advanced_groups
  end.

(** The block under [if filter_params.advanced_filters:]. *)
Definition advanced_stage (self : t) (advanced_filters : option (list pydict))
    (query : Select.t) : result Select.t :=
  match advanced_filters with
  | Some (a :: l) =>
      advanced_groups <- groups_loop self (a :: l) [] ;;
      match advanced_groups with
      | _ :: _ => _apply_filter_groups self query advanced_groups
      | [] => Ok query
      end
  | _ => Ok query
  end.

Context {B : Backend}.

Definition filter_by_query (self : t) (filter_query : FilterQuery.t) : M FilterResult.t :=
  let query := Select.select in
  query <~ lift (_apply_filter_groups self query (FilterQuery.groups filter_query)) ;;
  let count_query := Count query in
  query <~ lift (_apply_sorting self query (FilterQuery.order_by filter_query)
                   (FilterQuery.desc filter_query)) ;;
  let query := _apply_pagination self query (FilterQuery.offset filter_query)
                 (FilterQuery.limit filter_query) in
  total_row <~ exec count_query ;;
  total <~ lift (one total_row) ;;
  items_result <~ exec (Rows query) ;;
  let items := all items_result in
  lift (FilterResult.make items total).

Definition filter_by_params (self : t) (filter_params : FilterParams.t) : M FilterResult.t :=
  let query := Select.select in
  query <~ lift (simple_stage self (FilterParams.filters filter_params) query) ;;
  query <~ lift (advanced_stage self (FilterParams.advanced_filters filter_params) query) ;;
  let count_query := Count query in
  result <~ exec count_query ;;
  total <~ lift (one result) ;;
  query <~ lift (_apply_sorting self query (FilterParams.order_by filter_params)
                   (FilterParams.is_desc filter_params)) ;;
  let query := _apply_pagination self query (FilterParams.offset filter_params)
                 (FilterParams.limit filter_params) in
  result <~ exec (Rows query) ;;
  let items := all result in
  lift (FilterResult.make items total).

(** [size or self._config.default_limit] *)
Definition size_or_default (self : t) (size : option Z) : Z :=
  match size with
  | Some n => if n =? 0 then FilterConfig.default_limit (_config self) else n
  | None => FilterConfig.default_limit (_config self)
  end.

Definition paginate (self : t) (page : Z) (size : option Z) (order_by : option string)
    (desc : bool) : M FilterResult.t :=
  let size := size_or_default self size in
  let offset := (page - 1) * size in
  filter_query <~ lift (FilterQuery.make offset size order_by desc []) ;;
  filter_by_query self filter_query.

(** The comprehension of [quick_filter]: one equality condition per allowed
    key, in the order of the keyword arguments. *)
Fixpoint quick_items (self : t) (filters : pydict) : result (list Filter.t) :=
  match filters with
  | [] => Ok []
  | (key, value) :: rest =>
      if _validate_field self key then
        f <- Filter.make (VStr key) (inl Op.EQ) value VNone ;;
        items <- quick_items self rest ;;
        Ok (f :: items)
      else quick_items self rest
  end.

(** [FilterQuery(groups=[FilterGroup(filters=filter_items)])] *)
Definition one_group_query (filter_items : list Filter.t) : result FilterQuery.t :=
  group <- FilterGroup.make "and" filter_items ;;
  FilterQuery.make 0 50 None false [group].

Definition quick_filter (self : t) (filters : pydict) : M FilterResult.t :=
  filter_items <~ lift (quick_items self filters) ;;
  filter_query <~ lift (match filter_items with
                        | [] => Ok FilterQuery.default
                        | _ => one_group_query filter_items
                        end) ;;
  filter_by_query self filter_query.

(** [int(url_params[key])] when the key is present, else the default of the
    field. *)
Definition url_int (url_params : pydict) (key : string) (default : Z) : result Z :=
  match dict_get url_params key with
  | None => Ok default
  | Some v =>
      n <- Py.to_int v ;;
      match n with
      | VInt k => Ok k
      | _ => Raise TypeError
      end
  end.

(** [url_params['asc'] == '0'] when the key is present. *)
Definition url_desc (url_params : pydict) : bool :=
  match dict_get url_params "asc" with
  | Some (VStr s) => String.eqb s "0"
  | _ => false
  end.

Definition exclude_params : list string := ["offset"; "limit"; "order_by"; "asc"].

(** The comprehension of [filter_by_url]. *)
Fixpoint url_items (self : t) (url_params : pydict) : result (list Filter.t) :=
  match url_params with
  | [] => Ok []
  | (key, value) :: rest =>
      if negb (PyStr.mem key exclude_params) && _validate_field self key then
        f <- Filter.make (VStr key) (inl Op.EQ) value VNone ;;
        items <- url_items self rest ;;
        Ok (f :: items)
      else url_items self rest
  end.

(** The [order_by] the query is left with, as [_apply_sorting] reads it: a
    string is kept as it is; a list or a dict that is not empty cannot be
    hashed for the membership test; every other value is either false or in
    no set of names, and sorting goes on as without an [order_by]. *)
Definition url_order_by (url_params : pydict) : result (option string) :=
  match dict_get url_params "order_by" with
  | Some (VStr s) => Ok (Some s)
  | Some (VList (_ :: _)) | Some (VDict (_ :: _)) => Raise TypeError
  | _ => Ok None
  end.

(** [filter_by_url]: the fields of [FilterQuery()] are assigned without
    validation.  The conditions built here have no declared type, so
    applying them does not raise, and the failure of an unhashable
    [order_by] is the first one after the conditions are built. *)
Definition filter_by_url (self : t) (url_params : pydict) : M FilterResult.t :=
  offset <~ lift (url_int url_params "offset" 0) ;;
  limit <~ lift (url_int url_params "limit" 50) ;;
  let desc := url_desc url_params in
  simple_filters <~ lift (url_items self url_params) ;;
  groups <~ lift (match simple_filters with
                  | [] => Ok []
                  | _ => group <- FilterGroup.make "and" simple_filters ;; Ok [group]
                  end) ;;
  order_by <~ lift (url_order_by url_params) ;;
  filter_by_query self
    {| FilterQuery.offset := offset; FilterQuery.limit := limit;
       FilterQuery.order_by := order_by; FilterQuery.desc := desc;
       FilterQuery.groups := groups |}.

End Entries.

End AsyncQueryFilterEngine.

(** ** services/filter.py: [FilterService] *)

Module FilterService.

Import AsyncQueryFilterEngine.

Definition _get_engine (model : ModelClass) (engine : option AsyncQueryFilterEngine.t)
  : AsyncQueryFilterEngine.t :=
  match engine with
  | Some e => e
  | None => AsyncQueryFilterEngine.make model None
  end.

(** The two [except] clauses of [filter_with_json]. *)
Definition reraise {A} (m : M A) : M A :=
  fun s =>
    match m s with
    | (Raise (ValidationError errors), s') => (Raise (EXC ValidationErrorCode errors), s')
    | (Raise (ValueError msg), s') => (Raise (EXC ValidationErrorCode [msg]), s')
    | r => r
    end.

Section Service.
Context {RT : PyRuntime} {B : Backend}.

(** [FilterQuery] and [FilterParams] built from the keys of [json_data]:
    pydantic's reading of a JSON object into the validated models. *)
Variable parse_FilterQuery : pydict -> result FilterQuery.t.
Variable parse_FilterParams : pydict -> result FilterParams.t.

(** [filter_with_json], run inside the session the caller supplied or the
    pool handed out. *)
Definition filter_with_json (model : ModelClass) (json_data : pydict)
    (engine : option AsyncQueryFilterEngine.t) : M FilterResult.t :=
  reraise
    match json_data with
    | [] =>
        let engine := _get_engine model engine in
        paginate engine 1 (Some 50) None false
    | _ =>
        let engine := _get_engine model engine in
        if dict_has json_data "groups" then
          query <~ lift (parse_FilterQuery json_data) ;;
          filter_by_query engine query
        else
          params <~ lift (parse_FilterParams json_data) ;;
          if FilterParams.has_only_pagination_and_sorting params then
            filter_query <~ lift (FilterQuery.make (FilterParams.offset params)
                                    (FilterParams.limit params)
                                    (FilterParams.order_by params)
                                    (FilterParams.is_desc params) []) ;;
            filter_by_query engine filter_query
          else filter_by_params engine params
    end.


(** [quick_filter] of the service. *)
Definition quick_filter (model : ModelClass) (engine : option AsyncQueryFilterEngine.t)
    (filters : pydict) : M FilterResult.t :=
  let engine := _get_engine model engine in
  AsyncQueryFilterEngine.quick_filter engine filters.

(** [paginate] of the service; [size] is 20 when the caller gives none. *)
Definition paginate (model : ModelClass) (page size : Z) (order_by : option string)
    (engine : option AsyncQueryFilterEngine.t) (desc : bool) : M FilterResult.t :=
  let engine := _get_engine model engine in
  AsyncQueryFilterEngine.paginate engine page (Some size) order_by desc.

End Service.

End FilterService.

(** ** A runtime and a backend to evaluate the model on concrete inputs *)

Module Sample.

Definition obind {A C} (o : option A) (k : A -> option C) : option C :=
  match o with
  | Some a => k a
  | None => None
  end.

(** Exactly [n] decimal digits. *)
Fixpoint read_digits (n : nat) (acc : Z) (s : string) : option (Z * string) :=
  match n, s with
  | O, _ => Some (acc, s)
  | S n', String c r =>
      if Py.is_digit c then read_digits n' (10 * acc + Py.digit_val c) r else None
  | S _, EmptyString => None
  end.

Definition expect (c : ascii) (s : string) : option string :=
  match s with
  | String c' r => if Ascii.eqb c c' then Some r else None
  | EmptyString => None
  end.

Definition is_leap (y : Z) : bool :=
  ((y mod 4 =? 0) && negb (y mod 100 =? 0)) || (y mod 400 =? 0).

Definition days_in_month (y m : Z) : Z :=
  if m =? 2 then (if is_leap y then 29 else 28)
  else if (m =? 4) || (m =? 6) || (m =? 9) || (m =? 11) then 30
  else 31.

Definition between (lo x hi : Z) : bool := (lo <=? x) && (x <=? hi).

(** [+HH:MM] or [-HH:MM] up to the end of the string, in seconds. *)
Definition read_offset (s : string) : option Z :=
  match s with
  | String sign r =>
      if Ascii.eqb sign "+" || Ascii.eqb sign "-" then
        obind (read_digits 2 0 r) (fun '(h, r1) =>
        obind (expect ":" r1) (fun r2 =>
        obind (read_digits 2 0 r2) (fun '(m, r3) =>
          if PyStr.is_empty r3 && between 0 h 23 && between 0 m 59 then
            Some ((if Ascii.eqb sign "-" then -1 else 1) * (h * 3600 + m * 60))
          else None)))
      else None
  | EmptyString => None
  end.

(** The forms [YYYY-MM-DD], [YYYY-MM-DDTHH:MM:SS] and
    [YYYY-MM-DDTHH:MM:SS+HH:MM] of [datetime.fromisoformat]; every other
    string is refused. *)
Definition parse_iso (s : string) : option datetime :=
  obind (read_digits 4 0 s) (fun '(y, r1) =>
  obind (expect "-" r1) (fun r2 =>
  obind (read_digits 2 0 r2) (fun '(m, r3) =>
  obind (expect "-" r3) (fun r4 =>
  obind (read_digits 2 0 r4) (fun '(d, r5) =>
    if between 1 y 9999 && between 1 m 12 && between 1 d (days_in_month y m) then
      let the_date := {| year := y; month := m; day := d |} in
      match r5 with
      | EmptyString =>
          Some {| dt_date := the_date; hour := 0; minute := 0; second := 0;
                  microsecond := 0; utcoffset := None |}
      | String sep r6 =>
          if Ascii.eqb sep "T" || Ascii.eqb sep " " then
            obind (read_digits 2 0 r6) (fun '(hh, r7) =>
            obind (expect ":" r7) (fun r8 =>
            obind (read_digits 2 0 r8) (fun '(mi, r9) =>
            obind (expect ":" r9) (fun r10 =>
            obind (read_digits 2 0 r10) (fun '(ss, r11) =>
              if between 0 hh 23 && between 0 mi 59 && between 0 ss 59 then
                match r11 with
                | EmptyString =>
                    Some {| dt_date := the_date; hour := hh; minute := mi; second := ss;
                            microsecond := 0; utcoffset := None |}
                | _ =>
                    obind (read_offset r11) (fun off =>
                      Some {| dt_date := the_date; hour := hh; minute := mi; second := ss;
                              microsecond := 0; utcoffset := Some off |})
                end
              else None)))))
          else None
      end
    else None))))).

Fixpoint drop_trailing_zeros (s : string) : string :=
  match s with
  | EmptyString => EmptyString
  | String c r =>
      match drop_trailing_zeros r with
      | EmptyString => if Ascii.eqb c "0" then EmptyString else String c EmptyString
      | r' => String c r'
      end
  end.

(** The exact decimal expansion of a float, which is what [repr] prints for
    the floats whose expansion is short. *)
Definition print_float (f : spec_float) : string :=
  match f with
  | S754_zero s => if s then "-0.0" else "0.0"
  | S754_infinity s => if s then "-inf" else "inf"
  | S754_nan => "nan"
  | S754_finite s m e =>
      (if s then "-" else "") ++
      (if 0 <=? e then PyStr.of_Z (Z.pos m * 2 ^ e) ++ ".0"
       else
         let k := - e in
         let frac := drop_trailing_zeros
                       (PyStr.pad (Z.to_nat k) (PyStr.of_Z ((Z.pos m mod 2 ^ k) * 5 ^ k))) in
         PyStr.of_Z (Z.pos m / 2 ^ k) ++ "." ++ (if PyStr.is_empty frac then "0" else frac))
  end.

(** [float(s)] on decimal integer literals; every other string is refused. *)
Definition parse_float (s : string) : option spec_float :=
  option_map Py.float_of_Z (Py.int_of_str s).

Definition runtime : PyRuntime :=
  {| float_repr := print_float;
     float_of_str := parse_float;
     fromisoformat := parse_iso |}.

Definition float_eqb (a b : spec_float) : bool :=
  match a, b with
  | S754_zero s, S754_zero s' => Bool.eqb s s'
  | S754_infinity s, S754_infinity s' => Bool.eqb s s'
  | S754_finite s m e, S754_finite s' m' e' => Bool.eqb s s' && Pos.eqb m m' && (e =? e')
  | _, _ => false
  end.

Definition date_eqb (a b : date) : bool :=
  (year a =? year b) && (month a =? month b) && (day a =? day b).

Fixpoint val_eqb (a b : pyval) {struct a} : bool :=
  match a, b with
  | VNone, VNone => true
  | VBool x, VBool y => Bool.eqb x y
  | VInt x, VInt y => x =? y
  | VFloat x, VFloat y => float_eqb x y
  | VStr x, VStr y => String.eqb x y
  | VDate x, VDate y => date_eqb x y
  | VList x, VList y =>
      (fix go (l1 l2 : list pyval) : bool :=
         match l1, l2 with
         | [], [] => true
         | u :: r1, v :: r2 => val_eqb u v && go r1 r2
         | _, _ => false
         end) x y
  | VDict x, VDict y =>
      (fix go (l1 l2 : list (string * pyval)) : bool :=
         match l1, l2 with
         | [], [] => true
         | (k1, u) :: r1, (k2, v) :: r2 => String.eqb k1 k2 && val_eqb u v && go r1 r2
         | _, _ => false
         end) x y
  | _, _ => false
  end.

(** Comparison of a cell with a bound value: integers by order, every value
    by equality. *)
Definition compare_cell (o : cmp) (cell v : pyval) : bool :=
  match o, cell, v with
  | CmpEq, _, _ => val_eqb cell v
  | CmpNe, _, _ => negb (val_eqb cell v)
  | CmpGt, VInt a, VInt b => b <? a
  | CmpGe, VInt a, VInt b => b <=? a
  | CmpLt, VInt a, VInt b => a <? b
  | CmpLe, VInt a, VInt b => a <=? b
  | _, _, _ => false
  end.

(** The text between the two wildcards of a pattern [%text%]. *)
Fixpoint drop_last (s : string) : string :=
  match s with
  | EmptyString => EmptyString
  | String c EmptyString => EmptyString
  | String c r => String c (drop_last r)
  end.

Definition pattern_text (p : string) : string :=
  match p with
  | String _ r => drop_last r
  | EmptyString => EmptyString
  end.

Definition cell_text (cell : option pyval) : string :=
  match cell with
  | Some (VStr s) => s
  | _ => EmptyString
  end.

Fixpoint sample_holds (p : predicate) (r : row) {struct p} : bool :=
  match p with
  | PCmp o c v =>
      match dict_get r c with
      | Some cell => compare_cell o cell v
      | None => false
      end
  | PIn c vs =>
      match dict_get r c with
      | Some cell => existsb (val_eqb cell) vs
      | None => false
      end
  | PLike c pat => PyStr.contains (pattern_text pat) (cell_text (dict_get r c))
  | PILike c pat =>
      PyStr.contains (PyStr.lower (pattern_text pat)) (PyStr.lower (cell_text (dict_get r c)))
  | PNot q => negb (sample_holds q r)
  | PAnd ps => forallb (fun q => sample_holds q r) ps
  | POr ps => existsb (fun q => sample_holds q r) ps
  end.

Definition int_cell (r : row) (c : column) : Z :=
  match dict_get r c with
  | Some (VInt n) => n
  | _ => 0
  end.

(** Stable insertion by an integer column, ascending or descending. *)
Fixpoint insert_row (c : column) (desc : bool) (x : row) (l : list row) : list row :=
  match l with
  | [] => [x]
  | y :: r =>
      if negb (if desc then int_cell x c <? int_cell y c else int_cell y c <? int_cell x c)
      then x :: y :: r
      else y :: insert_row c desc x r
  end.

Definition sort_by (c : column) (desc : bool) (l : list row) : list row :=
  fold_right (insert_row c desc) [] l.

(** Lexicographic order on the list of keys: sort by the last key first. *)
Definition sample_sort (keys : list (column * bool)) (l : list row) : list row :=
  fold_right (fun k acc => sort_by (fst k) (snd k) acc) l keys.

Lemma insert_row_perm (c : column) (desc : bool) (x : row) (l : list row) :
  Permutation (insert_row c desc x l) (x :: l).
Proof.
  induction l as [|y r IH]; simpl.
  - apply Permutation_refl.
  - destruct (negb _).
    + apply Permutation_refl.
    + eapply Permutation_trans; [apply perm_skip, IH | apply perm_swap].
Qed.

Lemma sort_by_perm (c : column) (desc : bool) (l : list row) :
  Permutation (sort_by c desc l) l.
Proof.
  induction l as [|x r IH]; simpl.
  - apply perm_nil.
  - eapply Permutation_trans; [apply insert_row_perm | apply perm_skip, IH].
Qed.

Lemma sample_sort_perm (keys : list (column * bool)) (l : list row) :
  Permutation (sample_sort keys l) l.
Proof.
  induction keys as [|k ks IH]; simpl.
  - apply Permutation_refl.
  - eapply Permutation_trans; [apply sort_by_perm | exact IH].
Qed.

Definition backend : Backend :=
  {| holds := sample_holds; sort_rows := sample_sort; sort_rows_perm := sample_sort_perm |}.

(** The entity [User{id, name, age}] with three rows. *)
Definition User : ModelClass :=
  {| model_fields := Some ["id"; "name"; "age"];
     table_columns := Some ["id"; "name"; "age"];
     attributes := [("id", true); ("name", true); ("age", true); ("metadata", false)] |}.

Definition user (id : Z) (name : string) (age : Z) : row :=
  [("id", VInt id); ("name", VStr name); ("age", VInt age)].

Definition users : list row := [user 1 "a" 20; user 2 "b" 30; user 3 "c" 40].

Definition fresh_session : session := {| table := users; executed := [] |}.

(** The engine the service builds when it is given none. *)
Definition engine : AsyncQueryFilterEngine.t := AsyncQueryFilterEngine.make User None.

End Sample.

(** * The vocabulary of the statements, and sample data *)

(** The rendered list of aliases that ends every unsupported-operator
    message. *)
Definition alias_listing : string :=
  "['=', 'eq', '!=', 'ne', 'not_eq', '>', 'gt', '>=', 'gte', 'ge', '<', 'lt', '<=', 'lte', 'le', 'in', 'IN', 'not_in', 'NOT_IN', 'like', 'LIKE', 'ilike', 'ILIKE']".

(** A character a field name may hold: alphanumeric, [_] or [-]. *)
Definition name_char (c : ascii) : bool :=
  PyStr.isalnum_char c || Ascii.eqb c "_" || Ascii.eqb c "-".

(** The names [validate_name] lets through: made of name characters, at
    least one of them alphanumeric. *)
Definition valid_name (v : string) : bool :=
  PyStr.forall_chars name_char v && PyStr.has_alnum v.

(** The charset of the specification, [[A-Za-z0-9_-]+]. *)
Definition charset_char (c : ascii) : bool :=
  PyStr.is_ascii_alnum c || Ascii.eqb c "_" || Ascii.eqb c "-".

Definition matches_charset (v : string) : bool :=
  negb (PyStr.is_empty v) && PyStr.forall_chars charset_char v.

Definition is_ascii (c : ascii) : bool := (PyStr.code c <? 128)%N.

(** The accented letter U+00E9 is alphanumeric for [str.isalnum] and lies
    outside [[A-Za-z0-9_-]]. *)
Definition e_acute : string := String (ascii_of_N 233) EmptyString.

Definition is_list (v : pyval) : bool :=
  match v with VList _ => true | _ => false end.

Definition is_membership (op : Op.t) : bool :=
  match op with Op.IN | Op.NOT_IN => true | _ => false end.

(** A condition with its scalar operand written as a one-element list:
    applies to the membership operators when no type is declared. *)
Definition scalar_as_list (f : Filter.t) : Filter.t :=
  match Filter.type_ f with
  | None =>
      if is_membership (Filter.op f) && negb (is_list (Filter.value f)) then
        {| Filter.name := Filter.name f; Filter.op := Filter.op f;
           Filter.value := VList [Filter.value f]; Filter.type_ := None |}
      else f
  | Some _ => f
  end.

Definition group_scalars_as_lists (g : FilterGroup.t) : FilterGroup.t :=
  {| FilterGroup.op := FilterGroup.op g;
     FilterGroup.filters := map scalar_as_list (FilterGroup.filters g) |}.

Definition query_scalars_as_lists (q : FilterQuery.t) : FilterQuery.t :=
  {| FilterQuery.offset := FilterQuery.offset q; FilterQuery.limit := FilterQuery.limit q;
     FilterQuery.order_by := FilterQuery.order_by q; FilterQuery.desc := FilterQuery.desc q;
     FilterQuery.groups := map group_scalars_as_lists (FilterQuery.groups q) |}.

(** An item with the keys [name] and [value]. *)
Definition item_ok (item : pyval) : bool :=
  match item with
  | VDict d => dict_has d "name" && dict_has d "value"
  | _ => false
  end.

(** A group with an [operator] key and a non-empty [items] list of such
    items. *)
Definition group_ok (g : pydict) : bool :=
  dict_has g "operator" &&
  match dict_get g "items" with
  | Some (VList (item :: items)) => forallb item_ok (item :: items)
  | _ => false
  end.

(** A group of one complete item on [field]. *)
Definition sample_group (field : string) : pydict :=
  [("operator", VStr "and");
   ("items", VList [VDict [("name", VStr field); ("value", VInt 1)]])].

(** A request whose [filters] is a one-group list and whose
    [advanced_filters] already holds a group. *)
Definition list_shaped_params : FilterParams.t :=
  {| FilterParams.offset := 0; FilterParams.limit := 50; FilterParams.order_by := None;
     FilterParams.asc := 1;
     FilterParams.filters := FilterParams.FList [sample_group "age"];
     FilterParams.advanced_filters := Some [sample_group "name"] |}.

Definition set_advanced_filters (p : FilterParams.t) (l : list pydict) : FilterParams.t :=
  {| FilterParams.offset := FilterParams.offset p; FilterParams.limit := FilterParams.limit p;
     FilterParams.order_by := FilterParams.order_by p; FilterParams.asc := FilterParams.asc p;
     FilterParams.filters := FilterParams.filters p;
     FilterParams.advanced_filters := Some l |}.

(** A group the engine processes: it has both keys. *)
Definition group_has_keys (g : pydict) : bool :=
  dict_has g "operator" && dict_has g "items".

(** Entries of directly supplied advanced filters: a group without
    [operator], an item without [value], a complete item, and a group of
    given items. *)
Definition group_without_operator : pydict :=
  [("items", VList [VDict [("name", VStr "secret"); ("value", VInt 1)]])].

Definition item_without_value : pydict := [("name", VStr "secret")].

Definition age_item : pyval :=
  VDict [("name", VStr "age"); ("operator", VStr ">="); ("value", VInt 30)].

Definition age_group (items : list pyval) : pydict :=
  [("operator", VStr "and"); ("items", VList items)].

Definition direct_params (advanced : list pydict) : FilterParams.t :=
  {| FilterParams.offset := 0; FilterParams.limit := 50; FilterParams.order_by := None;
     FilterParams.asc := 1; FilterParams.filters := FilterParams.FDict [];
     FilterParams.advanced_filters := Some advanced |}.

(** A query that differs from [q] at most in its predicates. *)
Definition same_shape (q' q : Select.t) : Prop :=
  Select.order_by_clauses q' = Select.order_by_clauses q
  /\ Select.offset_clause q' = Select.offset_clause q
  /\ Select.limit_clause q' = Select.limit_clause q.

(** The condition [age >= 30], and two requests with it: one sorted by age,
    descending, with the default page; one unsorted, asking for the second
    row only. *)
Definition age_filter : Filter.t :=
  {| Filter.name := "age"; Filter.op := Op.GTE; Filter.value := VInt 30;
     Filter.type_ := None |}.

Definition age_groups : list FilterGroup.t :=
  [{| FilterGroup.op := "and"; FilterGroup.filters := [age_filter] |}].

Definition sorted_query : FilterQuery.t :=
  {| FilterQuery.offset := 0; FilterQuery.limit := 50; FilterQuery.order_by := Some "age";
     FilterQuery.desc := true; FilterQuery.groups := age_groups |}.

Definition paged_query : FilterQuery.t :=
  {| FilterQuery.offset := 1; FilterQuery.limit := 1; FilterQuery.order_by := None;
     FilterQuery.desc := false; FilterQuery.groups := age_groups |}.

Definition sample_run (fq : FilterQuery.t) : result FilterResult.t * session :=
  AsyncQueryFilterEngine.filter_by_query (RT := Sample.runtime) (B := Sample.backend)
    Sample.engine fq Sample.fresh_session.

Definition age_matches : Select.t :=
  {| Select.whereclause := [PAnd [PCmp CmpGe "age" (VInt 30)]];
     Select.order_by_clauses := []; Select.offset_clause := None;
     Select.limit_clause := None |}.

(** An engine configured with a default page size of 2. *)
Definition small_page_engine : AsyncQueryFilterEngine.t :=
  AsyncQueryFilterEngine.make Sample.User (Some (FilterConfig.make None 2 1000 None)).

Definition no_query (_ : pydict) : result FilterQuery.t := Raise (ValidationError []).

Definition no_params (_ : pydict) : result FilterParams.t := Raise (ValidationError []).

(** The keys of a batch that the authorizer refuses, in order. *)
Definition unauthorized (self : AsyncQueryFilterEngine.t) (keys : list string) : list string :=
  filter (fun k => negb (AsyncQueryFilterEngine._validate_field self k)) keys.

(** The refused name of an item that has a string [name] and a [value]. *)
Definition item_offending (self : AsyncQueryFilterEngine.t) (item : pyval) : list string :=
  match item with
  | VDict d =>
      match dict_get d "name", dict_get d "value" with
      | Some (VStr n), Some _ => unauthorized self [n]
      | _, _ => []
      end
  | _ => []
  end.

(** The refused names of an advanced group, in order. *)
Definition group_offending (self : AsyncQueryFilterEngine.t) (g : pydict) : list string :=
  match dict_get g "items" with
  | Some (VList items) => flat_map (item_offending self) items
  | _ => []
  end.

Section StatementVocabulary.
Context {RT : PyRuntime}.

Import AsyncQueryFilterEngine.

(** An item object with a string [name] and a [value] which, when its name
    is allowed, yields a filter. *)
Definition plain_item (self : t) (item : pyval) : Prop :=
  exists d n v,
    item = VDict d /\ dict_get d "name" = Some (VStr n) /\ dict_get d "value" = Some v
    /\ (_validate_field self n = true -> exists f, item_step self item [] [] = Ok ([f], [])).

(** A group with a string [operator] and a list of plain items. *)
Definition plain_group (self : t) (g : pydict) : Prop :=
  exists o items,
    dict_get g "operator" = Some (VStr o) /\ dict_get g "items" = Some (VList items)
    /\ Forall (plain_item self) items.

End StatementVocabulary.

(** A group of one item on [field]; a request with a refused key in the
    simple mapping and a refused name in an advanced group; and a request
    with refused names in its second and third advanced groups only. *)
Definition named_group (field : string) : pydict :=
  [("operator", VStr "and");
   ("items", VList [VDict [("name", VStr field); ("value", VInt 2)]])].

Definition both_refused : FilterParams.t :=
  {| FilterParams.offset := 0; FilterParams.limit := 50; FilterParams.order_by := None;
     FilterParams.asc := 1;
     FilterParams.filters := FilterParams.FDict [("secret", VInt 1)];
     FilterParams.advanced_filters := Some [named_group "hidden"] |}.

Definition later_groups_refused : FilterParams.t :=
  direct_params [named_group "age"; named_group "hidden"; named_group "secret"].

(** ** The vocabulary of the further properties *)

(** The declared type of a filter as the value that declares it. *)
Definition type_value (ty : option string) : pyval :=
  match ty with
  | Some s => VStr s
  | None => VNone
  end.

(** A mapping whose keys are not blank and whose values are not [None]. *)
Definition mapping_ok (d : pydict) : bool :=
  forallb (fun kv => negb (PyStr.is_empty (PyStr.strip (fst kv))) && negb (is_none (snd kv))) d.

Definition not_list_shaped (f : FilterParams.filters_t) : bool :=
  match f with
  | FilterParams.FList _ => false
  | _ => true
  end.

(** An engine over [model] whose configuration was built from the given
    arguments. *)
Definition configured (model : ModelClass) (allowed : option (list string))
    (default_limit max_limit : Z) (default_order_by : option string)
  : AsyncQueryFilterEngine.t :=
  AsyncQueryFilterEngine.make model
    (Some (FilterConfig.make allowed default_limit max_limit default_order_by)).

(** A filter on a field that is allowed and is an attribute of the entity:
    the only ones a condition is built for. *)
Definition usable (self : AsyncQueryFilterEngine.t) (f : Filter.t) : bool :=
  AsyncQueryFilterEngine._validate_field self (Filter.name f)
  && PyStr.mem (Filter.name f) (map fst (attributes (AsyncQueryFilterEngine._model self))).

Definition usable_only (self : AsyncQueryFilterEngine.t) (g : FilterGroup.t) : FilterGroup.t :=
  {| FilterGroup.op := FilterGroup.op g;
     FilterGroup.filters := filter (usable self) (FilterGroup.filters g) |}.

(** A conjunction or a disjunction of at least one condition. *)
Definition group_predicate (p : predicate) : Prop :=
  exists c cs, p = PAnd (c :: cs) \/ p = POr (c :: cs).

(** An engine whose allow-list names [age] and [ghost], the second of which
    the entity does not have. *)
Definition allow_list_engine : AsyncQueryFilterEngine.t :=
  configured Sample.User (Some ["age"; "ghost"]) 50 1000 (Some "ghost").

Definition equals (field : string) (value : pyval) : Filter.t :=
  {| Filter.name := field; Filter.op := Op.EQ; Filter.value := value; Filter.type_ := None |}.


(** The mapping that the simple stage of [filter_by_params] iterates over:
    none when [filters] was left as a non-empty list. *)
Definition simple_mapping (f : FilterParams.filters_t) : option pydict :=
  match f with
  | FilterParams.FDict d => Some d
  | FilterParams.FNone => Some []
  | FilterParams.FList [] => Some []
  | FilterParams.FList (_ :: _) => None
  end.

(** The conjunction group of a non-empty list of filters. *)
Definition and_group (fs : list Filter.t) : list FilterGroup.t :=
  match fs with
  | [] => []
  | _ => [{| FilterGroup.op := "and"; FilterGroup.filters := fs |}]
  end.

(** The query that carries the paging and ordering of the parameters [p]
    and the given groups. *)
Definition translated (p : FilterParams.t) (groups : list FilterGroup.t) : FilterQuery.t :=
  {| FilterQuery.offset := FilterParams.offset p; FilterQuery.limit := FilterParams.limit p;
     FilterQuery.order_by := FilterParams.order_by p;
     FilterQuery.desc := FilterParams.is_desc p; FilterQuery.groups := groups |}.



(** Parameters with one simple filter and one advanced group, both on
    [age]. *)
Definition age_params : FilterParams.t :=
  {| FilterParams.offset := 0; FilterParams.limit := 50; FilterParams.order_by := Some "id";
     FilterParams.asc := 0; FilterParams.filters := FilterParams.FDict [("age", VInt 30)];
     FilterParams.advanced_filters := Some [age_group [age_item]] |}.

(** The rows of one page: [size] rows, capped by [max_limit], after the
    rows of the pages before it, in the order of the query [qs]. *)
Definition page_window {B : Backend} (self : AsyncQueryFilterEngine.t) (qs : Select.t)
    (s : session) (page size : Z) : list pyval :=
  map VDict
    (firstn (Z.to_nat (Z.min size (FilterConfig.max_limit (AsyncQueryFilterEngine._config self))))
       (skipn (Z.to_nat ((page - 1) * size))
          (sort_rows (Select.order_by_clauses qs) (table s)))).

(** A key of the URL that carries paging or ordering, not a condition. *)
Definition reserved_entry (kv : string * pyval) : bool :=
  PyStr.mem (fst kv) AsyncQueryFilterEngine.exclude_params.

(** URL parameters that ask for 5000 rows, in descending order of [age],
    of the users aged 30, and name a reserved and a refused key. *)
Definition wide_url : pydict :=
  [("limit", VStr "5000"); ("asc", VStr "0"); ("order_by", VStr "age");
   ("age", VInt 30); ("secret", VInt 1)].

Definition backwards_url : pydict := [("offset", VStr "-1")].

(** A parser of request bodies that accepts every object as the default
    parameters with the given simple filters. *)
Definition params_with (d : pydict) (_ : pydict) : result FilterParams.t :=
  FilterParams.make 0 50 None 1 (FilterParams.FDict d) None.

(** * Properties *)

(** ** Strings *)

Lemma mem_In (x : string) (l : list string) : PyStr.mem x l = true <-> In x l.
Proof.
  unfold PyStr.mem. rewrite existsb_exists. split.
  - intros [y [Hy E]]. apply String.eqb_eq in E. now subst.
  - intros H. exists x. split; [exact H | apply String.eqb_refl].
Qed.

Lemma is_prefix_app (p t : string) : PyStr.is_prefix p (p ++ t) = true.
Proof.
  induction p as [|a p IH]; simpl.
  - reflexivity.
  - now rewrite Ascii.eqb_refl, IH.
Qed.

Lemma contains_cons (p : string) (c : ascii) (s : string) :
  PyStr.contains p s = true -> PyStr.contains p (String c s) = true.
Proof.
  intros H. simpl. rewrite H. apply orb_true_r.
Qed.

Lemma contains_app_r (p x s : string) :
  PyStr.contains p s = true -> PyStr.contains p (x ++ s) = true.
Proof.
  intros H. induction x as [|c x IH]; simpl append.
  - exact H.
  - now apply contains_cons.
Qed.

Lemma contains_here (p t : string) : PyStr.contains p (p ++ t) = true.
Proof.
  destruct (p ++ t) eqn:E; simpl; rewrite <- E, is_prefix_app; reflexivity.
Qed.

(** ** The operator registry *)

Section OperatorRegistry.
Context {RT : PyRuntime}.

Lemma in_aliases_In (s : string) (op : Op.t) :
  Op.in_aliases (VStr s) op = true <-> In s (Op.aliases op).
Proof. apply mem_In. Qed.

(** The alias sets of two operators overlap only when the operators are the
    same one. *)
Lemma aliases_disjoint (s : string) (op1 op2 : Op.t) :
  In s (Op.aliases op1) -> In s (Op.aliases op2) -> op1 = op2.
Proof.
  intros H1 H2.
  destruct op1; simpl in H1;
    repeat (destruct H1 as [H1|H1]; [subst s|]); try contradiction;
    destruct op2; simpl in H2; try reflexivity;
    repeat (destruct H2 as [H2|H2]; [discriminate H2|]); contradiction.
Qed.

Lemma from_string_alias (s : string) (op : Op.t) :
  In s (Op.aliases op) -> Op.from_string (VStr s) = Ok op.
Proof.
  intros H.
  destruct op; simpl in H;
    repeat (destruct H as [H|H]; [subst s; reflexivity|]); contradiction.
Qed.

Lemma from_string_Ok (v : pyval) (op : Op.t) :
  Op.from_string v = Ok op -> exists s, v = VStr s /\ In s (Op.aliases op).
Proof.
  unfold Op.from_string. destruct (find (Op.in_aliases v) Op.members) as [o|] eqn:E;
    [|discriminate].
  intros H. injection H as ->. apply find_some in E. destruct E as [_ E].
  destruct v; try discriminate E. exists s. split; [reflexivity|].
  now apply in_aliases_In.
Qed.

Lemma from_string_unknown (v : pyval) :
  (forall op, Op.in_aliases v op = false) ->
  Op.from_string v = Raise (ValueError (Op.unsupported_message v)).
Proof.
  intros H. unfold Op.from_string.
  destruct (find (Op.in_aliases v) Op.members) as [o|] eqn:E; [|reflexivity].
  apply find_some in E. destruct E as [_ E]. rewrite H in E. discriminate E.
Qed.

Lemma In_all_aliases (s : string) :
  In s Op.get_all_aliases <-> exists op, In s (Op.aliases op).
Proof.
  unfold Op.get_all_aliases. rewrite in_flat_map. split.
  - intros [op [_ H]]. now exists op.
  - intros [op H]. exists op. split; [|exact H]. destruct op; simpl; tauto.
Qed.

Lemma unsupported_message_eq (v : pyval) :
  Op.unsupported_message v =
  "Неподдерживаемый оператор: '" ++ Py.str v ++ "'. Доступные: " ++ alias_listing.
Proof. reflexivity. Qed.

Lemma alias_listing_complete (a : string) :
  In a Op.get_all_aliases -> PyStr.contains (PyStr.repr a) alias_listing = true.
Proof.
  intros H. vm_compute in H.
  repeat (destruct H as [H|H]; [subst a; vm_compute; reflexivity|]); contradiction.
Qed.

(** C3. Operator resolution returns an operator exactly for its own aliases:
    [from_string s] is [op] if and only if [s] is an alias of [op]; a string
    that is no operator's alias fails with the [ValueError] whose message
    ends with the listing of all known aliases, so that every alias occurs
    in it; and no string is an alias of two different operators. *)
Theorem C3_from_string_resolves_aliases (s : string) :
  (forall op, Op.from_string (VStr s) = Ok op <-> In s (Op.aliases op))
  /\ ((forall op, ~ In s (Op.aliases op)) ->
      Op.from_string (VStr s) = Raise (ValueError (Op.unsupported_message (VStr s)))
      /\ Op.unsupported_message (VStr s) =
         "Неподдерживаемый оператор: '" ++ s ++ "'. Доступные: " ++ alias_listing
      /\ forall a, In a Op.get_all_aliases ->
           PyStr.contains (PyStr.repr a) (Op.unsupported_message (VStr s)) = true)
  /\ (forall op1 op2, In s (Op.aliases op1) -> In s (Op.aliases op2) -> op1 = op2)
  /\ (In s Op.get_all_aliases \/ forall op, ~ In s (Op.aliases op)).
Proof.
  split; [|split; [|split]].
  - intros op. split.
    + intros H. apply from_string_Ok in H. destruct H as [s' [E H]].
      injection E as ->. exact H.
    + apply from_string_alias.
  - intros Hno. split; [|split].
    + apply from_string_unknown. intros op.
      destruct (Op.in_aliases (VStr s) op) eqn:E; [|reflexivity].
      apply in_aliases_In in E. now apply Hno in E.
    + reflexivity.
    + intros a Ha. rewrite unsupported_message_eq.
      apply contains_app_r, contains_app_r, contains_app_r.
      now apply alias_listing_complete.
  - apply aliases_disjoint.
  - destruct (PyStr.mem s Op.get_all_aliases) eqn:E.
    + left. now apply mem_In.
    + right. intros op H. assert (In s Op.get_all_aliases) as Hin.
      { apply In_all_aliases. now exists op. }
      apply mem_In in Hin. rewrite Hin in E. discriminate E.
Qed.

End OperatorRegistry.

Lemma C3_from_string_resolves_aliases_witness :
  Op.from_string (RT := Sample.runtime) (VStr "gte") = Ok Op.GTE
  /\ Op.from_string (RT := Sample.runtime) (VStr "bogus")
     = Raise (ValueError (Op.unsupported_message (RT := Sample.runtime) (VStr "bogus"))).
Proof.
  split.
  - refine (proj2 (proj1 (C3_from_string_resolves_aliases (RT := Sample.runtime) "gte")
                     Op.GTE) _).
    simpl. tauto.
  - refine (proj1 (proj1 (proj2 (C3_from_string_resolves_aliases (RT := Sample.runtime)
                                   "bogus")) _)).
    intros op H. destruct op; simpl in H;
      repeat (destruct H as [H|H]; [discriminate H|]); exact H.
Defined.

(** ** Field names *)

Ltac by_cases_on_char c :=
  destruct c as [[] [] [] [] [] [] [] []]; vm_compute; try reflexivity; try discriminate.

Lemma name_char_not_space (c : ascii) : name_char c = true -> PyStr.isspace_char c = false.
Proof. by_cases_on_char c. Qed.

Lemma without_separators_cons (c : ascii) (r : string) :
  without_separators (String c r) =
  if Ascii.eqb c "_" || Ascii.eqb c "-" then without_separators r
  else String c (without_separators r).
Proof.
  unfold without_separators. simpl.
  destruct (Ascii.eqb c "_") eqn:E1; simpl; [reflexivity|].
  destruct (Ascii.eqb c "-"); reflexivity.
Qed.

Lemma forall_alnum_without (v : string) :
  PyStr.forall_chars PyStr.isalnum_char (without_separators v)
  = PyStr.forall_chars name_char v.
Proof.
  induction v as [|c r IH]; [reflexivity|].
  rewrite without_separators_cons. unfold name_char at 1. simpl.
  destruct (Ascii.eqb c "_" || Ascii.eqb c "-") eqn:E.
  - rewrite IH. unfold name_char. rewrite <- orb_assoc, E, orb_true_r. reflexivity.
  - simpl. rewrite IH. unfold name_char. rewrite <- orb_assoc, E, orb_false_r. reflexivity.
Qed.

Lemma isalnum_forall (s : string) :
  PyStr.isalnum s = negb (PyStr.is_empty s) && PyStr.forall_chars PyStr.isalnum_char s.
Proof. destruct s; reflexivity. Qed.

Lemma nonempty_without (v : string) :
  PyStr.forall_chars name_char v = true ->
  negb (PyStr.is_empty (without_separators v)) = PyStr.has_alnum v.
Proof.
  induction v as [|c r IH]; [reflexivity|].
  rewrite without_separators_cons. simpl. intros H.
  apply andb_true_iff in H. destruct H as [Hc Hr].
  destruct (Ascii.eqb c "_" || Ascii.eqb c "-") eqn:E.
  - rewrite (IH Hr).
    assert (PyStr.isalnum_char c = false) as ->; [|reflexivity].
    apply orb_true_iff in E. destruct E as [E|E]; apply Ascii.eqb_eq in E; subst; reflexivity.
  - simpl. unfold name_char in Hc. rewrite <- orb_assoc, E, orb_false_r in Hc.
    now rewrite Hc.
Qed.

(** [isalnum] of a name without its separators is [valid_name]. *)
Lemma isalnum_without_separators (v : string) :
  PyStr.isalnum (without_separators v) = valid_name v.
Proof.
  rewrite isalnum_forall, forall_alnum_without. unfold valid_name.
  destruct (PyStr.forall_chars name_char v) eqn:E.
  - rewrite (nonempty_without v E). apply andb_comm.
  - now rewrite andb_false_r.
Qed.

Lemma lstrip_id (v : string) :
  PyStr.forall_chars name_char v = true -> PyStr.lstrip v = v.
Proof.
  destruct v as [|c r]; [reflexivity|]. simpl. intros H.
  apply andb_true_iff in H. destruct H as [Hc _].
  now rewrite (name_char_not_space c Hc).
Qed.

Lemma rstrip_id (v : string) :
  PyStr.forall_chars name_char v = true -> PyStr.rstrip v = v.
Proof.
  induction v as [|c r IH]; [reflexivity|]. simpl. intros H.
  apply andb_true_iff in H. destruct H as [Hc Hr].
  rewrite (IH Hr). destruct r; [|reflexivity].
  now rewrite (name_char_not_space c Hc).
Qed.

Lemma strip_id (v : string) :
  PyStr.forall_chars name_char v = true -> PyStr.strip v = v.
Proof.
  intros H. unfold PyStr.strip. rewrite (lstrip_id v H). now apply rstrip_id.
Qed.

Lemma valid_name_nonempty (v : string) : valid_name v = true -> v <> EmptyString.
Proof. intros H ->. discriminate H. Qed.

(** On names made of ASCII characters, the valid names are within the
    charset of the specification. *)
Lemma valid_name_ascii (v : string) :
  valid_name v = true -> PyStr.forall_chars is_ascii v = true -> matches_charset v = true.
Proof.
  intros Hv Ha. unfold matches_charset.
  assert (v <> EmptyString) as Hne by now apply valid_name_nonempty.
  destruct v as [|c r]; [contradiction|]. cbn [PyStr.is_empty negb andb].
  unfold valid_name in Hv. apply andb_true_iff in Hv. destruct Hv as [Hv _].
  clear Hne. revert Hv Ha. generalize (String c r) as w. clear c r.
  induction w as [|c r IH]; [reflexivity|]. simpl. intros H1 H2.
  apply andb_true_iff in H1. destruct H1 as [Hc Hr].
  apply andb_true_iff in H2. destruct H2 as [Ac Ar].
  rewrite (IH Hr Ar), andb_true_r. clear - Hc Ac. revert Hc Ac. by_cases_on_char c.
Qed.

(** ** Construction of a [Filter] *)

Section FilterConstruction.
Context {RT : PyRuntime}.

Lemma validate_name_Ok (name : pyval) (v' : string) :
  Filter.validate_name name = Ok v' <->
  exists v, name = VStr v /\ valid_name v = true /\ v' = v.
Proof.
  unfold Filter.validate_name. split.
  - destruct name as [| | | |v| | |]; try discriminate.
    destruct (String.length v <? 1)%nat; [discriminate|].
    destruct (PyStr.is_empty v || PyStr.is_empty (PyStr.strip v)); [discriminate|].
    rewrite isalnum_without_separators.
    destruct (valid_name v) eqn:E; [|discriminate]. simpl.
    intros H. injection H as <-. exists v. repeat split; [exact E|].
    apply strip_id. unfold valid_name in E. now apply andb_true_iff in E.
  - intros [v [-> [E ->]]].
    assert (PyStr.forall_chars name_char v = true) as Hf.
    { unfold valid_name in E. now apply andb_true_iff in E. }
    rewrite isalnum_without_separators, E, (strip_id v Hf).
    destruct v as [|c r]; [discriminate E|]. reflexivity.
Qed.

Lemma validate_name_Raise (name : pyval) (e : exn) :
  Filter.validate_name name = Raise e -> exists m, e = ValueError m.
Proof.
  unfold Filter.validate_name. destruct name as [| | | |v| | |];
    try (intros H; injection H as <-; eexists; reflexivity).
  destruct (String.length v <? 1)%nat;
    [intros H; injection H as <-; eexists; reflexivity|].
  destruct (PyStr.is_empty v || PyStr.is_empty (PyStr.strip v));
    [intros H; injection H as <-; eexists; reflexivity|].
  destruct (negb (PyStr.isalnum (without_separators v)));
    [intros H; injection H as <-; eexists; reflexivity|discriminate].
Qed.

Lemma make_Ok (name : pyval) (op : Op.t + string) (value ty : pyval) (f : Filter.t) :
  Filter.make name op value ty = Ok f ->
  Filter.validate_name name = Ok (Filter.name f)
  /\ Filter.validate_op op = Ok (Filter.op f)
  /\ Filter.validate_value value = Ok (Filter.value f)
  /\ Filter.validate_type ty = Ok (Filter.type_ f).
Proof.
  unfold Filter.make.
  destruct (Filter.validate_name name), (Filter.validate_op op),
    (Filter.validate_value value), (Filter.validate_type ty); try discriminate.
  intros H. injection H as <-. repeat split.
Qed.

Lemma make_Raise_name (name : pyval) (op : Op.t + string) (value ty : pyval) (m : string) :
  Filter.validate_name name = Raise (ValueError m) ->
  exists errors, errors <> [] /\ Filter.make name op value ty = Raise (ValidationError errors).
Proof.
  intros H. unfold Filter.make. rewrite H.
  eexists. split; [|reflexivity]. simpl. discriminate.
Qed.

Lemma make_Raise_value (name : pyval) (op : Op.t + string) (ty : pyval) :
  exists errors, errors <> [] /\ Filter.make name op VNone ty = Raise (ValidationError errors).
Proof.
  unfold Filter.make. simpl Filter.validate_value.
  destruct (Filter.validate_name name), (Filter.validate_op op), (Filter.validate_type ty);
    (eexists; split; [|reflexivity]);
    intros H; apply (f_equal (@List.length string)) in H;
    repeat rewrite length_app in H; simpl in H; lia.
Qed.

(** C9 (amended). Constructing a [Filter] succeeds only when its name is a
    non-empty string of alphanumeric characters (in the sense of
    [str.isalnum], which admits letters and digits beyond ASCII), [_] and
    [-], at least one of them alphanumeric, and its value is not [None];
    trimming leaves such a name unchanged and the filter keeps the name and
    value as given; on ASCII names this is within the charset
    [[A-Za-z0-9_-]+].  A [None] value, or a name that is not such a string,
    is rejected with a validation error that carries at least one message. *)
Theorem C9_filter_construction (name : pyval) (op : Op.t + string) (value ty : pyval) :
  (forall f, Filter.make name op value ty = Ok f ->
     exists v, name = VStr v /\ v <> EmptyString /\ valid_name v = true
               /\ PyStr.strip v = v /\ Filter.name f = v
               /\ (PyStr.forall_chars is_ascii v = true -> matches_charset v = true)
               /\ value <> VNone /\ Filter.value f = value)
  /\ ((value = VNone \/ forall v, name = VStr v -> valid_name v = false) ->
      exists errors,
        errors <> [] /\ Filter.make name op value ty = Raise (ValidationError errors)).
Proof.
  split.
  - intros f H. apply make_Ok in H. destruct H as [Hn [_ [Hv _]]].
    apply validate_name_Ok in Hn. destruct Hn as [v [-> [E Ef]]].
    exists v. split; [reflexivity|]. split; [now apply valid_name_nonempty|].
    split; [exact E|]. split.
    { apply strip_id. unfold valid_name in E. now apply andb_true_iff in E. }
    split; [exact Ef|]. split; [now apply valid_name_ascii|].
    unfold Filter.validate_value in Hv. destruct value; try discriminate Hv;
      (split; [discriminate | now injection Hv as <-]).
  - intros [-> | Hbad].
    + apply make_Raise_value.
    + destruct (Filter.validate_name name) as [v'|e] eqn:E.
      * apply validate_name_Ok in E. destruct E as [v [-> [E _]]].
        rewrite (Hbad v eq_refl) in E. discriminate E.
      * destruct (validate_name_Raise _ _ E) as [m ->]. now apply make_Raise_name with (m := m).
Qed.

End FilterConstruction.

(** C9, as stated, fails: the one-letter name U+00E9 is accepted, and it
    does not match [[A-Za-z0-9_-]+]. *)
Lemma C9_accented_name_accepted :
  Filter.make (RT := Sample.runtime) (VStr e_acute) (inl Op.EQ) (VInt 1) VNone
  = Ok {| Filter.name := e_acute; Filter.op := Op.EQ; Filter.value := VInt 1;
          Filter.type_ := None |}
  /\ matches_charset (PyStr.strip e_acute) = false.
Proof. split; reflexivity. Qed.

Lemma C9_filter_construction_witness :
  (exists v, VStr "user_name-1" = VStr v /\ v <> EmptyString /\ valid_name v = true
             /\ PyStr.strip v = v /\ "user_name-1" = v
             /\ (PyStr.forall_chars is_ascii v = true -> matches_charset v = true)
             /\ VInt 5 <> VNone /\ VInt 5 = VInt 5)
  /\ (exists errors,
        errors <> [] /\
        Filter.make (RT := Sample.runtime) (VStr "a b") (inl Op.EQ) VNone VNone
        = Raise (ValidationError errors)).
Proof.
  split.
  - exact (proj1 (C9_filter_construction (RT := Sample.runtime)
                    (VStr "user_name-1") (inl Op.EQ) (VInt 5) VNone)
             {| Filter.name := "user_name-1"; Filter.op := Op.EQ; Filter.value := VInt 5;
                Filter.type_ := None |} eq_refl).
  - exact (proj2 (C9_filter_construction (RT := Sample.runtime)
                    (VStr "a b") (inl Op.EQ) VNone VNone) (or_introl eq_refl)).
Defined.

(** ** Membership operators *)

Section Membership.
Context {RT : PyRuntime}.

Import AsyncQueryFilterEngine.

Lemma as_list_scalar (v : pyval) : is_list v = false -> Op.as_list v = [v].
Proof. destruct v; try reflexivity. discriminate. Qed.

Lemma apply_scalar_as_list (op : Op.t) (c : column) (v : pyval) :
  is_membership op = true -> is_list v = false ->
  Op.apply op c (VList [v]) = Op.apply op c v.
Proof.
  intros Hop Hv. destruct op; try discriminate Hop; simpl; now rewrite (as_list_scalar v Hv).
Qed.

Lemma build_condition_scalar_as_list (self : t) (f : Filter.t) :
  _build_condition self (scalar_as_list f) = _build_condition self f.
Proof.
  unfold scalar_as_list. destruct (Filter.type_ f) eqn:Et; [reflexivity|].
  destruct (is_membership (Filter.op f) && negb (is_list (Filter.value f))) eqn:E;
    [|reflexivity].
  apply andb_true_iff in E. destruct E as [Hop Hv]. apply negb_true_iff in Hv.
  unfold _build_condition. cbn [Filter.name Filter.op Filter.value Filter.type_].
  rewrite Et. cbn [_cast_value]. destruct (negb _); [reflexivity|].
  destruct (getattr_model self (Filter.name f)) as [col|e]; [|reflexivity].
  cbn [bind]. now rewrite apply_scalar_as_list.
Qed.

Lemma group_conditions_scalar_as_list (self : t) (fs : list Filter.t) :
  group_conditions self (map scalar_as_list fs) = group_conditions self fs.
Proof.
  induction fs as [|f r IH]; [reflexivity|]. simpl.
  now rewrite build_condition_scalar_as_list, IH.
Qed.

Lemma apply_filter_groups_scalar_as_list (self : t) (gs : list FilterGroup.t) (q : Select.t) :
  _apply_filter_groups self q (map group_scalars_as_lists gs)
  = _apply_filter_groups self q gs.
Proof.
  revert q. induction gs as [|g r IH]; intros q; [reflexivity|]. simpl.
  rewrite group_conditions_scalar_as_list.
  destruct (group_conditions self (FilterGroup.filters g)) as [cs|e]; [|reflexivity].
  cbn [bind]. apply IH.
Qed.

(** C6. For [IN] and [NOT_IN] the operator turns a scalar operand into a
    one-element list, so a scalar [v] and the list [[v]] give the same
    predicate, which every backend evaluates alike on every row; and a query
    whose untyped membership conditions have their scalars written as
    one-element lists returns the same result, and leaves the same trace, in
    every session. *)
Theorem C6_in_scalar_as_singleton (c : column) (v : pyval) (Hv : is_list v = false) :
  Op.apply Op.IN c v = PIn c [v]
  /\ Op.apply Op.IN c (VList [v]) = Op.apply Op.IN c v
  /\ Op.apply Op.NOT_IN c v = PNot (PIn c [v])
  /\ Op.apply Op.NOT_IN c (VList [v]) = Op.apply Op.NOT_IN c v
  /\ (forall (B : Backend) (r : row),
        holds (Op.apply Op.IN c (VList [v])) r = holds (Op.apply Op.IN c v) r
        /\ holds (Op.apply Op.NOT_IN c (VList [v])) r = holds (Op.apply Op.NOT_IN c v) r)
  /\ (forall (B : Backend) (self : t) (fq : FilterQuery.t)
             (s : session),
        filter_by_query self (query_scalars_as_lists fq) s
        = filter_by_query self fq s).
Proof.
  assert (Op.as_list v = [v]) as E by now apply as_list_scalar.
  repeat split; simpl; rewrite ?E; try reflexivity.
  intros B self fq s. unfold filter_by_query.
  cbn [query_scalars_as_lists FilterQuery.groups FilterQuery.order_by FilterQuery.desc
       FilterQuery.offset FilterQuery.limit].
  now rewrite apply_filter_groups_scalar_as_list.
Qed.

End Membership.

Lemma C6_in_scalar_as_singleton_witness :
  Op.apply (RT := Sample.runtime) Op.IN "age" (VInt 5) = PIn "age" [VInt 5]
  /\ Op.apply (RT := Sample.runtime) Op.IN "age" (VList [VInt 5])
     = Op.apply (RT := Sample.runtime) Op.IN "age" (VInt 5).
Proof.
  pose proof (C6_in_scalar_as_singleton (RT := Sample.runtime) "age" (VInt 5) eq_refl) as H.
  exact (conj (proj1 H) (proj1 (proj2 H))).
Defined.

(** ** Normalization of list-shaped filters *)

Lemma validate_items_spec (i j : Z) (items : list pyval) :
  (forallb item_ok items = true -> FilterParams.validate_items i j items = Ok tt)
  /\ (forallb item_ok items = false ->
      exists m, FilterParams.validate_items i j items = Raise (ValueError m)).
Proof.
  revert j. induction items as [|item rest IH]; intros j; simpl.
  - split; [reflexivity|discriminate].
  - destruct item as [| | | | | |d|]; simpl;
      try (split; [discriminate | intros _; eexists; reflexivity]).
    destruct (dict_has d "name"); simpl;
      [|split; [discriminate | intros _; eexists; reflexivity]].
    destruct (dict_has d "value"); simpl;
      [|split; [discriminate | intros _; eexists; reflexivity]].
    apply IH.
Qed.

Lemma validate_groups_spec (i : Z) (l : list pydict) :
  (forallb group_ok l = true -> FilterParams.validate_groups i l = Ok tt)
  /\ (forallb group_ok l = false ->
      exists m, FilterParams.validate_groups i l = Raise (ValueError m)).
Proof.
  revert i. induction l as [|g rest IH]; intros i.
  - split; [reflexivity|discriminate].
  - cbn [forallb FilterParams.validate_groups]. unfold group_ok at 1 3.
    destruct (dict_has g "operator"); cbn [negb andb];
      [|split; [discriminate | intros _; eexists; reflexivity]].
    destruct (dict_get g "items") as [[| | | | |[|item items]| |]|];
      try (split; [discriminate | intros _; eexists; reflexivity]).
    destruct (validate_items_spec i 0 (item :: items)) as [Hok Hbad].
    destruct (forallb item_ok (item :: items)) eqn:E.
    + rewrite (Hok eq_refl). cbn [bind andb]. apply IH.
    + destruct (Hbad eq_refl) as [m Hm]. rewrite Hm. cbn [bind andb].
      split; [discriminate | intros _; now exists m].
Qed.

(** C5. When [filters] is supplied as a list of groups, validation succeeds
    exactly when every element has an [operator] key and a non-empty [items]
    list whose items each have [name] and [value] (and fails with a
    [ValueError] otherwise); after a successful normalization the list has
    been appended as a whole to [advanced_filters], [filters] is the empty
    mapping, and the other fields are unchanged. *)
Theorem C5_list_filters_move_to_advanced (self : FilterParams.t) (l : list pydict)
    (Hl : FilterParams.filters self = FilterParams.FList l) :
  (forall self', FilterParams.normalize_and_validate_filters self = Ok self' ->
     forallb group_ok l = true
     /\ FilterParams.filters self' = FilterParams.FDict []
     /\ FilterParams.advanced_filters self'
        = Some (FilterParams.advanced_or_empty (FilterParams.advanced_filters self) ++ l)%list
     /\ FilterParams.has_simple self' = false
     /\ FilterParams.offset self' = FilterParams.offset self
     /\ FilterParams.limit self' = FilterParams.limit self
     /\ FilterParams.order_by self' = FilterParams.order_by self
     /\ FilterParams.asc self' = FilterParams.asc self)
  /\ (forallb group_ok l = true ->
      exists self', FilterParams.normalize_and_validate_filters self = Ok self')
  /\ (forallb group_ok l = false ->
      exists m, FilterParams.normalize_and_validate_filters self = Raise (ValueError m)).
Proof.
  unfold FilterParams.normalize_and_validate_filters. rewrite Hl.
  destruct (validate_groups_spec 0 l) as [Hok Hbad].
  destruct (forallb group_ok l) eqn:E.
  - rewrite (Hok eq_refl). cbn [bind]. split; [|split].
    + intros self' H. injection H as <-. repeat split.
    + intros _. eexists. reflexivity.
    + discriminate.
  - destruct (Hbad eq_refl) as [m Hm]. rewrite Hm. cbn [bind]. split; [|split].
    + discriminate.
    + discriminate.
    + intros _. now exists m.
Qed.

Lemma C5_list_filters_move_to_advanced_witness :
  forallb group_ok [sample_group "age"] = true
  /\ FilterParams.filters
       {| FilterParams.offset := 0; FilterParams.limit := 50;
          FilterParams.order_by := None; FilterParams.asc := 1;
          FilterParams.filters := FilterParams.FDict [];
          FilterParams.advanced_filters := Some [sample_group "name"; sample_group "age"] |}
     = FilterParams.FDict [].
Proof.
  pose proof (proj1 (C5_list_filters_move_to_advanced list_shaped_params
                       [sample_group "age"] eq_refl) _ eq_refl) as H.
  exact (conj (proj1 H) (proj1 (proj2 H))).
Defined.

(** ** Advanced filters supplied directly *)

Section AdvancedFilters.
Context {RT : PyRuntime}.
Local Open Scope list_scope.

Import AsyncQueryFilterEngine.

Lemma items_loop_app (self : t) (a b : list pyval) (fs : list Filter.t) (inv : list pyval) :
  items_loop self (a ++ b) fs inv
  = (' (fs', inv') <- items_loop self a fs inv ;; items_loop self b fs' inv').
Proof.
  revert fs inv. induction a as [|x a IH]; intros fs inv; [reflexivity|].
  cbn [app items_loop]. destruct (item_step self x fs inv) as [[fs1 inv1]|e]; [|reflexivity].
  cbn [bind]. apply IH.
Qed.

Lemma groups_loop_app (self : t) (a b : list pydict) (acc : list FilterGroup.t) :
  groups_loop self (a ++ b) acc = (acc' <- groups_loop self a acc ;; groups_loop self b acc').
Proof.
  revert acc. induction a as [|x a IH]; intros acc; [reflexivity|].
  cbn [app groups_loop]. destruct (group_step self x acc) as [acc1|e]; [|reflexivity].
  cbn [bind]. apply IH.
Qed.

Lemma item_step_skips (self : t) (d : pydict) (fs : list Filter.t) (inv : list pyval) :
  item_ok (VDict d) = false -> item_step self (VDict d) fs inv = Ok (fs, inv).
Proof.
  unfold item_ok, item_step. cbn [Dyn.contains bind].
  destruct (dict_has d "name"); cbn [bind andb]; [|reflexivity].
  intros ->. reflexivity.
Qed.

Lemma group_step_skips (self : t) (g : pydict) (acc : list FilterGroup.t) :
  group_has_keys g = false -> group_step self g acc = Ok acc.
Proof. unfold group_has_keys, group_step. now intros ->. Qed.

Lemma items_loop_skips (self : t) (pre post : list pyval) (d : pydict)
    (fs : list Filter.t) (inv : list pyval) :
  item_ok (VDict d) = false ->
  items_loop self (pre ++ VDict d :: post) fs inv = items_loop self (pre ++ post) fs inv.
Proof.
  intros H. rewrite !items_loop_app.
  destruct (items_loop self pre fs inv) as [[fs1 inv1]|e]; [|reflexivity].
  cbn [bind items_loop]. now rewrite item_step_skips.
Qed.

Lemma groups_loop_skips (self : t) (pre post : list pydict) (g : pydict)
    (acc : list FilterGroup.t) :
  group_has_keys g = false ->
  groups_loop self (pre ++ g :: post) acc = groups_loop self (pre ++ post) acc.
Proof.
  intros H. rewrite !groups_loop_app.
  destruct (groups_loop self pre acc) as [acc1|e]; [|reflexivity].
  cbn [bind groups_loop]. now rewrite group_step_skips.
Qed.

(** The loop body reads only the [operator] and [items] of a group. *)
Lemma group_step_same_items (self : t) (g g' : pydict) (pre post : list pyval) (d : pydict)
    (acc : list FilterGroup.t) :
  item_ok (VDict d) = false ->
  dict_get g "operator" = dict_get g' "operator" ->
  dict_get g "items" = Some (VList (pre ++ VDict d :: post)) ->
  dict_get g' "items" = Some (VList (pre ++ post)) ->
  group_step self g acc = group_step self g' acc.
Proof.
  intros Hd Hop Hi Hi'. unfold group_step, dict_has, Dyn.getitem.
  rewrite <- Hop, Hi, Hi'. destruct (dict_get g "operator") as [o|]; [|reflexivity].
  cbn [andb bind]. destruct (Dyn.lower o) as [ls|e]; [|reflexivity].
  cbn [bind Dyn.iter]. now rewrite items_loop_skips.
Qed.

Lemma advanced_stage_eq (self : t) (l : list pydict) (q : Select.t) :
  advanced_stage self (Some l) q
  = (gs <- groups_loop self l [] ;;
     match gs with
     | _ :: _ => _apply_filter_groups self q gs
     | [] => Ok q
     end).
Proof. destruct l; reflexivity. Qed.

Lemma filter_by_params_same_stage {B : Backend} (self : t) (p p' : FilterParams.t)
    (s : session) :
  FilterParams.filters p' = FilterParams.filters p ->
  FilterParams.order_by p' = FilterParams.order_by p ->
  FilterParams.asc p' = FilterParams.asc p ->
  FilterParams.offset p' = FilterParams.offset p ->
  FilterParams.limit p' = FilterParams.limit p ->
  (forall q, advanced_stage self (FilterParams.advanced_filters p') q
             = advanced_stage self (FilterParams.advanced_filters p) q) ->
  filter_by_params self p' s = filter_by_params self p s.
Proof.
  intros Hf Ho Ha Hoff Hl Hadv. unfold filter_by_params, FilterParams.is_desc.
  rewrite Hf, Ho, Ha, Hoff, Hl. unfold bindM, lift.
  destruct (simple_stage self (FilterParams.filters p) Select.select); [|reflexivity].
  now rewrite Hadv.
Qed.

(** C10. Advanced filters are not validated for structure when the
    [filters] field is a valid mapping, and [filter_by_params] passes over a
    group that lacks the [operator] or the [items] key and over an item
    object that lacks the [name] or the [value] key: the loop body returns
    its accumulators unchanged without raising, and the call behaves, result
    and trace, exactly as on the input without that entry. *)
Theorem C10_malformed_advanced_entries_ignored {B : Backend}
    (self : t) (p : FilterParams.t) (s : session)
    (pre post : list pydict) :
  (forall d, FilterParams.filters p = FilterParams.FDict d ->
             FilterParams.validate_mapping d = Ok tt ->
             FilterParams.normalize_and_validate_filters p = Ok p)
  /\ (forall g acc, group_has_keys g = false ->
        group_step self g acc = Ok acc
        /\ (FilterParams.advanced_filters p = Some (pre ++ g :: post) ->
            filter_by_params self p s
            = filter_by_params self (set_advanced_filters p (pre ++ post)) s))
  /\ (forall g g' ipre ipost d fs inv,
        item_ok (VDict d) = false ->
        item_step self (VDict d) fs inv = Ok (fs, inv)
        /\ (dict_get g "operator" = dict_get g' "operator" ->
            dict_get g "items" = Some (VList (ipre ++ VDict d :: ipost)) ->
            dict_get g' "items" = Some (VList (ipre ++ ipost)) ->
            FilterParams.advanced_filters p = Some (pre ++ g :: post) ->
            filter_by_params self p s
            = filter_by_params self (set_advanced_filters p (pre ++ g' :: post)) s)).
Proof.
  split; [|split].
  - intros d Hd Hv. unfold FilterParams.normalize_and_validate_filters.
    now rewrite Hd, Hv.
  - intros g acc Hg. split; [now apply group_step_skips|].
    intros Hadv. symmetry. apply filter_by_params_same_stage; try reflexivity.
    intros q. rewrite Hadv. cbn [set_advanced_filters FilterParams.advanced_filters].
    rewrite !advanced_stage_eq. now rewrite groups_loop_skips.
  - intros g g' ipre ipost d fs inv Hd. split; [now apply item_step_skips|].
    intros Hop Hi Hi' Hadv. symmetry. apply filter_by_params_same_stage; try reflexivity.
    intros q. rewrite Hadv. cbn [set_advanced_filters FilterParams.advanced_filters].
    rewrite !advanced_stage_eq, !groups_loop_app.
    destruct (groups_loop self pre []) as [acc|e]; [|reflexivity].
    cbn [bind groups_loop].
    now rewrite (group_step_same_items self g g' ipre ipost d acc Hd Hop Hi Hi').
Qed.

End AdvancedFilters.

Lemma C10_malformed_advanced_entries_ignored_witness :
  let run p :=
    AsyncQueryFilterEngine.filter_by_params (RT := Sample.runtime) (B := Sample.backend)
      Sample.engine p Sample.fresh_session in
  FilterParams.normalize_and_validate_filters
    (direct_params [group_without_operator; age_group [VDict item_without_value; age_item]])
  = Ok (direct_params [group_without_operator; age_group [VDict item_without_value; age_item]])
  /\ run (direct_params [group_without_operator; age_group [VDict item_without_value; age_item]])
     = run (direct_params [age_group [VDict item_without_value; age_item]])
  /\ run (direct_params [age_group [VDict item_without_value; age_item]])
     = run (direct_params [age_group [age_item]]).
Proof.
  intros run. split; [|split].
  - exact (proj1 (C10_malformed_advanced_entries_ignored (RT := Sample.runtime)
                    (B := Sample.backend) Sample.engine
                    (direct_params [group_without_operator;
                                    age_group [VDict item_without_value; age_item]])
                    Sample.fresh_session [] [])
             [] eq_refl eq_refl).
  - exact (proj2 (proj1 (proj2 (C10_malformed_advanced_entries_ignored
                    (RT := Sample.runtime) (B := Sample.backend) Sample.engine
                    (direct_params [group_without_operator;
                                    age_group [VDict item_without_value; age_item]])
                    Sample.fresh_session []
                    [age_group [VDict item_without_value; age_item]]))
             group_without_operator [] eq_refl) eq_refl).
  - exact (proj2 (proj2 (proj2 (C10_malformed_advanced_entries_ignored
                    (RT := Sample.runtime) (B := Sample.backend) Sample.engine
                    (direct_params [age_group [VDict item_without_value; age_item]])
                    Sample.fresh_session [] []))
             (age_group [VDict item_without_value; age_item]) (age_group [age_item])
             [] [age_item] item_without_value [] [] eq_refl)
             eq_refl eq_refl eq_refl eq_refl).
Defined.

(** ** The count query and the data query *)

Section CountAndData.
Context {RT : PyRuntime} {B : Backend}.
Local Open Scope list_scope.

Import AsyncQueryFilterEngine.

Lemma apply_filter_groups_shape (self : t) (gs : list FilterGroup.t) (q q' : Select.t) :
  _apply_filter_groups self q gs = Ok q' -> same_shape q' q.
Proof.
  revert q. induction gs as [|g r IH]; intros q; simpl.
  - intros H. injection H as <-. repeat split.
  - destruct (group_conditions self (FilterGroup.filters g)) as [cs|e]; [|discriminate].
    cbn [bind]. intros H. apply IH in H. destruct cs; exact H.
Qed.

Lemma apply_sorting_where (self : t) (q q' : Select.t) (ob : option string) (d : bool) :
  _apply_sorting self q ob d = Ok q' ->
  Select.whereclause q' = Select.whereclause q
  /\ Select.offset_clause q' = Select.offset_clause q
  /\ Select.limit_clause q' = Select.limit_clause q.
Proof.
  unfold _apply_sorting.
  destruct (truthy_str ob && _validate_field self (str_or_empty ob)).
  - destruct (getattr_model self (str_or_empty ob)); [|discriminate].
    intros H. injection H as <-. repeat split.
  - destruct (truthy_str _ && _validate_field self _).
    + destruct (getattr_model self _); [|discriminate].
      intros H. injection H as <-. repeat split.
    + intros H. injection H as <-. repeat split.
Qed.

Lemma apply_pagination_clauses (self : t) (q : Select.t) (off lim : Z) :
  Select.limit_clause (_apply_pagination self q off lim)
  = Some (Z.min lim (FilterConfig.max_limit (_config self)))
  /\ Select.offset_clause (_apply_pagination self q off lim) = Some off
  /\ Select.whereclause (_apply_pagination self q off lim) = Select.whereclause q
  /\ Select.order_by_clauses (_apply_pagination self q off lim) = Select.order_by_clauses q.
Proof. repeat split. Qed.

(** What [filter_by_query] does once the two queries are built. *)
Lemma filter_by_query_eq (self : t) (fq : FilterQuery.t) (s : session) :
  filter_by_query self fq s =
  match _apply_filter_groups self Select.select (FilterQuery.groups fq) with
  | Raise e => (Raise e, s)
  | Ok q =>
      match _apply_sorting self q (FilterQuery.order_by fq) (FilterQuery.desc fq) with
      | Raise e => (Raise e, s)
      | Ok qs =>
          let dq := _apply_pagination self qs (FilterQuery.offset fq) (FilterQuery.limit fq) in
          let s1 := {| table := table s; executed := executed s ++ [Count q] |} in
          let s2 := {| table := table s; executed := executed s ++ [Count q; Rows dq] |} in
          match run_select (table s) q with
          | Raise e => (Raise e, s1)
          | Ok counted =>
              match run_select (table s) dq with
              | Raise e => (Raise e, s2)
              | Ok page =>
                  (Ok {| FilterResult.items := map VDict page;
                         FilterResult.total := Z.of_nat (List.length counted) |}, s2)
              end
          end
      end
  end.
Proof.
  unfold filter_by_query, bindM, lift, exec, all.
  destruct (_apply_filter_groups self Select.select (FilterQuery.groups fq)) as [q|e];
    [|reflexivity].
  destruct (_apply_sorting self q (FilterQuery.order_by fq) (FilterQuery.desc fq)) as [qs|e];
    [|reflexivity].
  cbn [run table executed]. rewrite <- app_assoc. cbn [app].
  destruct (run_select (table s) q) as [counted|e]; [|reflexivity].
  cbn [bind one]. destruct (run_select (table s) _) as [page|e]; [|reflexivity].
  cbn [bind FilterResult.make].
  destruct (0 <=? Z.of_nat (List.length counted)) eqn:E; [reflexivity|].
  apply Z.leb_gt in E. lia.
Qed.

Lemma filter_by_query_Ok (self : t) (fq : FilterQuery.t)
    (s s' : session) (r : FilterResult.t) :
  filter_by_query self fq s = (Ok r, s') ->
  exists q qs counted page,
    _apply_filter_groups self Select.select (FilterQuery.groups fq) = Ok q
    /\ _apply_sorting self q (FilterQuery.order_by fq) (FilterQuery.desc fq) = Ok qs
    /\ run_select (table s) q = Ok counted
    /\ run_select (table s)
         (_apply_pagination self qs (FilterQuery.offset fq) (FilterQuery.limit fq)) = Ok page
    /\ r = {| FilterResult.items := map VDict page;
              FilterResult.total := Z.of_nat (List.length counted) |}
    /\ s' = {| table := table s;
               executed := executed s ++
                 [Count q;
                  Rows (_apply_pagination self qs (FilterQuery.offset fq)
                          (FilterQuery.limit fq))] |}.
Proof.
  rewrite filter_by_query_eq.
  destruct (_apply_filter_groups _ _ _) as [q|e] eqn:E1; [|discriminate].
  destruct (_apply_sorting _ _ _ _) as [qs|e] eqn:E2; [|discriminate].
  cbv zeta.
  destruct (run_select (table s) q) as [counted|e] eqn:E3; [|discriminate].
  destruct (run_select (table s) (_apply_pagination self qs _ _)) as [page|e] eqn:E4;
    [|discriminate].
  intros H. injection H as <- <-. exists q, qs, counted, page.
  repeat split; assumption.
Qed.

(** A query without OFFSET and LIMIT yields every matching row. *)
Lemma run_select_unpaged (tbl : list row) (q : Select.t) :
  Select.offset_clause q = None -> Select.limit_clause q = None ->
  exists rows, run_select tbl q = Ok rows
               /\ List.length rows = List.length (filter (matches q) tbl).
Proof.
  intros Ho Hl. unfold run_select. rewrite Ho, Hl. cbn [drop_rows take_rows bind].
  eexists. split; [reflexivity|]. apply Permutation_length, sort_rows_perm.
Qed.

Lemma take_rows_length (n : Z) (l rows : list row) :
  take_rows (Some n) l = Ok rows -> 0 <= n /\ Z.of_nat (List.length rows) <= n.
Proof.
  unfold take_rows. destruct (n <? 0) eqn:E; [discriminate|].
  apply Z.ltb_ge in E. intros H. injection H as <-. split; [exact E|].
  pose proof (firstn_le_length (Z.to_nat n) l) as Hlen. lia.
Qed.

Lemma run_select_limited (tbl : list row) (q : Select.t) (n : Z) (rows : list row) :
  Select.limit_clause q = Some n -> run_select tbl q = Ok rows ->
  0 <= n /\ Z.of_nat (List.length rows) <= n.
Proof.
  intros Hl. unfold run_select. rewrite Hl.
  destruct (drop_rows _ _) as [sk|e]; [|discriminate]. cbn [bind].
  apply take_rows_length.
Qed.

Lemma run_select_paged (tbl : list row) (q : Select.t) (off lim : Z) :
  Select.offset_clause q = Some off -> Select.limit_clause q = Some lim ->
  0 <= off -> 0 <= lim -> exists rows, run_select tbl q = Ok rows.
Proof.
  intros Ho Hl Hoff Hlim. unfold run_select. rewrite Ho, Hl. unfold drop_rows, take_rows.
  destruct (off <? 0) eqn:E1; [apply Z.ltb_lt in E1; lia|]. cbn [bind].
  destruct (lim <? 0) eqn:E2; [apply Z.ltb_lt in E2; lia|]. eexists. reflexivity.
Qed.

End CountAndData.

Section QueryEntryPoint.
Context {RT : PyRuntime} {B : Backend}.
Local Open Scope list_scope.

Import AsyncQueryFilterEngine.

(** C1. The total of [filter_by_query] is the count of the query that
    carries the predicates of the groups and nothing of this call's
    ordering or pagination: two calls whose queries have the same groups,
    whatever their [offset], [limit], [order_by] and [desc], execute the same
    count statement and return the same total, and the data statement of
    each has exactly the predicates of the count statement. *)
Theorem C1_total_ignores_ordering_and_paging (self : t) (fq fq' : FilterQuery.t)
    (s s1 s1' : session) (r r' : FilterResult.t)
    (Hgroups : FilterQuery.groups fq' = FilterQuery.groups fq)
    (Hrun : filter_by_query self fq s = (Ok r, s1))
    (Hrun' : filter_by_query self fq' s = (Ok r', s1')) :
  FilterResult.total r' = FilterResult.total r
  /\ exists q dq dq',
       _apply_filter_groups self Select.select (FilterQuery.groups fq) = Ok q
       /\ Select.order_by_clauses q = []
       /\ Select.offset_clause q = None
       /\ Select.limit_clause q = None
       /\ executed s1 = executed s ++ [Count q; Rows dq]
       /\ executed s1' = executed s ++ [Count q; Rows dq']
       /\ Select.whereclause dq = Select.whereclause q
       /\ Select.whereclause dq' = Select.whereclause q
       /\ run (table s) (Count q) = Ok [VInt (FilterResult.total r)].
Proof.
  apply filter_by_query_Ok in Hrun.
  destruct Hrun as [q [qs [counted [page [Hq [Hs [Hc [Hp [-> ->]]]]]]]]].
  apply filter_by_query_Ok in Hrun'.
  destruct Hrun' as [q' [qs' [counted' [page' [Hq' [Hs' [Hc' [Hp' [-> ->]]]]]]]]].
  rewrite Hgroups, Hq in Hq'. injection Hq' as <-.
  rewrite Hc in Hc'. injection Hc' as <-.
  split; [reflexivity|].
  exists q, (_apply_pagination self qs (FilterQuery.offset fq) (FilterQuery.limit fq)),
    (_apply_pagination self qs' (FilterQuery.offset fq') (FilterQuery.limit fq')).
  split; [exact Hq|].
  destruct (apply_filter_groups_shape self _ _ _ Hq) as [Hord [Hoff Hlim]].
  split; [exact Hord|]. split; [exact Hoff|]. split; [exact Hlim|].
  split; [reflexivity|]. split; [reflexivity|].
  split; [now apply apply_sorting_where in Hs|].
  split; [now apply apply_sorting_where in Hs'|].
  cbn [run FilterResult.total]. now rewrite Hc.
Qed.

(** C7. The limit put on the data query is [min(L, M)] for every requested
    limit [L] and configured [max_limit] [M], next to the requested offset,
    and the predicates and the ordering are left as they were.  A query with
    a non-negative offset and limit, under a non-negative [max_limit],
    returns a page of at most [min(L, M)], hence at most [M], items, while
    the count statement carries neither offset nor limit and the total is
    the number of all rows that satisfy the predicates. *)
Theorem C7_limit_clamped_to_max_limit (self : t) (fq : FilterQuery.t) (s : session) :
  (forall q off L,
     Select.limit_clause (_apply_pagination self q off L)
     = Some (Z.min L (FilterConfig.max_limit (_config self)))
     /\ Select.offset_clause (_apply_pagination self q off L) = Some off
     /\ Select.whereclause (_apply_pagination self q off L) = Select.whereclause q
     /\ Select.order_by_clauses (_apply_pagination self q off L) = Select.order_by_clauses q)
  /\ (forall q qs,
        _apply_filter_groups self Select.select (FilterQuery.groups fq) = Ok q ->
        _apply_sorting self q (FilterQuery.order_by fq) (FilterQuery.desc fq) = Ok qs ->
        0 <= FilterQuery.offset fq -> 0 <= FilterQuery.limit fq ->
        0 <= FilterConfig.max_limit (_config self) ->
        exists r,
          let dq := _apply_pagination self qs (FilterQuery.offset fq) (FilterQuery.limit fq) in
          filter_by_query self fq s
          = (Ok r, {| table := table s; executed := executed s ++ [Count q; Rows dq] |})
          /\ Select.offset_clause q = None /\ Select.limit_clause q = None
          /\ Z.of_nat (List.length (FilterResult.items r))
             <= Z.min (FilterQuery.limit fq) (FilterConfig.max_limit (_config self))
          /\ Z.of_nat (List.length (FilterResult.items r))
             <= FilterConfig.max_limit (_config self)
          /\ FilterResult.total r
             = Z.of_nat (List.length (filter (matches q) (table s)))).
Proof.
  split; [intros; apply apply_pagination_clauses|].
  intros q qs Hq Hs Hoff Hlim Hmax.
  pose proof (apply_filter_groups_shape _ _ _ _ Hq) as [_ [Ho Hl]].
  cbn in Ho, Hl.
  destruct (run_select_unpaged (table s) q Ho Hl) as [counted [Hc Hlen]].
  set (dq := _apply_pagination self qs (FilterQuery.offset fq) (FilterQuery.limit fq)).
  destruct (apply_pagination_clauses self qs (FilterQuery.offset fq) (FilterQuery.limit fq))
    as [Hdl [Hdo _]]. fold dq in Hdl, Hdo.
  assert (0 <= Z.min (FilterQuery.limit fq) (FilterConfig.max_limit (_config self)))
    as Hmin by lia.
  destruct (run_select_paged (table s) dq _ _ Hdo Hdl Hoff Hmin) as [page Hp].
  exists {| FilterResult.items := map VDict page;
            FilterResult.total := Z.of_nat (List.length counted) |}.
  cbv zeta. fold dq. rewrite filter_by_query_eq. rewrite Hq, Hs.
  cbv zeta. fold dq. rewrite Hc, Hp.
  split; [reflexivity|]. split; [exact Ho|]. split; [exact Hl|].
  cbn [FilterResult.items FilterResult.total]. rewrite length_map.
  destruct (run_select_limited _ _ _ _ Hdl Hp) as [_ Hle].
  split; [exact Hle|].
  split; [eapply Z.le_trans; [exact Hle | apply Z.le_min_r]|]. now rewrite Hlen.
Qed.

End QueryEntryPoint.

(** The end-to-end example of the specification. *)
Example sorted_query_result :
  sample_run sorted_query
  = (Ok {| FilterResult.items := [VDict (Sample.user 3 "c" 40); VDict (Sample.user 2 "b" 30)];
           FilterResult.total := 2 |},
     {| table := Sample.users;
        executed :=
          [Count age_matches;
           Rows {| Select.whereclause := Select.whereclause age_matches;
                   Select.order_by_clauses := [("age", true)];
                   Select.offset_clause := Some 0; Select.limit_clause := Some 50 |}] |}).
Proof. reflexivity. Qed.

Example paged_query_result :
  sample_run paged_query
  = (Ok {| FilterResult.items := [VDict (Sample.user 3 "c" 40)]; FilterResult.total := 2 |},
     {| table := Sample.users;
        executed :=
          [Count age_matches;
           Rows {| Select.whereclause := Select.whereclause age_matches;
                   Select.order_by_clauses := [];
                   Select.offset_clause := Some 1; Select.limit_clause := Some 1 |}] |}).
Proof. reflexivity. Qed.

Lemma C1_total_ignores_ordering_and_paging_witness :
  FilterResult.total
    {| FilterResult.items := [VDict (Sample.user 3 "c" 40)]; FilterResult.total := 2 |}
  = FilterResult.total
      {| FilterResult.items := [VDict (Sample.user 3 "c" 40); VDict (Sample.user 2 "b" 30)];
         FilterResult.total := 2 |}.
Proof.
  exact (proj1 (C1_total_ignores_ordering_and_paging (RT := Sample.runtime)
                  (B := Sample.backend) Sample.engine sorted_query paged_query
                  Sample.fresh_session _ _ _ _ eq_refl
                  sorted_query_result paged_query_result)).
Defined.

Lemma C7_limit_clamped_to_max_limit_witness :
  exists r,
    sample_run paged_query
    = (Ok r,
       {| table := Sample.users;
          executed :=
            [Count age_matches;
             Rows (AsyncQueryFilterEngine._apply_pagination Sample.engine age_matches 1 1)] |})
    /\ Z.of_nat (List.length (FilterResult.items r)) <= 1000.
Proof.
  destruct (proj2 (C7_limit_clamped_to_max_limit (RT := Sample.runtime) (B := Sample.backend)
                     Sample.engine paged_query Sample.fresh_session)
              age_matches age_matches eq_refl eq_refl ltac:(cbn; lia) ltac:(cbn; lia)
              ltac:(cbn; lia))
    as [r [Hrun [_ [_ [_ [Hmax _]]]]]].
  exists r. split; [exact Hrun | exact Hmax].
Defined.

(** ** Empty input to the JSON entry point *)

Section EmptyJson.
Context {RT : PyRuntime} {B : Backend}.
Local Open Scope list_scope.

Import AsyncQueryFilterEngine.

Variable parse_FilterQuery : pydict -> result FilterQuery.t.
Variable parse_FilterParams : pydict -> result FilterParams.t.

Lemma matches_select (r : row) : matches Select.select r = true.
Proof. reflexivity. Qed.

Lemma filter_all {A} (f : A -> bool) (l : list A) :
  (forall x, f x = true) -> filter f l = l.
Proof.
  intros H. induction l as [|x l IH]; [reflexivity|]. simpl. now rewrite H, IH.
Qed.

Lemma empty_json_paginates (model : ModelClass) (engine : option t) :
  FilterService.filter_with_json parse_FilterQuery parse_FilterParams model [] engine
  = FilterService.reraise
      (filter_by_query (FilterService._get_engine model engine)
         {| FilterQuery.offset := 0; FilterQuery.limit := 50; FilterQuery.order_by := None;
            FilterQuery.desc := false; FilterQuery.groups := [] |}).
Proof. reflexivity. Qed.

(** [filter_by_params] on the request without filters, when the ordering
    resolves and both statements run. *)
Lemma filter_by_params_default_run (self : t) (s : session) (qs : Select.t)
    (counted page : list row) :
  _apply_sorting self Select.select None false = Ok qs ->
  run_select (table s) Select.select = Ok counted ->
  run_select (table s) (_apply_pagination self qs 0 50) = Ok page ->
  filter_by_params self FilterParams.default s
  = (Ok {| FilterResult.items := map VDict page;
           FilterResult.total := Z.of_nat (List.length counted) |},
     {| table := table s;
        executed := executed s ++ [Count Select.select;
                                   Rows (_apply_pagination self qs 0 50)] |}).
Proof.
  intros Hs Hc Hp. unfold filter_by_params, bindM, lift, exec, all.
  cbn [FilterParams.default FilterParams.filters FilterParams.advanced_filters
       FilterParams.order_by FilterParams.is_desc FilterParams.asc FilterParams.offset
       FilterParams.limit simple_stage advanced_stage run table executed].
  rewrite Hc. cbn [bind one].
  change (FilterParams.is_desc FilterParams.default) with false. rewrite Hs.
  cbn [table executed]. rewrite Hp, <- app_assoc. cbn [bind app FilterResult.make].
  destruct (0 <=? Z.of_nat (List.length counted)) eqn:E; [reflexivity|].
  apply Z.leb_gt in E. lia.
Qed.

(** C4 (amended). Empty input to the JSON entry point is valid: when the
    engine's default ordering resolves and its [max_limit] is not negative,
    the call returns a result after executing the count of the unfiltered
    query and a data query with no predicates, offset 0 and limit
    [min(50, max_limit)], where 50 is the page size the service passes; the
    total is the number of rows of the table; [filter_by_params] on the
    request without filters does the same.  With the engine the service
    builds itself, the limit is 50, which is that engine's
    [default_limit]. *)
Theorem C4_empty_json_first_page (model : ModelClass) (engine : option t) (s : session) :
  let eng := FilterService._get_engine model engine in
  let M := FilterConfig.max_limit (_config eng) in
  (forall qs,
     _apply_sorting eng Select.select None false = Ok qs -> 0 <= M ->
     exists r,
       let dq := Select.limit (Select.offset qs 0) (Z.min 50 M) in
       FilterService.filter_with_json parse_FilterQuery parse_FilterParams model [] engine s
       = (Ok r, {| table := table s;
                   executed := executed s ++ [Count Select.select; Rows dq] |})
       /\ Select.whereclause dq = []
       /\ Select.offset_clause dq = Some 0
       /\ Select.limit_clause dq = Some (Z.min 50 M)
       /\ FilterResult.total r = Z.of_nat (List.length (table s))
       /\ filter_by_params eng FilterParams.default s
          = (Ok r, {| table := table s;
                      executed := executed s ++ [Count Select.select; Rows dq] |}))
  /\ (engine = None ->
      _apply_sorting eng Select.select None false = Ok Select.select
      /\ M = 1000 /\ Z.min 50 M = FilterConfig.default_limit (_config eng)).
Proof.
  intros eng M. split.
  - intros qs Hs HM.
    destruct (apply_sorting_where _ _ _ _ _ Hs) as [Hw [Ho Hl]].
    destruct (run_select_unpaged (table s) Select.select eq_refl eq_refl) as [counted [Hc Hlen]].
    rewrite (filter_all _ _ matches_select) in Hlen.
    set (dq := Select.limit (Select.offset qs 0) (Z.min 50 M)).
    assert (0 <= Z.min 50 M) as Hmin by lia.
    destruct (run_select_paged (table s) dq 0 (Z.min 50 M) eq_refl eq_refl (Z.le_refl 0) Hmin)
      as [page Hp].
    exists {| FilterResult.items := map VDict page;
              FilterResult.total := Z.of_nat (List.length counted) |}.
    cbv zeta. fold dq. rewrite empty_json_paginates. unfold FilterService.reraise.
    rewrite filter_by_query_eq. fold eng.
    cbn [FilterQuery.groups FilterQuery.order_by FilterQuery.desc FilterQuery.offset
         FilterQuery.limit _apply_filter_groups].
    rewrite Hs. cbv zeta. unfold _apply_pagination. fold M. fold dq. rewrite Hc, Hp.
    split; [reflexivity|]. split; [exact Hw|]. split; [reflexivity|].
    split; [reflexivity|]. split; [cbn [FilterResult.total]; now rewrite Hlen|].
    exact (filter_by_params_default_run eng s qs counted page Hs Hc Hp).
  - intros ->. repeat split.
Qed.

End EmptyJson.

(** C4, as stated, fails: with a configured [default_limit] of 2, the empty
    input is answered with a data query of limit 50 and a page of three
    items. *)
Lemma C4_empty_json_ignores_default_limit :
  FilterConfig.default_limit (AsyncQueryFilterEngine._config small_page_engine) = 2
  /\ FilterService.filter_with_json (RT := Sample.runtime) (B := Sample.backend)
       no_query no_params Sample.User [] (Some small_page_engine) Sample.fresh_session
     = (Ok {| FilterResult.items := map VDict Sample.users; FilterResult.total := 3 |},
        {| table := Sample.users;
           executed :=
             [Count Select.select;
              Rows {| Select.whereclause := []; Select.order_by_clauses := [];
                      Select.offset_clause := Some 0; Select.limit_clause := Some 50 |}] |}).
Proof. split; reflexivity. Qed.

Lemma C4_empty_json_first_page_witness :
  exists r,
    FilterService.filter_with_json (RT := Sample.runtime) (B := Sample.backend)
      no_query no_params Sample.User [] (Some small_page_engine) Sample.fresh_session
    = (Ok r,
       {| table := Sample.users;
          executed :=
            [Count Select.select;
             Rows (Select.limit (Select.offset Select.select 0) 50)] |})
    /\ FilterResult.total r = 3.
Proof.
  destruct (proj1 (C4_empty_json_first_page (RT := Sample.runtime) (B := Sample.backend)
                     no_query no_params Sample.User (Some small_page_engine)
                     Sample.fresh_session)
              Select.select eq_refl ltac:(cbn; lia))
    as [r [Hrun [_ [_ [_ [Htotal _]]]]]].
  exists r. split; [exact Hrun | exact Htotal].
Defined.

(** ** Value coercion *)

Section Coercion.
Context {RT : PyRuntime}.

Import AsyncQueryFilterEngine.

(** No hint, an empty hint or a [None] value: the value comes back as is. *)
Lemma cast_value_untouched (v : pyval) (h : option string) :
  truthy_str h = false \/ v = VNone -> _cast_value v h = Ok v.
Proof.
  intros [H | ->].
  - destruct h as [[|c r]|]; try reflexivity. discriminate H.
  - destruct h as [[|c r]|]; reflexivity.
Qed.

(** [bool]: true exactly when the lower-cased text of the value is one of
    the four words. *)
Lemma cast_value_bool (v : pyval) :
  v <> VNone ->
  _cast_value v (Some "bool")
  = Ok (VBool (PyStr.mem (PyStr.lower (Py.str v)) ["true"; "1"; "yes"; "on"])).
Proof. intros H. destruct v; try reflexivity. contradiction. Qed.

Lemma replace_no_Z (s : string) :
  PyStr.has_char "Z" s = false -> PyStr.replace "Z" "+00:00" s = s.
Proof.
  unfold PyStr.has_char. rewrite negb_false_iff.
  induction s as [|c r IH]; [reflexivity|]. simpl. intros H.
  apply andb_true_iff in H. destruct H as [Hc Hr]. apply negb_true_iff in Hc.
  now rewrite Hc, (IH Hr).
Qed.

Lemma append_assoc3 (a b c : string) : a ++ b ++ c = (a ++ b) ++ c.
Proof. induction a as [|x a IH]; [reflexivity|]. simpl. now rewrite IH. Qed.

Lemma replace_app (old : ascii) (new a b : string) :
  PyStr.replace old new (a ++ b) = PyStr.replace old new a ++ PyStr.replace old new b.
Proof.
  induction a as [|c r IH]; [reflexivity|]. simpl. rewrite IH.
  destruct (Ascii.eqb c old); [apply append_assoc3 | reflexivity].
Qed.

(** [date]: a text ending in [Z] is parsed with [+00:00] in its place, and
    the date of the parsed moment is the result; a text that does not parse
    comes back as is. *)
Lemma cast_value_date_trailing_Z (s : string) :
  PyStr.has_char "Z" s = false ->
  _cast_value (VStr (s ++ "Z")) (Some "date")
  = match fromisoformat (s ++ "+00:00") with
    | Some dt => Ok (VDate (dt_date dt))
    | None => Ok (VStr (s ++ "Z"))
    end.
Proof.
  intros H. cbn [_cast_value is_none converters String.eqb Ascii.eqb Bool.eqb bind Py.str].
  rewrite replace_app, (replace_no_Z s H). cbn [PyStr.replace Ascii.eqb Bool.eqb append].
  destruct (fromisoformat (s ++ "+00:00")); reflexivity.
Qed.

(** A conversion that fails with one of the caught exceptions, and a type
    hint that is not in the table, give the raw value back. *)
Lemma cast_value_fallback (v : pyval) (c : ascii) (h : string) :
  v <> VNone ->
  (converters (String c h) = Raise KeyError
   \/ exists conv e, converters (String c h) = Ok conv /\ conv v = Raise e
                     /\ cast_caught e = true) ->
  _cast_value v (Some (String c h)) = Ok v.
Proof.
  intros Hv H. unfold _cast_value.
  assert (is_none v = false) as -> by (destruct v; try reflexivity; contradiction).
  destruct H as [-> | [conv [e [-> [He Hc]]]]]; cbn [bind]; [reflexivity|].
  now rewrite He, Hc.
Qed.

(** The only exception that leaves [_cast_value] is [OverflowError]. *)
Lemma cast_value_Raise (v : pyval) (h : option string) (e : exn) :
  _cast_value v h = Raise e -> e = OverflowError.
Proof.
  unfold _cast_value. destruct h as [[|c r]|]; try discriminate.
  destruct (is_none v); [discriminate|].
  destruct (conv <- converters (String c r) ;; conv v) as [x|e'] eqn:E; [discriminate|].
  destruct (cast_caught e') eqn:Ec; [discriminate|]. intros H. injection H as <-.
  unfold converters in E.
  repeat match type of E with
         | context [if ?b then _ else _] => destruct b; cbn [bind] in E
         end; try discriminate E.
  all: try (unfold Py.to_int, Py.to_float, Py.Z_of_float in E; cbn [bind] in E).
  all: repeat match type of E with
         | context [match ?x with _ => _ end] => destruct x; cbn [bind] in E
         end; try discriminate E.
  all: injection E as <-; first [reflexivity | discriminate Ec].
Qed.

(** C8. The coercion is not total: the conversion of the integer [10^400]
    to [float], and of the float infinity to [int], fails with
    [OverflowError], which [_cast_value] does not catch, so the exception is
    raised instead of the raw value being returned; a condition of declared
    type [float] with that value makes [_build_condition] raise too. *)
Theorem C8_cast_value_overflow_escapes :
  _cast_value (VInt (10 ^ 400)) (Some "float") = Raise OverflowError
  /\ _cast_value (VFloat (S754_infinity false)) (Some "int") = Raise OverflowError
  /\ _build_condition Sample.engine
       {| Filter.name := "age"; Filter.op := Op.EQ; Filter.value := VInt (10 ^ 400);
          Filter.type_ := Some "float" |}
     = Raise OverflowError.
Proof. repeat split; vm_compute; reflexivity. Qed.

End Coercion.

(** ** Unauthorized fields in [filter_by_params] *)

Section Unauthorized.
Context {RT : PyRuntime}.
Local Open Scope list_scope.

Import AsyncQueryFilterEngine.

Lemma is_prefix_app_l (p s x : string) :
  PyStr.is_prefix p s = true -> PyStr.is_prefix p (s ++ x) = true.
Proof.
  revert s. induction p as [|a p IH]; intros s; [reflexivity|].
  destruct s as [|b s]; [discriminate|]. simpl. intros H.
  apply andb_true_iff in H. destruct H as [H1 H2]. now rewrite H1, (IH s H2).
Qed.

Lemma contains_app_l (p s x : string) :
  PyStr.contains p s = true -> PyStr.contains p (s ++ x)%string = true.
Proof.
  induction s as [|c s IH].
  - simpl. rewrite orb_false_r. destruct p; [|discriminate]. intros _.
    destruct x; reflexivity.
  - cbn [PyStr.contains]. intros H. apply orb_true_iff in H. destruct H as [H|H].
    + change (String c s ++ x)%string with (String c (s ++ x)%string).
      cbn [PyStr.contains].
      change (String c (s ++ x)%string) with (String c s ++ x)%string.
      now rewrite (is_prefix_app_l _ _ x H).
    + change (String c s ++ x)%string with (String c (s ++ x)%string).
      cbn [PyStr.contains]. rewrite (IH H). apply orb_true_r.
Qed.

Lemma contains_self (p : string) : PyStr.contains p p = true.
Proof.
  pose proof (contains_here p EmptyString) as H.
  assert (p ++ "" = p)%string as E.
  { clear. induction p as [|c p IH]; [reflexivity|]. simpl. now rewrite IH. }
  now rewrite E in H.
Qed.

Lemma contains_join (k sep : string) (l : list string) :
  In k l -> PyStr.contains k (PyStr.join sep l) = true.
Proof.
  induction l as [|x r IH]; [contradiction|]. intros [->|H].
  - destruct r; [apply contains_self | apply contains_here].
  - destruct r as [|y r']; [contradiction|].
    change (PyStr.join sep (x :: y :: r'))
      with (x ++ sep ++ PyStr.join sep (y :: r'))%string.
    apply contains_app_r, contains_app_r, IH, H.
Qed.

(** Every listed name occurs in the message. *)
Lemma message_names (k : string) (names : list string) :
  In k names ->
  PyStr.contains k (invalid_fields_message (PyStr.join ", " names)) = true.
Proof.
  intros H. unfold invalid_fields_message.
  apply contains_app_r, contains_app_l, contains_join, H.
Qed.

Lemma make_Raise_class (name : pyval) (op : Op.t + string) (value ty : pyval) (e : exn) :
  Filter.make name op value ty = Raise e -> exists errors, e = ValidationError errors.
Proof.
  unfold Filter.make.
  destruct (Filter.validate_name name), (Filter.validate_op op),
    (Filter.validate_value value), (Filter.validate_type ty); try discriminate;
    intros H; injection H as <-; eexists; reflexivity.
Qed.

Lemma unauthorized_app (self : t) (a b : list string) :
  unauthorized self (a ++ b) = unauthorized self a ++ unauthorized self b.
Proof. apply filter_app. Qed.

Lemma simple_loop_Ok (self : t) (d : pydict) (fs fs' : list Filter.t) (inv inv' : list string) :
  simple_loop self d fs inv = Ok (fs', inv') ->
  inv' = inv ++ unauthorized self (map fst d).
Proof.
  revert fs inv. induction d as [|[k v] d IH]; intros fs inv; cbn [simple_loop map fst].
  - intros H. injection H as _ <-. now rewrite app_nil_r.
  - unfold simple_step. change (k :: map fst d) with ([k] ++ map fst d).
    rewrite unauthorized_app. unfold unauthorized at 1. cbn [filter].
    destruct (_validate_field self k); cbn [negb].
    + destruct (Filter.make _ _ _ _); [|discriminate]. cbn [bind]. apply IH.
    + cbn [bind]. intros H. apply IH in H. now rewrite <- app_assoc in H.
Qed.

Lemma simple_loop_Raise (self : t) (d : pydict) (fs : list Filter.t) (inv : list string)
    (e : exn) :
  simple_loop self d fs inv = Raise e -> is_ValueError e = true.
Proof.
  revert fs inv. induction d as [|[k v] d IH]; intros fs inv; cbn [simple_loop];
    [discriminate|].
  unfold simple_step. destruct (_validate_field self k); cbn [bind].
  - destruct (Filter.make _ _ _ _) eqn:E; cbn [bind]; [apply IH|].
    intros H. injection H as <-. apply make_Raise_class in E. now destruct E as [errs ->].
  - apply IH.
Qed.

Lemma simple_loop_builds (self : t) (d : pydict) (fs : list Filter.t) (inv : list string) :
  (forall k v, In (k, v) d -> _validate_field self k = true ->
               exists f, Filter.make (VStr k) (inl Op.EQ) v VNone = Ok f) ->
  exists fs', simple_loop self d fs inv = Ok (fs', inv ++ unauthorized self (map fst d)).
Proof.
  revert fs inv. induction d as [|[k v] d IH]; intros fs inv Hb; cbn [simple_loop map fst].
  - exists fs. now rewrite app_nil_r.
  - unfold simple_step. change (k :: map fst d) with ([k] ++ map fst d).
    rewrite unauthorized_app. unfold unauthorized at 1. cbn [filter].
    destruct (_validate_field self k) eqn:Ek; cbn [negb bind].
    + destruct (Hb k v (or_introl eq_refl) Ek) as [f ->]. cbn [bind app].
      apply IH. intros k' v' Hin. apply Hb. now right.
    + destruct (IH fs (inv ++ [k])) as [fs' Hfs'].
      { intros k' v' Hin. apply Hb. now right. }
      exists fs'. now rewrite Hfs', <- app_assoc.
Qed.

(** The simple stage with a refused key fails with an exception of the
    [ValueError] class. *)
Lemma simple_stage_refused (self : t) (d : pydict) (q : Select.t) :
  unauthorized self (map fst d) <> [] ->
  exists e, simple_stage self (FilterParams.FDict d) q = Raise e /\ is_ValueError e = true.
Proof.
  intros Hbad. destruct d as [|kv d]; [now contradiction Hbad|].
  cbn [simple_stage].
  destruct (simple_loop self (kv :: d) [] []) as [[fs inv]|e] eqn:E.
  - apply simple_loop_Ok in E. cbn [app] in E. subst inv. cbn [bind].
    destruct (unauthorized self (map fst (kv :: d))); [now contradiction Hbad|].
    eexists. split; reflexivity.
  - exists e. split; [reflexivity|]. now apply simple_loop_Raise in E.
Qed.

Lemma simple_stage_refused_message (self : t) (d : pydict) (q : Select.t) :
  unauthorized self (map fst d) <> [] ->
  (forall k v, In (k, v) d -> _validate_field self k = true ->
               exists f, Filter.make (VStr k) (inl Op.EQ) v VNone = Ok f) ->
  simple_stage self (FilterParams.FDict d) q
  = Raise (ValueError (invalid_fields_message
                         (PyStr.join ", " (unauthorized self (map fst d))))).
Proof.
  intros Hbad Hb. destruct d as [|kv d]; [now contradiction Hbad|].
  cbn [simple_stage]. destruct (simple_loop_builds self (kv :: d) [] [] Hb) as [fs ->].
  cbn [bind app]. destruct (unauthorized self (map fst (kv :: d))); [now contradiction Hbad|].
  reflexivity.
Qed.

Lemma filter_by_params_simple_Raise {B : Backend} (self : t) (p : FilterParams.t)
    (s : session) (e : exn) :
  simple_stage self (FilterParams.filters p) Select.select = Raise e ->
  filter_by_params self p s = (Raise e, s).
Proof. intros H. unfold filter_by_params, bindM, lift. now rewrite H. Qed.

Lemma filter_by_params_advanced_Raise {B : Backend} (self : t) (p : FilterParams.t)
    (s : session) (q : Select.t) (e : exn) :
  simple_stage self (FilterParams.filters p) Select.select = Ok q ->
  advanced_stage self (FilterParams.advanced_filters p) q = Raise e ->
  filter_by_params self p s = (Raise e, s).
Proof. intros H1 H2. unfold filter_by_params, bindM, lift. now rewrite H1, H2. Qed.

(** The loop body only appends to its accumulators. *)
Lemma item_step_acc (self : t) (item : pyval) (fs : list Filter.t) (inv : list pyval) :
  item_step self item fs inv
  = (' (a, b) <- item_step self item [] [] ;; Ok (fs ++ a, inv ++ b)).
Proof.
  unfold item_step.
  destruct (Dyn.contains item "name") as [[|]|]; cbn [bind andb app];
    rewrite ?app_nil_r; try reflexivity.
  destruct (Dyn.contains item "value") as [[|]|]; cbn [bind andb app];
    rewrite ?app_nil_r; try reflexivity.
  destruct (Dyn.getitem item "name") as [fname|]; cbn [bind]; try reflexivity.
  destruct (_validate_field_value self fname) as [[|]|]; cbn [bind negb app];
    rewrite ?app_nil_r; try reflexivity.
  destruct (Dyn.get item "operator" (VStr "=")); cbn [bind]; try reflexivity.
  destruct (Op.from_string _); cbn [bind]; try reflexivity.
  destruct (Dyn.getitem item "value"); cbn [bind]; try reflexivity.
  destruct (Dyn.get item "data_type" VNone); cbn [bind]; try reflexivity.
  destruct (Filter.make _ _ _ _); cbn [bind app]; rewrite ?app_nil_r; reflexivity.
Qed.

Lemma item_step_plain (self : t) (item : pyval) :
  plain_item self item ->
  exists add, item_step self item [] [] = Ok (add, map VStr (item_offending self item)).
Proof.
  intros [d [n [v [-> [Hn [Hv Hf]]]]]]. unfold item_offending. rewrite Hn, Hv.
  unfold unauthorized. cbn [filter].
  destruct (_validate_field self n) eqn:E; cbn [negb map].
  - destruct (Hf eq_refl) as [f ->]. now exists [f].
  - exists []. unfold item_step. cbn [Dyn.contains Dyn.getitem]. unfold dict_has.
    rewrite Hn, Hv. cbn [bind andb _validate_field_value]. now rewrite E.
Qed.

Lemma items_loop_plain (self : t) (items : list pyval) (fs : list Filter.t)
    (inv : list pyval) :
  Forall (plain_item self) items ->
  exists add,
    items_loop self items fs inv
    = Ok (fs ++ add, inv ++ map VStr (flat_map (item_offending self) items)).
Proof.
  intros H. revert fs inv. induction H as [|item rest Hi _ IH]; intros fs inv.
  - exists []. cbn. now rewrite !app_nil_r.
  - cbn [items_loop flat_map]. rewrite item_step_acc.
    destruct (item_step_plain self item Hi) as [a ->]. cbn [bind].
    destruct (IH (fs ++ a) (inv ++ map VStr (item_offending self item))) as [add ->].
    exists (a ++ add). now rewrite map_app, !app_assoc.
Qed.

Lemma strings_map (l : list string) : Dyn.strings (map VStr l) = Ok l.
Proof. induction l as [|x l IH]; [reflexivity|]. cbn. now rewrite IH. Qed.

Lemma group_make_Ok (b : bool) (f : Filter.t) (fs : list Filter.t) :
  exists g, FilterGroup.make (if b then "and" else "or") (f :: fs) = Ok g.
Proof. destruct b; eexists; reflexivity. Qed.

Lemma group_step_plain (self : t) (g : pydict) (acc : list FilterGroup.t) :
  plain_group self g ->
  match group_offending self g with
  | [] => exists acc', group_step self g acc = Ok acc'
  | names =>
      group_step self g acc
      = Raise (ValueError (invalid_fields_message (PyStr.join ", " names)))
  end.
Proof.
  intros [o [items [Ho [Hi Hp]]]]. unfold group_offending, group_step, dict_has, Dyn.getitem.
  rewrite Ho, Hi. cbn [andb bind Dyn.lower Dyn.iter].
  destruct (items_loop_plain self items [] [] Hp) as [add ->]. cbn [bind app].
  destruct (flat_map (item_offending self) items) as [|n ns] eqn:E; cbn [map].
  - destruct add as [|f fs]; [now exists acc|].
    destruct (group_make_Ok (PyStr.mem (PyStr.lower o) ["and"; "all"]) f fs) as [grp ->].
    cbn [bind]. eexists. reflexivity.
  - unfold Dyn.join. change (VStr n :: map VStr ns) with (map VStr (n :: ns)).
    now rewrite strings_map.
Qed.

Lemma groups_loop_clean (self : t) (pre : list pydict) (acc : list FilterGroup.t) :
  Forall (fun g => plain_group self g /\ group_offending self g = []) pre ->
  exists acc', groups_loop self pre acc = Ok acc'.
Proof.
  intros H. revert acc. induction H as [|g rest [Hp Hc] _ IH]; intros acc.
  - now exists acc.
  - cbn [groups_loop]. pose proof (group_step_plain self g acc Hp) as Hs.
    rewrite Hc in Hs. destruct Hs as [acc1 ->]. cbn [bind]. apply IH.
Qed.

(** C2 (amended). Unauthorized fields are reported batch by batch, and the
    first batch that has one ends the call before any storage call.  When
    the simple mapping has a refused key, [filter_by_params] raises an
    exception of the [ValueError] class and leaves the session as it was;
    when moreover every allowed entry is a valid condition, the exception is
    the [ValueError] whose message lists every refused key of the mapping,
    in order, whatever the advanced groups hold.  When the simple stage
    passes and the groups before [g] are plain and have no refused name,
    a plain group [g] with refused names raises the [ValueError] whose
    message lists every refused name of [g], whatever the later groups
    hold, again with the session as it was. *)
Theorem C2_unauthorized_fields_reported_per_batch {B : Backend}
    (self : t) (p : FilterParams.t) (s : session) :
  (forall d,
     FilterParams.filters p = FilterParams.FDict d ->
     unauthorized self (map fst d) <> [] ->
     (exists e, filter_by_params self p s = (Raise e, s) /\ is_ValueError e = true)
     /\ ((forall k v, In (k, v) d -> _validate_field self k = true ->
                      exists f, Filter.make (VStr k) (inl Op.EQ) v VNone = Ok f) ->
         filter_by_params self p s
         = (Raise (ValueError (invalid_fields_message
                                 (PyStr.join ", " (unauthorized self (map fst d))))), s)
         /\ forall k, In k (unauthorized self (map fst d)) ->
              PyStr.contains k
                (invalid_fields_message (PyStr.join ", " (unauthorized self (map fst d))))
              = true))
  /\ (forall q pre g post,
        simple_stage self (FilterParams.filters p) Select.select = Ok q ->
        FilterParams.advanced_filters p = Some (pre ++ g :: post) ->
        Forall (fun g' => plain_group self g' /\ group_offending self g' = []) pre ->
        plain_group self g ->
        group_offending self g <> [] ->
        filter_by_params self p s
        = (Raise (ValueError (invalid_fields_message
                                (PyStr.join ", " (group_offending self g)))), s)
        /\ forall k, In k (group_offending self g) ->
             PyStr.contains k
               (invalid_fields_message (PyStr.join ", " (group_offending self g))) = true).
Proof.
  split.
  - intros d Hd Hbad. split.
    + destruct (simple_stage_refused self d Select.select Hbad) as [e [He Hc]].
      exists e. split; [|exact Hc]. apply filter_by_params_simple_Raise. now rewrite Hd.
    + intros Hb. split; [|intros k; apply message_names].
      apply filter_by_params_simple_Raise. rewrite Hd.
      now apply simple_stage_refused_message.
  - intros q pre g post Hq Hadv Hpre Hg Hbad. split; [|intros k; apply message_names].
    apply filter_by_params_advanced_Raise with (q := q); [exact Hq|].
    rewrite Hadv, advanced_stage_eq, groups_loop_app.
    destruct (groups_loop_clean self pre [] Hpre) as [acc ->]. cbn [bind groups_loop].
    pose proof (group_step_plain self g acc Hg) as Hs.
    destruct (group_offending self g) as [|n ns]; [now contradiction Hbad|].
    now rewrite Hs.
Qed.

End Unauthorized.

(** C2, as stated, fails: with the refused key [secret] in the simple
    mapping and the refused name [hidden] in an advanced group, the message
    names [secret] and does not name [hidden]. *)
Lemma C2_advanced_field_not_reported :
  FilterParams.make 0 50 None 1 (FilterParams.FDict [("secret", VInt 1)])
    (Some [named_group "hidden"]) = Ok both_refused
  /\ unauthorized Sample.engine ["secret"] = ["secret"]
  /\ group_offending Sample.engine (named_group "hidden") = ["hidden"]
  /\ AsyncQueryFilterEngine.filter_by_params (RT := Sample.runtime) (B := Sample.backend)
       Sample.engine both_refused Sample.fresh_session
     = (Raise (ValueError (AsyncQueryFilterEngine.invalid_fields_message "secret")),
        Sample.fresh_session)
  /\ PyStr.contains "secret" (AsyncQueryFilterEngine.invalid_fields_message "secret") = true
  /\ PyStr.contains "hidden" (AsyncQueryFilterEngine.invalid_fields_message "secret") = false.
Proof. repeat split. Qed.

Lemma named_group_plain (field : string) :
  plain_group (RT := Sample.runtime) Sample.engine (named_group field).
Proof.
  exists "and", [VDict [("name", VStr field); ("value", VInt 2)]].
  split; [reflexivity|]. split; [reflexivity|]. constructor; [|constructor].
  exists [("name", VStr field); ("value", VInt 2)], field, (VInt 2).
  split; [reflexivity|]. split; [reflexivity|]. split; [reflexivity|].
  intros H. unfold AsyncQueryFilterEngine.item_step.
  cbn [Dyn.contains dict_has dict_get String.eqb Ascii.eqb Bool.eqb bind andb
       Dyn.getitem AsyncQueryFilterEngine._validate_field_value].
  rewrite H. cbn [bind negb Dyn.get dict_get String.eqb Ascii.eqb Bool.eqb].
  assert (exists v, Filter.validate_name (VStr field) = Ok v) as [v Hv].
  { destruct (Filter.validate_name (VStr field)) as [v|e] eqn:E; [now exists v|].
    exfalso. revert H. unfold Sample.engine, AsyncQueryFilterEngine._validate_field.
    cbn. intros H. repeat (apply orb_true_iff in H; destruct H as [H|H]);
      try discriminate H; apply String.eqb_eq in H; subst field; discriminate E. }
  change (Op.from_string (VStr "=")) with (Ok Op.EQ). cbn [bind].
  unfold Filter.make. rewrite Hv. eexists. reflexivity.
Defined.

Lemma C2_unauthorized_fields_reported_per_batch_witness :
  AsyncQueryFilterEngine.filter_by_params (RT := Sample.runtime) (B := Sample.backend)
    Sample.engine both_refused Sample.fresh_session
  = (Raise (ValueError (AsyncQueryFilterEngine.invalid_fields_message "secret")),
     Sample.fresh_session)
  /\ AsyncQueryFilterEngine.filter_by_params (RT := Sample.runtime) (B := Sample.backend)
       Sample.engine later_groups_refused Sample.fresh_session
     = (Raise (ValueError (AsyncQueryFilterEngine.invalid_fields_message "hidden")),
        Sample.fresh_session).
Proof.
  split.
  - refine (proj1 (proj2 (proj1 (C2_unauthorized_fields_reported_per_batch
                       (RT := Sample.runtime) (B := Sample.backend) Sample.engine
                       both_refused Sample.fresh_session)
                     [("secret", VInt 1)] eq_refl _) _)).
    + discriminate.
    + intros k v [E|[]]. injection E as <- <-. intros H. discriminate H.
  - refine (proj1 (proj2 (C2_unauthorized_fields_reported_per_batch
                       (RT := Sample.runtime) (B := Sample.backend) Sample.engine
                       later_groups_refused Sample.fresh_session)
                     Select.select [named_group "age"] (named_group "hidden")
                     [named_group "secret"] eq_refl eq_refl _ _ _)).
    + constructor; [|constructor]. split; [apply named_group_plain | reflexivity].
    + apply named_group_plain.
    + discriminate.
Defined.

(** * Further properties of the models *)

Section ModelValidation.
Context {RT : PyRuntime}.

(** X1. The printed form of an operator, its symbol, resolves back to the
    operator, also through the [op] field of a filter, and the symbol is
    the first of the operator's aliases. *)
Theorem X1_operator_symbol_round_trip (op : Op.t) :
  Op.from_string (VStr (Op.symbol op)) = Ok op
  /\ Filter.validate_op (inr (Op.symbol op)) = Ok op
  /\ hd_error (Op.aliases op) = Some (Op.symbol op).
Proof. destruct op; repeat split. Qed.

Lemma mem_and_or (v : string) :
  PyStr.mem v ["and"; "or"] = true <-> v = "and" \/ v = "or".
Proof.
  rewrite mem_In. simpl. split.
  - intros [H|[H|[]]]; auto.
  - intros [H|H]; auto.
Qed.

(** X2. A [FilterGroup] is built exactly from the operator [and] or [or]
    and a non-empty list of filters, which it keeps as given; the other
    spellings that [validate_group_op] maps ([AND], [all], [OR], [any]) are
    refused by the type of the field before the validator is reached. *)
Theorem X2_filter_group_construction (op : string) (filters : list Filter.t) :
  (forall g, FilterGroup.make op filters = Ok g ->
     (op = "and" \/ op = "or") /\ filters <> []
     /\ FilterGroup.op g = op /\ FilterGroup.filters g = filters)
  /\ ((op = "and" \/ op = "or") -> filters <> [] ->
      FilterGroup.make op filters
      = Ok {| FilterGroup.op := op; FilterGroup.filters := filters |})
  /\ (In op ["AND"; "all"; "OR"; "any"] \/ filters = [] ->
      exists errors,
        errors <> [] /\ FilterGroup.make op filters = Raise (ValidationError errors)).
Proof.
  split; [|split].
  - intros g H. unfold FilterGroup.make, FilterGroup.validate_group_op in H.
    destruct (PyStr.mem op ["and"; "or"]) eqn:E; cbn [negb] in H.
    + apply mem_and_or in E.
      destruct filters as [|f fs];
        [destruct E as [-> | ->]; discriminate H|].
      destruct E as [-> | ->]; cbn in H; injection H as <-;
        (split; [auto|]); (split; [discriminate|]); split; reflexivity.
    + destruct (FilterGroup.validate_filters filters); discriminate H.
  - intros [-> | ->] Hne; (destruct filters as [|f fs]; [contradiction|]); reflexivity.
  - intros [Hop | ->].
    + simpl in Hop. unfold FilterGroup.make.
      destruct Hop as [<-|[<-|[<-|[<-|[]]]]]; cbn;
        destruct filters; (eexists; split; [|reflexivity]); discriminate.
    + unfold FilterGroup.make. cbn [FilterGroup.validate_filters].
      destruct (FilterGroup.validate_group_op op) as [o|e] eqn:E.
      * eexists. split; [|reflexivity]. discriminate.
      * eexists. split; [|reflexivity].
        intros H. apply (f_equal (@List.length string)) in H.
        rewrite length_app in H. simpl in H. lia.
Qed.

Lemma validate_order_by_Ok (ob ob' : option string) :
  validate_order_by ob = Ok ob' ->
  ob' = option_map PyStr.strip ob
  /\ (forall s, ob' = Some s -> (s = EmptyString \/ valid_name s = true) /\ PyStr.strip s = s)
  /\ validate_order_by ob' = Ok ob'.
Proof.
  unfold validate_order_by. destruct ob as [s|].
  - rewrite isalnum_without_separators. cbn [option_map].
    destruct (PyStr.strip s) as [|c r] eqn:Es.
    + cbn. intros H. injection H as <-. split; [reflexivity|]. split; [|reflexivity].
      intros s0 H0. injection H0 as <-. split; [now left | reflexivity].
    + cbn [PyStr.is_empty negb andb].
      destruct (valid_name (String c r)) eqn:Ev; cbn [negb]; [|discriminate].
      intros H. injection H as <-.
      assert (PyStr.strip (String c r) = String c r) as Hs.
      { apply strip_id. unfold valid_name in Ev. now apply andb_true_iff in Ev. }
      split; [reflexivity|]. split.
      * intros s0 H0. injection H0 as <-. split; [now right | exact Hs].
      * rewrite Hs, isalnum_without_separators, Ev. reflexivity.
  - intros H. injection H as <-. split; [reflexivity|]. split; [discriminate | reflexivity].
Qed.

Lemma validate_offset_Ok (n n' : Z) : validate_offset n = Ok n' <-> 0 <= n /\ n' = n.
Proof.
  unfold validate_offset. destruct (0 <=? n) eqn:E.
  - apply Z.leb_le in E. split; [intros H; injection H as <-; auto | intros [_ ->]; reflexivity].
  - apply Z.leb_gt in E. split; [discriminate | intros [H _]; lia].
Qed.

Lemma validate_limit_Ok (n n' : Z) : validate_limit n = Ok n' <-> 1 <= n <= 1000 /\ n' = n.
Proof.
  unfold validate_limit. destruct (n <? 1) eqn:E1.
  - apply Z.ltb_lt in E1. split; [discriminate | intros [H _]; lia].
  - apply Z.ltb_ge in E1. destruct (1000 <? n) eqn:E2.
    + apply Z.ltb_lt in E2. split; [discriminate | intros [H _]; lia].
    + apply Z.ltb_ge in E2.
      split; [intros H; injection H as <-; split; [lia | reflexivity]
             | intros [_ ->]; reflexivity].
Qed.

Lemma query_make_Ok (o l : Z) (ob : option string) (d : bool) (g : list FilterGroup.t)
    (q : FilterQuery.t) :
  FilterQuery.make o l ob d g = Ok q <->
  exists ob', validate_offset o = Ok o /\ validate_limit l = Ok l
              /\ validate_order_by ob = Ok ob'
              /\ q = {| FilterQuery.offset := o; FilterQuery.limit := l;
                        FilterQuery.order_by := ob'; FilterQuery.desc := d;
                        FilterQuery.groups := g |}.
Proof.
  unfold FilterQuery.make. split.
  - destruct (validate_offset o) as [o'|] eqn:Eo; [|destruct (validate_limit l),
      (validate_order_by ob); discriminate].
    destruct (validate_limit l) as [l'|] eqn:El; [|destruct (validate_order_by ob); discriminate].
    destruct (validate_order_by ob) as [ob'|] eqn:Eb; [|discriminate].
    intros H. injection H as <-. apply validate_offset_Ok in Eo. destruct Eo as [_ ->].
    apply validate_limit_Ok in El. destruct El as [_ ->]. exists ob'. repeat split.
  - intros [ob' [-> [-> [-> ->]]]]. reflexivity.
Qed.

Lemma query_make_refused (o l : Z) (ob : option string) (d : bool)
    (g : list FilterGroup.t) :
  o < 0 \/ l < 1 \/ 1000 < l ->
  exists errors,
    errors <> [] /\ FilterQuery.make o l ob d g = Raise (ValidationError errors).
Proof.
  intros H. unfold FilterQuery.make.
  destruct (validate_offset o) as [o'|eo] eqn:Eo.
  - apply validate_offset_Ok in Eo.
    destruct (validate_limit l) as [l'|el] eqn:El.
    + apply validate_limit_Ok in El. lia.
    + unfold validate_limit in El.
      destruct (l <? 1); [|destruct (1000 <? l); [|discriminate El]];
        injection El as <-; destruct (validate_order_by ob);
        (eexists; split; [|reflexivity]); discriminate.
  - unfold validate_offset in Eo. destruct (0 <=? o); [discriminate Eo|].
    injection Eo as <-.
    destruct (validate_limit l), (validate_order_by ob);
      (eexists; split; [|reflexivity]); discriminate.
Qed.

(** X3. A [FilterQuery] that validation lets through has an offset of at
    least 0, a limit between 1 and 1000, and an [order_by] that is the
    trimmed input, either empty or a valid name; [desc] and the groups are
    kept; validating its own fields again gives the same query back.  An
    offset below 0 or a limit outside 1..1000 is refused with a validation
    error. *)
Theorem X3_filter_query_validation (o l : Z) (ob : option string) (d : bool)
    (g : list FilterGroup.t) :
  (forall q, FilterQuery.make o l ob d g = Ok q ->
     0 <= FilterQuery.offset q /\ FilterQuery.offset q = o
     /\ 1 <= FilterQuery.limit q <= 1000 /\ FilterQuery.limit q = l
     /\ FilterQuery.order_by q = option_map PyStr.strip ob
     /\ (forall s, FilterQuery.order_by q = Some s ->
           (s = EmptyString \/ valid_name s = true) /\ PyStr.strip s = s)
     /\ FilterQuery.desc q = d /\ FilterQuery.groups q = g
     /\ FilterQuery.make (FilterQuery.offset q) (FilterQuery.limit q)
          (FilterQuery.order_by q) (FilterQuery.desc q) (FilterQuery.groups q) = Ok q)
  /\ (o < 0 \/ l < 1 \/ 1000 < l ->
      exists errors,
        errors <> [] /\ FilterQuery.make o l ob d g = Raise (ValidationError errors)).
Proof.
  split.
  - intros q H. apply query_make_Ok in H. destruct H as [ob' [Ho [Hl [Hb ->]]]].
    cbn [FilterQuery.offset FilterQuery.limit FilterQuery.order_by FilterQuery.desc
         FilterQuery.groups].
    apply validate_offset_Ok in Ho. apply validate_limit_Ok in Hl.
    destruct (validate_order_by_Ok _ _ Hb) as [Hs [Hv Hi]].
    split; [tauto|]. split; [reflexivity|]. split; [tauto|]. split; [reflexivity|].
    split; [exact Hs|]. split; [exact Hv|]. split; [reflexivity|]. split; [reflexivity|].
    apply query_make_Ok. exists ob'. repeat split; try assumption.
    + apply validate_offset_Ok. tauto.
    + apply validate_limit_Ok. tauto.
  - apply query_make_refused.
Qed.

(** X4. A filter that validation lets through is a fixed point of
    validation: its declared type is absent or one of the five type names,
    and building a filter from its own fields gives the same filter back.
    An operator given by a string of its own resolves to the operator of
    which the string is an alias. *)
Theorem X4_filter_validation_fixed_point (name : pyval) (op : Op.t + string)
    (value ty : pyval) (f : Filter.t)
    (Hmake : Filter.make name op value ty = Ok f) :
  (Filter.type_ f = None
   \/ exists s, Filter.type_ f = Some s /\ In s ["str"; "int"; "float"; "bool"; "date"])
  /\ (forall s, op = inr s -> In s (Op.aliases (Filter.op f)))
  /\ (forall o, op = inl o -> Filter.op f = o)
  /\ Filter.make (VStr (Filter.name f)) (inl (Filter.op f)) (Filter.value f)
       (type_value (Filter.type_ f)) = Ok f.
Proof.
  apply make_Ok in Hmake. destruct Hmake as [Hn [Ho [Hv Ht]]].
  assert (Filter.validate_type (type_value (Filter.type_ f)) = Ok (Filter.type_ f)
          /\ (Filter.type_ f = None
              \/ exists s, Filter.type_ f = Some s
                           /\ In s ["str"; "int"; "float"; "bool"; "date"])) as [Ht' Hty].
  { unfold Filter.validate_type in Ht. destruct ty; try discriminate Ht.
    - injection Ht as <-. split; [reflexivity | now left].
    - destruct (PyStr.mem s Filter.type_names) eqn:E; [|discriminate Ht].
      injection Ht as <-. cbn [type_value Filter.validate_type]. rewrite E.
      split; [reflexivity|]. right. exists s. split; [reflexivity|]. now apply mem_In. }
  split; [exact Hty|]. split; [|split].
  - intros s ->. cbn [Filter.validate_op] in Ho. apply from_string_Ok in Ho.
    destruct Ho as [s' [E H]]. now injection E as <-.
  - intros o ->. cbn [Filter.validate_op] in Ho. now injection Ho as <-.
  - assert (Filter.validate_name (VStr (Filter.name f)) = Ok (Filter.name f)) as Hn'.
    { apply validate_name_Ok in Hn. destruct Hn as [v [_ [Hval Hf]]].
      apply validate_name_Ok. exists (Filter.name f). rewrite Hf. repeat split. exact Hval. }
    assert (Filter.validate_value (Filter.value f) = Ok (Filter.value f)) as Hv'.
    { unfold Filter.validate_value in *. destruct (is_none value) eqn:E; [discriminate Hv|].
      injection Hv as <-. now rewrite E. }
    unfold Filter.make. rewrite Hn', Hv', Ht'. cbn [Filter.validate_op].
    destruct f; reflexivity.
Qed.

End ModelValidation.

Section ParamsValidation.
Local Open Scope list_scope.

Lemma validate_mapping_ok (d : pydict) :
  mapping_ok d = true -> FilterParams.validate_mapping d = Ok tt.
Proof.
  induction d as [|[k v] r IH]; [reflexivity|].
  cbn [mapping_ok forallb fst snd FilterParams.validate_mapping].
  intros H. apply andb_true_iff in H. destruct H as [H1 H2].
  apply andb_true_iff in H1. destruct H1 as [Hk Hv].
  apply negb_true_iff in Hk. apply negb_true_iff in Hv.
  assert (PyStr.is_empty k = false) as -> by (destruct k; [discriminate Hk | reflexivity]).
  rewrite Hk, Hv. cbn [orb]. exact (IH H2).
Qed.

Lemma validate_mapping_bad (d : pydict) :
  mapping_ok d = false -> exists msg, FilterParams.validate_mapping d = Raise (ValueError msg).
Proof.
  induction d as [|[k v] r IH]; [discriminate|].
  cbn [mapping_ok forallb fst snd FilterParams.validate_mapping].
  destruct (PyStr.is_empty k || PyStr.is_empty (PyStr.strip k)) eqn:Ek;
    [intros _; eexists; reflexivity|].
  destruct (is_none v) eqn:Ev; [intros _; eexists; reflexivity|].
  apply orb_false_iff in Ek. destruct Ek as [_ ->]. cbn [negb andb]. exact IH.
Qed.

(** X5. The mapping form of [filters]: normalization accepts it exactly
    when no key is blank and no value is [None], and then returns the
    parameters as they are; otherwise it raises a [ValueError].  Absent
    filters are accepted as they are. *)
Theorem X5_mapping_filters_validation (p : FilterParams.t) :
  (forall d, FilterParams.filters p = FilterParams.FDict d -> mapping_ok d = true ->
     FilterParams.normalize_and_validate_filters p = Ok p)
  /\ (forall d, FilterParams.filters p = FilterParams.FDict d -> mapping_ok d = false ->
        exists msg, FilterParams.normalize_and_validate_filters p = Raise (ValueError msg))
  /\ (FilterParams.filters p = FilterParams.FNone ->
      FilterParams.normalize_and_validate_filters p = Ok p).
Proof.
  unfold FilterParams.normalize_and_validate_filters. split; [|split].
  - intros d -> H. now rewrite (validate_mapping_ok _ H).
  - intros d -> H. destruct (validate_mapping_bad _ H) as [msg ->]. now exists msg.
  - intros ->. reflexivity.
Qed.

Lemma normalize_fixed (p p' : FilterParams.t) :
  FilterParams.normalize_and_validate_filters p = Ok p' ->
  FilterParams.normalize_and_validate_filters p' = Ok p'
  /\ not_list_shaped (FilterParams.filters p') = true
  /\ FilterParams.offset p' = FilterParams.offset p
  /\ FilterParams.limit p' = FilterParams.limit p
  /\ FilterParams.order_by p' = FilterParams.order_by p
  /\ FilterParams.asc p' = FilterParams.asc p.
Proof.
  unfold FilterParams.normalize_and_validate_filters at 1.
  destruct (FilterParams.filters p) as [|d|l] eqn:E.
  - intros H. injection H as <-. unfold FilterParams.normalize_and_validate_filters.
    rewrite E. repeat split.
  - destruct (FilterParams.validate_mapping d) as [[]|e] eqn:Ev; [|discriminate].
    intros H. injection H as <-. unfold FilterParams.normalize_and_validate_filters.
    rewrite E, Ev. repeat split.
  - destruct (FilterParams.validate_groups 0 l) as [[]|e]; [|discriminate].
    intros H. injection H as <-. repeat split.
Qed.

Lemma normalize_Raise (p : FilterParams.t) (e : exn) :
  FilterParams.normalize_and_validate_filters p = Raise e -> exists msg, e = ValueError msg.
Proof.
  assert (forall i j items e0, FilterParams.validate_items i j items = Raise e0 ->
                               exists msg, e0 = ValueError msg) as Hitems.
  { intros i j items. revert j. induction items as [|x r IH]; intros j e0; [discriminate|].
    cbn [FilterParams.validate_items].
    destruct x; try (intros H; injection H as <-; eexists; reflexivity).
    destruct (negb (dict_has d "name")); [intros H; injection H as <-; eexists; reflexivity|].
    destruct (negb (dict_has d "value")); [intros H; injection H as <-; eexists; reflexivity|].
    apply IH. }
  assert (forall l i e0, FilterParams.validate_groups i l = Raise e0 ->
                         exists msg, e0 = ValueError msg) as Hgroups.
  { induction l as [|g r IH]; intros i e0; [discriminate|].
    cbn [FilterParams.validate_groups].
    destruct (negb (dict_has g "operator")); [intros H; injection H as <-; eexists; reflexivity|].
    destruct (dict_get g "items") as [[| | | | | [|x xs] | | ]|];
      try (intros H; injection H as <-; eexists; reflexivity).
    destruct (FilterParams.validate_items i 0 (x :: xs)) as [[]|e1] eqn:Ei; cbn [bind].
    - apply IH.
    - intros H. injection H as <-. exact (Hitems _ _ _ _ Ei). }
  unfold FilterParams.normalize_and_validate_filters.
  destruct (FilterParams.filters p) as [|d|l]; [discriminate | |].
  - destruct (FilterParams.validate_mapping d) as [[]|e1] eqn:Ev; [discriminate|].
    cbn [bind]. intros H. injection H as <-.
    destruct (mapping_ok d) eqn:Em.
    + rewrite (validate_mapping_ok _ Em) in Ev. discriminate Ev.
    + destruct (validate_mapping_bad _ Em) as [msg Hm]. rewrite Hm in Ev.
      injection Ev as <-. now exists msg.
  - destruct (FilterParams.validate_groups 0 l) as [[]|e1] eqn:Eg; [discriminate|].
    cbn [bind]. intros H. injection H as <-. exact (Hgroups _ _ _ Eg).
Qed.

Lemma validate_asc_Ok (a a' : Z) :
  FilterParams.validate_asc a = Ok a' <-> (a = 0 \/ a = 1) /\ a' = a.
Proof.
  unfold FilterParams.validate_asc. destruct ((a =? 0) || (a =? 1)) eqn:E.
  - apply orb_true_iff in E. rewrite !Z.eqb_eq in E.
    split; [intros H; injection H as <-; auto | intros [_ ->]; reflexivity].
  - apply orb_false_iff in E. rewrite !Z.eqb_neq in E.
    split; [discriminate | intros [H _]; lia].
Qed.

Lemma params_make_Ok (o l : Z) (ob : option string) (a : Z)
    (f : FilterParams.filters_t) (adv : option (list pydict)) (p : FilterParams.t) :
  FilterParams.make o l ob a f adv = Ok p ->
  (0 <= o /\ FilterParams.offset p = o)
  /\ (1 <= l <= 1000 /\ FilterParams.limit p = l)
  /\ (FilterParams.order_by p = option_map PyStr.strip ob
      /\ validate_order_by (FilterParams.order_by p) = Ok (FilterParams.order_by p))
  /\ ((a = 0 \/ a = 1) /\ FilterParams.asc p = a)
  /\ not_list_shaped (FilterParams.filters p) = true
  /\ FilterParams.normalize_and_validate_filters p = Ok p.
Proof.
  unfold FilterParams.make.
  destruct (validate_offset o) as [o'|] eqn:Eo;
    [|destruct (validate_limit l), (validate_order_by ob), (FilterParams.validate_asc a);
      discriminate].
  destruct (validate_limit l) as [l'|] eqn:El;
    [|destruct (validate_order_by ob), (FilterParams.validate_asc a); discriminate].
  destruct (validate_order_by ob) as [ob'|] eqn:Eb;
    [|destruct (FilterParams.validate_asc a); discriminate].
  destruct (FilterParams.validate_asc a) as [a'|] eqn:Ea; [|discriminate].
  destruct (FilterParams.normalize_and_validate_filters _) as [p'|] eqn:En; [|discriminate].
  intros H. injection H as <-.
  destruct (normalize_fixed _ _ En) as [Hfix [Hl [Ho' [Hl' [Hob Ha]]]]].
  cbn [FilterParams.offset FilterParams.limit FilterParams.order_by FilterParams.asc]
    in Ho', Hl', Hob, Ha.
  apply validate_offset_Ok in Eo. apply validate_limit_Ok in El.
  apply validate_asc_Ok in Ea. destruct (validate_order_by_Ok _ _ Eb) as [Hs [_ Hi]].
  destruct Eo as [Eo ->], El as [El ->], Ea as [Ea ->].
  rewrite Ho', Hl', Hob, Ha.
  split; [split; [exact Eo | reflexivity]|]. split; [split; [exact El | reflexivity]|].
  split; [split; [exact Hs | exact Hi]|]. split; [split; [exact Ea | reflexivity]|].
  split; [exact Hl | exact Hfix].
Qed.

(** X6. Parameters that validation lets through: the offset is at least 0,
    the limit between 1 and 1000, [asc] is 0 or 1 and [is_desc] holds
    exactly for 0, [filters] is never left as a list, the two filter
    predicates are each other's negation, and the parameters are a fixed
    point of [normalize_and_validate_filters].  Whatever is refused is
    refused with a validation error that carries at least one message. *)
Theorem X6_filter_params_construction (o l : Z) (ob : option string) (a : Z)
    (f : FilterParams.filters_t) (adv : option (list pydict)) :
  (forall p, FilterParams.make o l ob a f adv = Ok p ->
     0 <= FilterParams.offset p /\ FilterParams.offset p = o
     /\ 1 <= FilterParams.limit p <= 1000 /\ FilterParams.limit p = l
     /\ FilterParams.order_by p = option_map PyStr.strip ob
     /\ (FilterParams.asc p = 0 \/ FilterParams.asc p = 1) /\ FilterParams.asc p = a
     /\ (FilterParams.is_desc p = true <-> FilterParams.asc p = 0)
     /\ not_list_shaped (FilterParams.filters p) = true
     /\ FilterParams.has_only_pagination_and_sorting p
        = negb (FilterParams.has_any_filters p)
     /\ FilterParams.normalize_and_validate_filters p = Ok p)
  /\ (forall e, FilterParams.make o l ob a f adv = Raise e ->
        exists errors, errors <> [] /\ e = ValidationError errors).
Proof.
  split.
  - intros p H. apply params_make_Ok in H.
    destruct H as [[Ho Ho'] [[Hl Hl'] [[Hs _] [[Ha Ha'] [Hlist Hfix]]]]].
    unfold FilterParams.is_desc. rewrite Ho', Hl', Ha', Z.eqb_eq.
    split; [exact Ho|]. split; [reflexivity|]. split; [exact Hl|]. split; [reflexivity|].
    split; [exact Hs|]. split; [exact Ha|]. split; [reflexivity|]. split; [tauto|].
    split; [exact Hlist|]. split; [reflexivity | exact Hfix].
  - unfold FilterParams.make. intros e.
    assert (forall (r : result Z) v, (r = validate_offset v \/ r = validate_limit v
                                      \/ r = FilterParams.validate_asc v) ->
              forall e0, r = Raise e0 -> exists m, errors_of r = [m]) as HZ.
    { intros r v Hr e0 He. subst r.
      destruct Hr as [Hr|[Hr|Hr]]; symmetry in Hr.
      - unfold validate_offset in Hr. destruct (0 <=? v); [discriminate|].
        injection Hr as <-. eexists; reflexivity.
      - unfold validate_limit in Hr.
        destruct (v <? 1); [|destruct (1000 <? v); [|discriminate]];
          injection Hr as <-; eexists; reflexivity.
      - unfold FilterParams.validate_asc in Hr. destruct ((v =? 0) || (v =? 1)); [discriminate|].
        injection Hr as <-. eexists; reflexivity. }
    assert (forall e0, validate_order_by ob = Raise e0 ->
                       exists m, errors_of (validate_order_by ob) = [m]) as Hob.
    { intros e0. unfold validate_order_by. destruct ob as [s|]; [|discriminate].
      cbv zeta. destruct (negb _ && negb _); [|discriminate]. intros _. eexists; reflexivity. }
    pose proof (HZ (validate_offset o) o (or_introl eq_refl)) as H1.
    pose proof (HZ (validate_limit l) l (or_intror (or_introl eq_refl))) as H2.
    pose proof (HZ (FilterParams.validate_asc a) a (or_intror (or_intror eq_refl))) as H3.
    destruct (validate_offset o) as [o'|eo].
    + destruct (validate_limit l) as [l'|el].
      * destruct (validate_order_by ob) as [ob'|eb].
        -- destruct (FilterParams.validate_asc a) as [a'|ea].
           ++ destruct (FilterParams.normalize_and_validate_filters _) as [p'|en] eqn:En;
                [discriminate|].
              intros H. injection H as <-. destruct (normalize_Raise _ _ En) as [msg ->].
              eexists. split; [|reflexivity]. discriminate.
           ++ intros H. destruct (H3 _ eq_refl) as [m Hm]. injection H as <-.
              cbn [errors_of] in Hm. rewrite Hm.
              eexists. split; [|reflexivity]. discriminate.
        -- intros H. destruct (Hob _ eq_refl) as [m Hm].
           assert (e = ValidationError
                         (errors_of (Ok o' : result Z) ++ errors_of (Ok l' : result Z)
                          ++ errors_of (Raise eb : result (option string))
                          ++ errors_of (FilterParams.validate_asc a))) as ->
             by (destruct (FilterParams.validate_asc a); now injection H as <-).
           rewrite Hm. eexists. split; [|reflexivity]. discriminate.
      * intros H. destruct (H2 _ eq_refl) as [m Hm].
        assert (e = ValidationError
                      (errors_of (Ok o' : result Z) ++ errors_of (Raise el : result Z)
                       ++ errors_of (validate_order_by ob)
                       ++ errors_of (FilterParams.validate_asc a))) as ->
          by (destruct (validate_order_by ob), (FilterParams.validate_asc a);
              now injection H as <-).
        rewrite Hm. eexists. split; [|reflexivity]. discriminate.
    + intros H. destruct (H1 _ eq_refl) as [m Hm].
      assert (e = ValidationError
                    (errors_of (Raise eo : result Z) ++ errors_of (validate_limit l)
                     ++ errors_of (validate_order_by ob)
                     ++ errors_of (FilterParams.validate_asc a))) as ->
        by (destruct (validate_limit l), (validate_order_by ob),
              (FilterParams.validate_asc a); now injection H as <-).
      rewrite Hm. eexists. split; [|reflexivity]. discriminate.
Qed.

End ParamsValidation.

Lemma X2_filter_group_construction_witness :
  FilterGroup.make "or" [age_filter]
  = Ok {| FilterGroup.op := "or"; FilterGroup.filters := [age_filter] |}
  /\ (exists errors,
        errors <> [] /\ FilterGroup.make "any" [age_filter] = Raise (ValidationError errors)).
Proof.
  split.
  - apply (proj1 (proj2 (X2_filter_group_construction "or" [age_filter]))).
    + right. reflexivity.
    + discriminate.
  - apply (proj2 (proj2 (X2_filter_group_construction "any" [age_filter]))).
    left. simpl. tauto.
Defined.

Lemma X3_filter_query_validation_witness :
  (FilterQuery.order_by
     {| FilterQuery.offset := 0; FilterQuery.limit := 50; FilterQuery.order_by := Some "age";
        FilterQuery.desc := true; FilterQuery.groups := [] |}
   = option_map PyStr.strip (Some " age "))
  /\ (exists errors,
        errors <> []
        /\ FilterQuery.make 0 5000 None false [] = Raise (ValidationError errors)).
Proof.
  split.
  - apply (proj1 (X3_filter_query_validation 0 50 (Some " age ") true [])
             {| FilterQuery.offset := 0; FilterQuery.limit := 50;
                FilterQuery.order_by := Some "age"; FilterQuery.desc := true;
                FilterQuery.groups := [] |}).
    vm_compute. reflexivity.
  - apply (proj2 (X3_filter_query_validation 0 5000 None false [])). lia.
Defined.

Lemma X4_filter_validation_fixed_point_witness :
  In ">=" (Op.aliases Op.GTE)
  /\ Filter.make (RT := Sample.runtime) (VStr "age") (inl Op.GTE) (VInt 30) (VStr "int")
     = Ok {| Filter.name := "age"; Filter.op := Op.GTE; Filter.value := VInt 30;
             Filter.type_ := Some "int" |}.
Proof.
  assert (Filter.make (RT := Sample.runtime) (VStr "age") (inr ">=") (VInt 30) (VStr "int")
          = Ok {| Filter.name := "age"; Filter.op := Op.GTE; Filter.value := VInt 30;
                  Filter.type_ := Some "int" |}) as H by (vm_compute; reflexivity).
  split.
  - exact (proj1 (proj2 (X4_filter_validation_fixed_point (RT := Sample.runtime) _ _ _ _ _ H))
             ">=" eq_refl).
  - exact (proj2 (proj2 (proj2
             (X4_filter_validation_fixed_point (RT := Sample.runtime) _ _ _ _ _ H)))).
Defined.

Lemma X5_mapping_filters_validation_witness :
  FilterParams.normalize_and_validate_filters
    (direct_params [])
  = Ok (direct_params [])
  /\ (exists msg,
        FilterParams.normalize_and_validate_filters
          {| FilterParams.offset := 0; FilterParams.limit := 50;
             FilterParams.order_by := None; FilterParams.asc := 1;
             FilterParams.filters := FilterParams.FDict [("age", VNone)];
             FilterParams.advanced_filters := None |}
        = Raise (ValueError msg)).
Proof.
  split.
  - exact (proj1 (X5_mapping_filters_validation (direct_params [])) [] eq_refl eq_refl).
  - exact (proj1 (proj2 (X5_mapping_filters_validation
                           {| FilterParams.offset := 0; FilterParams.limit := 50;
                              FilterParams.order_by := None; FilterParams.asc := 1;
                              FilterParams.filters := FilterParams.FDict [("age", VNone)];
                              FilterParams.advanced_filters := None |}))
             [("age", VNone)] eq_refl eq_refl).
Defined.

Lemma X6_filter_params_construction_witness :
  (FilterParams.is_desc age_params = true <-> FilterParams.asc age_params = 0)
  /\ (exists errors,
        errors <> [] /\ (ValidationError ["Параметр 'asc' должен быть 0 или 1"]
                         = ValidationError errors)).
Proof.
  split.
  - apply (proj1 (X6_filter_params_construction 0 50 (Some "id") 0
                    (FilterParams.FDict [("age", VInt 30)]) (Some [age_group [age_item]]))
             age_params).
    vm_compute. reflexivity.
  - apply (proj2 (X6_filter_params_construction 0 50 None 2 FilterParams.FNone None)).
    vm_compute. reflexivity.
Defined.

(** * Further properties of the engine *)

Section EngineInternals.
Context {RT : PyRuntime}.
Local Open Scope list_scope.

Import AsyncQueryFilterEngine.

(** X7. Which fields the engine authorizes.  A non-empty allow-list is the
    whole answer, whatever the entity declares; with no allow-list, or an
    empty one, a name is authorized exactly when it is a declared model
    field, a table column, or a public attribute that carries a column
    type. *)
Theorem X7_field_authorization (model : ModelClass) (allowed : option (list string))
    (dl ml : Z) (dob : option string) (name : string) :
  (forall a l, allowed = Some (a :: l) ->
     _validate_field (configured model allowed dl ml dob) name = PyStr.mem name (a :: l))
  /\ (allowed = None \/ allowed = Some [] ->
      (_validate_field (configured model allowed dl ml dob) name = true <->
         In name (or_empty (model_fields model))
         \/ In name (or_empty (table_columns model))
         \/ (PyStr.is_prefix "_" name = false /\ In (name, true) (attributes model)))).
Proof.
  split.
  - intros a l ->. reflexivity.
  - intros H.
    assert (_validate_field (configured model allowed dl ml dob) name
            = PyStr.mem name (_get_model_fields model)) as ->
      by (destruct H as [-> | ->]; reflexivity).
    rewrite mem_In. unfold _get_model_fields. rewrite !in_app_iff, in_map_iff.
    split.
    + intros [H1|[H1|[[n b] [Hn Hin]]]]; [now left | now right; left |].
      right; right. cbn [fst] in Hn. subst n. apply filter_In in Hin.
      destruct Hin as [Hin Hc]. cbn [fst snd] in Hc. apply andb_true_iff in Hc.
      destruct Hc as [Hp ->]. split; [now apply negb_true_iff in Hp | exact Hin].
    + intros [H1|[H1|[Hp Hin]]]; [now left | now right; left |].
      right; right. exists (name, true). split; [reflexivity|].
      apply filter_In. split; [exact Hin|]. cbn [fst snd]. now rewrite Hp.
Qed.

Lemma build_condition_unusable (self : t) (f : Filter.t) :
  usable self f = false -> _build_condition self f = Ok None.
Proof.
  unfold usable, _build_condition, getattr_model.
  destruct (_validate_field self (Filter.name f)); [|reflexivity].
  cbn [andb negb]. intros ->. reflexivity.
Qed.

Lemma build_condition_usable (self : t) (f : Filter.t) :
  usable self f = true ->
  _build_condition self f
  = (value <- _cast_value (Filter.value f) (Filter.type_ f) ;;
     Ok (Some (Op.apply (Filter.op f) (Filter.name f) value))).
Proof.
  unfold usable, _build_condition, getattr_model. intros H.
  apply andb_true_iff in H. destruct H as [-> ->]. cbn [negb bind].
  destruct (_cast_value (Filter.value f) (Filter.type_ f)) as [v|e] eqn:E; [reflexivity|].
  apply cast_value_Raise in E. subst e. reflexivity.
Qed.


Lemma bind_Ok_id {A} (r : result A) : (x <- r ;; Ok x) = r.
Proof. destruct r; reflexivity. Qed.

Lemma group_conditions_usable (self : t) (fs : list Filter.t) :
  group_conditions self fs = group_conditions self (filter (usable self) fs).
Proof.
  induction fs as [|f r IH]; [reflexivity|].
  cbn [group_conditions filter]. destruct (usable self f) eqn:Hu.
  - cbn [group_conditions]. now rewrite IH.
  - rewrite (build_condition_unusable _ _ Hu). cbn [bind]. rewrite bind_Ok_id. exact IH.
Qed.

(** X9. Filters that are not usable are dropped from a group without a
    trace: applying the groups gives the same query as applying them with
    those filters removed, and a group none of whose filters is usable
    leaves the query as it was. *)
Theorem X9_unusable_filters_dropped (self : t) (q : Select.t) (g : FilterGroup.t)
    (gs : list FilterGroup.t) :
  _apply_filter_groups self q gs = _apply_filter_groups self q (map (usable_only self) gs)
  /\ (filter (usable self) (FilterGroup.filters g) = [] ->
      _apply_filter_groups self q (g :: gs) = _apply_filter_groups self q gs).
Proof.
  split.
  - revert q. induction gs as [|g' r IH]; intros q; [reflexivity|].
    cbn [_apply_filter_groups map usable_only FilterGroup.filters FilterGroup.op].
    rewrite <- group_conditions_usable.
    destruct (group_conditions self (FilterGroup.filters g')) as [cs|e]; [|reflexivity].
    cbn [bind]. apply IH.
  - intros H. cbn [_apply_filter_groups]. rewrite group_conditions_usable, H. reflexivity.
Qed.

Lemma apply_filter_groups_app (self : t) (q : Select.t) (gs1 gs2 : list FilterGroup.t) :
  _apply_filter_groups self q (gs1 ++ gs2)
  = (q' <- _apply_filter_groups self q gs1 ;; _apply_filter_groups self q' gs2).
Proof.
  revert q. induction gs1 as [|g r IH]; intros q; [reflexivity|].
  cbn [app _apply_filter_groups].
  destruct (group_conditions self (FilterGroup.filters g)) as [cs|e]; [|reflexivity].
  cbn [bind]. apply IH.
Qed.

Lemma apply_filter_groups_added (self : t) (gs : list FilterGroup.t) (q q' : Select.t) :
  _apply_filter_groups self q gs = Ok q' ->
  exists added,
    Select.whereclause q' = Select.whereclause q ++ added
    /\ (List.length added <= List.length gs)%nat
    /\ Forall group_predicate added.
Proof.
  revert q. induction gs as [|g r IH]; intros q; cbn [_apply_filter_groups].
  - intros H. injection H as <-. exists []. rewrite app_nil_r.
    split; [reflexivity|]. split; [apply Nat.le_refl | constructor].
  - destruct (group_conditions self (FilterGroup.filters g)) as [cs|e]; [|discriminate].
    cbn [bind]. intros H. apply IH in H. destruct H as [added [Hw [Hlen Hall]]].
    destruct cs as [|c cs].
    + exists added. split; [exact Hw|]. split; [|exact Hall]. cbn [List.length]. lia.
    + cbn [Select.where_ Select.whereclause] in Hw. rewrite <- app_assoc in Hw.
      eexists. split; [exact Hw|]. split; [cbn [List.length app]; lia|].
      cbn [app]. constructor; [|exact Hall]. exists c, cs.
      destruct (String.eqb (FilterGroup.op g) "and"); [now left | now right].
Qed.

(** X10. Applying groups composes: the groups of two lists one after the
    other are the groups of their concatenation.  Every group adds at most
    one predicate, a conjunction or a disjunction of at least one
    condition, after the predicates the query already had, and changes
    neither the ordering nor the offset and limit. *)
Theorem X10_groups_compose (self : t) (q : Select.t) (gs1 gs2 : list FilterGroup.t) :
  _apply_filter_groups self q (gs1 ++ gs2)
  = (q' <- _apply_filter_groups self q gs1 ;; _apply_filter_groups self q' gs2)
  /\ (forall q', _apply_filter_groups self q gs1 = Ok q' ->
        same_shape q' q
        /\ exists added,
             Select.whereclause q' = Select.whereclause q ++ added
             /\ (List.length added <= List.length gs1)%nat
             /\ Forall group_predicate added).
Proof.
  split; [apply apply_filter_groups_app|].
  intros q' H. split; [exact (apply_filter_groups_shape _ _ _ _ H)|].
  exact (apply_filter_groups_added _ _ _ _ H).
Qed.


Lemma apply_sorting_Raise (self : t) (q : Select.t) (ob : option string) (desc : bool)
    (e : exn) :
  _apply_sorting self q ob desc = Raise e -> e = AttributeError.
Proof.
  unfold _apply_sorting, getattr_model.
  destruct (truthy_str ob && _validate_field self (str_or_empty ob)).
  - destruct (PyStr.mem _ _); cbn [bind]; [discriminate|]. intros H. now injection H as <-.
  - destruct (truthy_str _ && _validate_field self _); [|discriminate].
    destruct (PyStr.mem _ _); cbn [bind]; [discriminate|]. intros H. now injection H as <-.
Qed.




End EngineInternals.

Lemma X7_field_authorization_witness :
  AsyncQueryFilterEngine._validate_field allow_list_engine "name" = PyStr.mem "name" ["age"; "ghost"]
  /\ AsyncQueryFilterEngine._validate_field (configured Sample.User (Some []) 50 1000 None) "name"
     = true.
Proof.
  split.
  - exact (proj1 (X7_field_authorization Sample.User (Some ["age"; "ghost"]) 50 1000
                    (Some "ghost") "name") "age" ["ghost"] eq_refl).
  - apply (proj2 (X7_field_authorization Sample.User (Some []) 50 1000 None "name")).
    + right. reflexivity.
    + left. simpl. tauto.
Defined.


Lemma X9_unusable_filters_dropped_witness :
  AsyncQueryFilterEngine._apply_filter_groups (RT := Sample.runtime) allow_list_engine
    Select.select
    ({| FilterGroup.op := "or"; FilterGroup.filters := [equals "ghost" (VInt 1)] |}
     :: age_groups)
  = AsyncQueryFilterEngine._apply_filter_groups (RT := Sample.runtime) allow_list_engine
      Select.select age_groups.
Proof.
  exact (proj2 (X9_unusable_filters_dropped (RT := Sample.runtime) allow_list_engine
                  Select.select
                  {| FilterGroup.op := "or"; FilterGroup.filters := [equals "ghost" (VInt 1)] |}
                  age_groups) eq_refl).
Defined.

Lemma X10_groups_compose_witness :
  same_shape age_matches Select.select
  /\ exists added,
       Select.whereclause age_matches = (Select.whereclause Select.select ++ added)%list
       /\ (List.length added <= List.length age_groups)%nat
       /\ Forall group_predicate added.
Proof.
  exact (proj2 (X10_groups_compose (RT := Sample.runtime) Sample.engine Select.select
                  age_groups []) age_matches eq_refl).
Defined.



(** * Further properties of the entry points *)

Section EntryPoints.
Context {RT : PyRuntime} {B : Backend}.
Local Open Scope list_scope.

Import AsyncQueryFilterEngine.




Lemma run_select_Raise (tbl : list row) (q : Select.t) (e : exn) :
  run_select tbl q = Raise e -> e = StorageError.
Proof.
  unfold run_select, drop_rows, take_rows.
  destruct (Select.offset_clause q) as [k|]; [destruct (k <? 0)|]; cbn [bind];
    try (intros H; now injection H as <-);
    (destruct (Select.limit_clause q) as [n|]; [destruct (n <? 0)|]);
    try discriminate; intros H; now injection H as <-.
Qed.


(** What [filter_by_params] does once the two stages have run. *)
Lemma filter_by_params_eq (self : t) (p : FilterParams.t) (s : session) :
  filter_by_params self p s =
  match (q1 <- simple_stage self (FilterParams.filters p) Select.select ;;
         advanced_stage self (FilterParams.advanced_filters p) q1) with
  | Raise e => (Raise e, s)
  | Ok q =>
      let s1 := {| table := table s; executed := executed s ++ [Count q] |} in
      match run_select (table s) q with
      | Raise e => (Raise e, s1)
      | Ok counted =>
          match _apply_sorting self q (FilterParams.order_by p) (FilterParams.is_desc p) with
          | Raise e => (Raise e, s1)
          | Ok qs =>
              let dq := _apply_pagination self qs (FilterParams.offset p)
                          (FilterParams.limit p) in
              let s2 := {| table := table s; executed := executed s ++ [Count q; Rows dq] |} in
              match run_select (table s) dq with
              | Raise e => (Raise e, s2)
              | Ok page =>
                  (Ok {| FilterResult.items := map VDict page;
                         FilterResult.total := Z.of_nat (List.length counted) |}, s2)
              end
          end
      end
  end.
Proof.
  unfold filter_by_params, bindM, lift, exec, all.
  destruct (simple_stage self (FilterParams.filters p) Select.select) as [q1|e];
    [|reflexivity]. cbn [bind].
  destruct (advanced_stage self (FilterParams.advanced_filters p) q1) as [q|e];
    [|reflexivity].
  cbn [run table executed].
  destruct (run_select (table s) q) as [counted|e]; [|reflexivity].
  cbn [bind one].
  destruct (_apply_sorting self q (FilterParams.order_by p) (FilterParams.is_desc p))
    as [qs|e]; [|reflexivity].
  cbn [run table executed]. rewrite <- app_assoc. cbn [app].
  destruct (run_select (table s) _) as [page|e]; [|reflexivity].
  cbn [bind FilterResult.make].
  destruct (0 <=? Z.of_nat (List.length counted)) eqn:E; [reflexivity|].
  apply Z.leb_gt in E. lia.
Qed.

Lemma simple_stage_shape (self : t) (f : FilterParams.filters_t) (q q' : Select.t) :
  simple_stage self f q = Ok q' -> same_shape q' q.
Proof.
  unfold simple_stage. destruct f as [|[|kv d]|[|g l]]; try discriminate;
    try (intros H; injection H as <-; repeat split).
  destruct (simple_loop self (kv :: d) [] []) as [[fs inv]|e]; [|discriminate].
  cbn [bind]. destruct inv; [|discriminate]. destruct fs as [|f fs].
  - intros H; injection H as <-; repeat split.
  - cbn [FilterGroup.make FilterGroup.validate_group_op FilterGroup.validate_filters bind].
    apply apply_filter_groups_shape.
Qed.

Lemma advanced_stage_shape (self : t) (a : option (list pydict)) (q q' : Select.t) :
  advanced_stage self a q = Ok q' -> same_shape q' q.
Proof.
  unfold advanced_stage. destruct a as [[|x l]|];
    try (intros H; injection H as <-; repeat split).
  destruct (groups_loop self (x :: l) []) as [[|g gs]|e]; cbn [bind]; [| |discriminate].
  - intros H; injection H as <-; repeat split.
  - apply apply_filter_groups_shape.
Qed.

(** X14. [filter_by_params] executes the count before it resolves the
    ordering: when the ordering names an authorized field that the entity
    does not have, the [AttributeError] comes after one statement was
    executed, where [filter_by_query] on the same predicates and ordering
    fails before any statement. *)
Theorem X14_params_count_before_sorting (self : t) (p : FilterParams.t) (s : session)
    (q1 q : Select.t) (e : exn)
    (Hsimple : simple_stage self (FilterParams.filters p) Select.select = Ok q1)
    (Hadvanced : advanced_stage self (FilterParams.advanced_filters p) q1 = Ok q)
    (Hsort : _apply_sorting self q (FilterParams.order_by p) (FilterParams.is_desc p)
             = Raise e) :
  e = AttributeError
  /\ filter_by_params self p s
     = (Raise e, {| table := table s; executed := executed s ++ [Count q] |})
  /\ (forall groups,
        _apply_filter_groups self Select.select groups = Ok q ->
        filter_by_query self (translated p groups) s = (Raise e, s)).
Proof.
  split; [exact (apply_sorting_Raise _ _ _ _ _ Hsort)|]. split.
  - rewrite filter_by_params_eq, Hsimple. cbn [bind]. rewrite Hadvanced. cbv zeta.
    destruct (simple_stage_shape _ _ _ _ Hsimple) as [_ [Ho1 Hl1]].
    destruct (advanced_stage_shape _ _ _ _ Hadvanced) as [_ [Ho Hl]].
    rewrite Ho1 in Ho. rewrite Hl1 in Hl.
    destruct (run_select_unpaged (table s) q Ho Hl) as [counted [-> _]].
    now rewrite Hsort.
  - intros groups Hg. rewrite filter_by_query_eq.
    cbn [translated FilterQuery.groups FilterQuery.order_by FilterQuery.desc].
    now rewrite Hg, Hsort.
Qed.

Lemma stages_translate (self : t) (p : FilterParams.t) (d : pydict) (fs : list Filter.t)
    (gs : list FilterGroup.t) :
  simple_mapping (FilterParams.filters p) = Some d ->
  simple_loop self d [] [] = Ok (fs, []) ->
  groups_loop self (FilterParams.advanced_or_empty (FilterParams.advanced_filters p)) []
  = Ok gs ->
  (q1 <- simple_stage self (FilterParams.filters p) Select.select ;;
   advanced_stage self (FilterParams.advanced_filters p) q1)
  = _apply_filter_groups self Select.select (and_group fs ++ gs).
Proof.
  intros Hd Hs Hg. rewrite apply_filter_groups_app.
  assert (simple_stage self (FilterParams.filters p) Select.select
          = _apply_filter_groups self Select.select (and_group fs)) as ->.
  { unfold simple_stage.
    destruct (FilterParams.filters p) as [|[|kv d']|[|g l]]; try discriminate Hd;
      injection Hd as <-; try (cbn in Hs; injection Hs as <-; reflexivity).
    rewrite Hs. cbn [bind]. destruct fs as [|f fs]; reflexivity. }
  destruct (_apply_filter_groups self Select.select (and_group fs)) as [q1|e];
    [|reflexivity].
  cbn [bind]. unfold advanced_stage.
  destruct (FilterParams.advanced_filters p) as [[|a l]|];
    try (cbn in Hg; injection Hg as <-; reflexivity).
  cbn [FilterParams.advanced_or_empty] in Hg. rewrite Hg. cbn [bind].
  destruct gs; reflexivity.
Qed.

Lemma params_query_agree (self : t) (p : FilterParams.t) (s : session)
    (d : pydict) (fs : list Filter.t) (gs : list FilterGroup.t) :
  simple_mapping (FilterParams.filters p) = Some d ->
  simple_loop self d [] [] = Ok (fs, []) ->
  groups_loop self (FilterParams.advanced_or_empty (FilterParams.advanced_filters p)) []
  = Ok gs ->
  fst (filter_by_params self p s)
  = fst (filter_by_query self (translated p (and_group fs ++ gs)) s)
  /\ (fst (filter_by_params self p s) <> Raise AttributeError ->
      filter_by_params self p s
      = filter_by_query self (translated p (and_group fs ++ gs)) s).
Proof.
  intros Hmapping Hsimple Hadvanced.
  rewrite filter_by_params_eq, filter_by_query_eq.
  rewrite (stages_translate self p d fs gs Hmapping Hsimple Hadvanced).
  cbn [translated FilterQuery.groups FilterQuery.order_by FilterQuery.desc
       FilterQuery.offset FilterQuery.limit].
  destruct (_apply_filter_groups self Select.select (and_group fs ++ gs)) as [q|e] eqn:Eq;
    [|split; reflexivity].
  cbv zeta.
  destruct (apply_filter_groups_shape _ _ _ _ Eq) as [_ [Hoff Hlim]].
  destruct (run_select_unpaged (table s) q Hoff Hlim) as [counted [-> _]].
  destruct (_apply_sorting self q (FilterParams.order_by p) (FilterParams.is_desc p))
    as [qs|e] eqn:Es.
  - split; reflexivity.
  - split; [reflexivity|]. cbn [fst]. intros H.
    rewrite (apply_sorting_Raise _ _ _ _ _ Es) in H. now contradiction H.
Qed.

(** X15. [filter_by_params] agrees with [filter_by_query]: when the simple
    filters are all authorized and give the filters [fs], and the advanced
    filters give the groups [gs], the call returns what [filter_by_query]
    returns for the query with the same paging and ordering and the groups
    [fs] (as one conjunction) followed by [gs]; unless the ordering fails
    with an [AttributeError], the two calls also execute the same
    statements. *)
Theorem X15_params_agree_with_query (self : t) (p : FilterParams.t) (s : session)
    (d : pydict) (fs : list Filter.t) (gs : list FilterGroup.t)
    (Hmapping : simple_mapping (FilterParams.filters p) = Some d)
    (Hsimple : simple_loop self d [] [] = Ok (fs, []))
    (Hadvanced : groups_loop self
                   (FilterParams.advanced_or_empty (FilterParams.advanced_filters p)) []
                 = Ok gs) :
  fst (filter_by_params self p s)
  = fst (filter_by_query self (translated p (and_group fs ++ gs)) s)
  /\ (fst (filter_by_params self p s) <> Raise AttributeError ->
      filter_by_params self p s
      = filter_by_query self (translated p (and_group fs ++ gs)) s).
Proof. exact (params_query_agree self p s d fs gs Hmapping Hsimple Hadvanced). Qed.






End EntryPoints.


Lemma X14_params_count_before_sorting_witness :
  AsyncQueryFilterEngine.filter_by_params (RT := Sample.runtime) (B := Sample.backend)
    allow_list_engine FilterParams.default Sample.fresh_session
  = (Raise AttributeError,
     {| table := table Sample.fresh_session;
        executed := (executed Sample.fresh_session ++ [Count Select.select])%list |})
  /\ (forall groups,
        AsyncQueryFilterEngine._apply_filter_groups (RT := Sample.runtime) allow_list_engine
          Select.select groups = Ok Select.select ->
        AsyncQueryFilterEngine.filter_by_query (RT := Sample.runtime) (B := Sample.backend)
          allow_list_engine (translated FilterParams.default groups) Sample.fresh_session
        = (Raise AttributeError, Sample.fresh_session)).
Proof.
  apply (proj2 (X14_params_count_before_sorting (RT := Sample.runtime) (B := Sample.backend)
                  allow_list_engine FilterParams.default Sample.fresh_session
                  Select.select Select.select AttributeError
                  ltac:(vm_compute; reflexivity) ltac:(vm_compute; reflexivity)
                  ltac:(vm_compute; reflexivity))).
Defined.

Lemma X15_params_agree_with_query_witness :
  AsyncQueryFilterEngine.filter_by_params (RT := Sample.runtime) (B := Sample.backend)
    Sample.engine age_params Sample.fresh_session
  = AsyncQueryFilterEngine.filter_by_query (RT := Sample.runtime) (B := Sample.backend)
      Sample.engine
      (translated age_params (and_group [equals "age" (VInt 30)] ++ age_groups)%list)
      Sample.fresh_session.
Proof.
  apply (proj2 (X15_params_agree_with_query (RT := Sample.runtime) (B := Sample.backend)
                  Sample.engine age_params Sample.fresh_session
                  [("age", VInt 30)] [equals "age" (VInt 30)] age_groups
                  eq_refl ltac:(vm_compute; reflexivity) ltac:(vm_compute; reflexivity))).
  vm_compute. discriminate.
Defined.


Section Paging.
Context {RT : PyRuntime} {B : Backend}.
Local Open Scope list_scope.

Import AsyncQueryFilterEngine.

Lemma paginate_refused (self : t) (page : Z) (size : option Z) (ob : option string)
    (desc : bool) (s : session) :
  (page - 1) * size_or_default self size < 0
  \/ size_or_default self size < 1 \/ 1000 < size_or_default self size ->
  exists errors,
    errors <> [] /\ paginate self page size ob desc s = (Raise (ValidationError errors), s).
Proof.
  intros H. unfold paginate, bindM, lift.
  destruct (query_make_refused _ _ ob desc [] H) as [errors [Hne ->]]. now exists errors.
Qed.

(** X17. [paginate] validates the page it asks for.  An absent size, or a
    size of 0, stands for the configured [default_limit].  A page below 1,
    or a size outside 1..1000 (a configured [default_limit] above 1000
    included), is refused with a validation error before any statement is
    executed; so is, through the service, a negative size. *)
Theorem X17_paginate_validation (self : t) (page : Z) (size : option Z)
    (ob : option string) (desc : bool) (s : session) :
  (size = None \/ size = Some 0 ->
   size_or_default self size = FilterConfig.default_limit (_config self))
  /\ ((page < 1 /\ 1 <= size_or_default self size)
      \/ size_or_default self size < 1 \/ 1000 < size_or_default self size ->
      exists errors,
        errors <> []
        /\ paginate self page size ob desc s = (Raise (ValidationError errors), s))
  /\ (forall model engine n,
        (page < 1 /\ 1 <= n) \/ n < 0 \/ 1000 < n ->
        exists errors,
          errors <> []
          /\ FilterService.paginate model page n ob engine desc s
             = (Raise (ValidationError errors), s)).
Proof.
  split; [|split].
  - intros [-> | ->]; reflexivity.
  - intros H. apply paginate_refused. destruct H as [[Hp Hs]|H]; [left; nia | right; exact H].
  - intros model engine n H. unfold FilterService.paginate. apply paginate_refused.
    assert (n <> 0) as Hn by lia.
    assert (size_or_default (FilterService._get_engine model engine) (Some n) = n) as ->.
    { unfold size_or_default. destruct (n =? 0) eqn:E; [apply Z.eqb_eq in E; lia | reflexivity]. }
    destruct H as [[Hp Hs]|H]; [left; nia | right; lia].
Qed.

Lemma firstn_add_skipn {A} (n m : nat) (l : list A) :
  firstn (n + m) l = firstn n l ++ firstn m (skipn n l).
Proof.
  revert l. induction n as [|n IH]; intros l; [reflexivity|].
  destruct l as [|x r]; cbn [Nat.add firstn skipn app].
  - now rewrite firstn_nil.
  - now rewrite IH.
Qed.

Lemma run_select_window (tbl : list row) (q : Select.t) (off lim : Z) :
  Select.whereclause q = [] ->
  Select.offset_clause q = Some off -> Select.limit_clause q = Some lim ->
  0 <= off -> 0 <= lim ->
  run_select tbl q
  = Ok (firstn (Z.to_nat lim) (skipn (Z.to_nat off) (sort_rows (Select.order_by_clauses q) tbl))).
Proof.
  intros Hw Ho Hl Hoff Hlim. unfold run_select. rewrite Ho, Hl. unfold drop_rows, take_rows.
  destruct (off <? 0) eqn:E1; [apply Z.ltb_lt in E1; lia|]. cbn [bind].
  destruct (lim <? 0) eqn:E2; [apply Z.ltb_lt in E2; lia|].
  rewrite (filter_all (matches q) tbl); [reflexivity|].
  intros r. unfold matches. now rewrite Hw.
Qed.

Lemma paginate_page (self : t) (page : Z) (size : option Z) (ob ob' : option string)
    (desc : bool) (s : session) (qs : Select.t) :
  1 <= page ->
  1 <= size_or_default self size <= 1000 ->
  0 <= FilterConfig.max_limit (_config self) ->
  validate_order_by ob = Ok ob' ->
  _apply_sorting self Select.select ob' desc = Ok qs ->
  paginate self page size ob desc s
  = (Ok {| FilterResult.items := page_window self qs s page (size_or_default self size);
           FilterResult.total := Z.of_nat (List.length (table s)) |},
     {| table := table s;
        executed := executed s ++
          [Count Select.select;
           Rows (_apply_pagination self qs ((page - 1) * size_or_default self size)
                   (size_or_default self size))] |}).
Proof.
  intros Hpage Hsize Hmax Hob Hsort. unfold paginate, bindM, lift.
  set (sz := size_or_default self size) in *.
  assert (0 <= (page - 1) * sz) as Hoff by nia.
  assert (FilterQuery.make ((page - 1) * sz) sz ob desc []
          = Ok {| FilterQuery.offset := (page - 1) * sz; FilterQuery.limit := sz;
                  FilterQuery.order_by := ob'; FilterQuery.desc := desc;
                  FilterQuery.groups := [] |}) as ->.
  { apply query_make_Ok. exists ob'. split; [now apply validate_offset_Ok|].
    split; [now apply validate_limit_Ok|]. split; [exact Hob | reflexivity]. }
  rewrite filter_by_query_eq.
  cbn [FilterQuery.groups FilterQuery.order_by FilterQuery.desc FilterQuery.offset
       FilterQuery.limit _apply_filter_groups].
  rewrite Hsort. cbv zeta.
  destruct (run_select_unpaged (table s) Select.select eq_refl eq_refl) as [counted [Hc Hlen]].
  rewrite Hc. rewrite (filter_all (matches Select.select) (table s) matches_select) in Hlen.
  destruct (apply_sorting_where _ _ _ _ _ Hsort) as [Hw _].
  rewrite (run_select_window (table s) (_apply_pagination self qs ((page - 1) * sz) sz)
             ((page - 1) * sz) (Z.min sz (FilterConfig.max_limit (_config self))));
    [|exact Hw|reflexivity|reflexivity|exact Hoff|lia].
  unfold page_window. now rewrite Hlen.
Qed.

(** X18. The page [paginate] returns.  For a page of at least 1 and a size
    within 1..1000, the items are the rows of the table in the order of the
    query, without the [(page - 1) * size] rows of the earlier pages, cut
    to [min(size, max_limit)] rows, and the total is the number of rows of
    the table.  When the size does not exceed [max_limit], two consecutive
    pages are exactly the next [2 * size] rows: no row is skipped and none
    is returned twice. *)
Theorem X18_paginate_window (self : t) (page : Z) (size : option Z) (ob ob' : option string)
    (desc : bool) (s : session) (qs : Select.t)
    (Hpage : 1 <= page)
    (Hsize : 1 <= size_or_default self size <= 1000)
    (Hmax : 0 <= FilterConfig.max_limit (_config self))
    (Hob : validate_order_by ob = Ok ob')
    (Hsort : _apply_sorting self Select.select ob' desc = Ok qs) :
  fst (paginate self page size ob desc s)
  = Ok {| FilterResult.items := page_window self qs s page (size_or_default self size);
          FilterResult.total := Z.of_nat (List.length (table s)) |}
  /\ executed (snd (paginate self page size ob desc s))
     = executed s ++
       [Count Select.select;
        Rows (_apply_pagination self qs ((page - 1) * size_or_default self size)
                (size_or_default self size))]
  /\ (size_or_default self size <= FilterConfig.max_limit (_config self) ->
      forall r1 r2,
        fst (paginate self page size ob desc s) = Ok r1 ->
        fst (paginate self (page + 1) size ob desc s) = Ok r2 ->
        (FilterResult.items r1 ++ FilterResult.items r2)%list
        = map VDict
            (firstn (Z.to_nat (2 * size_or_default self size))
               (skipn (Z.to_nat ((page - 1) * size_or_default self size))
                  (sort_rows (Select.order_by_clauses qs) (table s))))).
Proof.
  rewrite (paginate_page self page size ob ob' desc s qs Hpage Hsize Hmax Hob Hsort).
  split; [reflexivity|]. split; [reflexivity|].
  intros Hle r1 r2.
  rewrite (paginate_page self (page + 1) size ob ob' desc s qs
             ltac:(lia) Hsize Hmax Hob Hsort).
  cbn [fst]. intros H1 H2. injection H1 as <-. injection H2 as <-.
  cbn [FilterResult.items]. unfold page_window.
  set (sz := size_or_default self size) in *.
  rewrite Z.min_l by exact Hle. rewrite <- map_app. f_equal.
  replace (Z.to_nat ((page + 1 - 1) * sz))
    with (Z.to_nat sz + Z.to_nat ((page - 1) * sz))%nat by nia.
  rewrite <- skipn_skipn.
  replace (Z.to_nat (2 * sz)) with (Z.to_nat sz + Z.to_nat sz)%nat by lia.
  symmetry. apply firstn_add_skipn.
Qed.

Lemma url_items_quick (self : t) (url : pydict) :
  url_items self url = quick_items self (filter (fun kv => negb (reserved_entry kv)) url).
Proof.
  induction url as [|[k v] r IH]; [reflexivity|].
  cbn [url_items filter].
  change (reserved_entry (k, v)) with (PyStr.mem k exclude_params).
  destruct (PyStr.mem k exclude_params); cbn [negb andb]; [exact IH|].
  cbn [quick_items]. now rewrite IH.
Qed.




Lemma quick_items_untyped (self : t) (filters : pydict) (fs : list Filter.t) :
  quick_items self filters = Ok fs -> Forall (fun f => Filter.type_ f = None) fs.
Proof.
  revert fs. induction filters as [|[k v] r IH]; intros fs; cbn [quick_items].
  - intros H. injection H as <-. constructor.
  - destruct (_validate_field self k); [|apply IH].
    destruct (Filter.make (VStr k) (inl Op.EQ) v VNone) as [f|e] eqn:Em; [|discriminate].
    cbn [bind]. destruct (quick_items self r) as [fs'|e]; [|discriminate].
    cbn [bind]. intros H. injection H as <-. constructor; [|now apply IH].
    apply make_Ok in Em. destruct Em as [_ [_ [_ Ht]]]. cbn in Ht. now injection Ht as <-.
Qed.

Lemma group_conditions_untyped (self : t) (fs : list Filter.t) :
  Forall (fun f => Filter.type_ f = None) fs -> exists cs, group_conditions self fs = Ok cs.
Proof.
  induction 1 as [|f r Hf _ IH]; [now exists []|].
  destruct IH as [cs Hcs]. cbn [group_conditions]. rewrite Hcs.
  destruct (_build_condition self f) as [c|e] eqn:E.
  - eexists. reflexivity.
  - exfalso. destruct (usable self f) eqn:Hu.
    + rewrite (build_condition_usable _ _ Hu), Hf in E. discriminate E.
    + rewrite (build_condition_unusable _ _ Hu) in E. discriminate E.
Qed.

(** X20. Paging through [filter_by_url] is not validated.  A value that
    [int()] refuses fails the call before any statement is executed.
    Otherwise the conditions always compile, and once the ordering
    resolves both statements are executed with the offset as given and the
    limit cut to [max_limit] only: a limit above 1000 is not refused, and a
    negative offset is refused by the storage engine alone, after the count
    was executed. *)
Theorem X20_url_paging_unvalidated (self : t) (url : pydict) (s : session) :
  (forall e, url_int url "offset" 0 = Raise e \/ url_int url "limit" 50 = Raise e ->
     exists e', filter_by_url self url s = (Raise e', s))
  /\ (forall o l fs ob,
        url_int url "offset" 0 = Ok o -> url_int url "limit" 50 = Ok l ->
        url_items self url = Ok fs -> url_order_by url = Ok ob ->
        exists q,
          _apply_filter_groups self Select.select (and_group fs) = Ok q
          /\ forall qs, _apply_sorting self q ob (url_desc url) = Ok qs ->
               snd (filter_by_url self url s)
               = {| table := table s;
                    executed := executed s ++ [Count q; Rows (_apply_pagination self qs o l)] |}
               /\ Select.offset_clause (_apply_pagination self qs o l) = Some o
               /\ Select.limit_clause (_apply_pagination self qs o l)
                  = Some (Z.min l (FilterConfig.max_limit (_config self)))
               /\ (o < 0 \/ Z.min l (FilterConfig.max_limit (_config self)) < 0 ->
                   fst (filter_by_url self url s) = Raise StorageError)
               /\ (0 <= o -> 0 <= Z.min l (FilterConfig.max_limit (_config self)) ->
                   exists r, fst (filter_by_url self url s) = Ok r)).
Proof.
  split.
  - intros e H. unfold filter_by_url, bindM, lift.
    destruct (url_int url "offset" 0) as [o|eo]; [|now exists eo].
    destruct H as [H|H]; [discriminate H|]. rewrite H. now exists e.
  - intros o l fs ob Ho Hl Hitems Hob.
    assert (exists q, _apply_filter_groups self Select.select (and_group fs) = Ok q) as [q Hq].
    { destruct fs as [|f fs]; [now exists Select.select|].
      rewrite url_items_quick in Hitems. apply quick_items_untyped in Hitems.
      destruct (group_conditions_untyped self _ Hitems) as [cs Hcs].
      cbn [and_group _apply_filter_groups FilterGroup.filters]. rewrite Hcs. cbn [bind].
      eexists. reflexivity. }
    exists q. split; [exact Hq|]. intros qs Hsort.
    assert (filter_by_url self url s
            = filter_by_query self
                {| FilterQuery.offset := o; FilterQuery.limit := l; FilterQuery.order_by := ob;
                   FilterQuery.desc := url_desc url; FilterQuery.groups := and_group fs |} s)
      as ->.
    { unfold filter_by_url, bindM, lift. rewrite Ho, Hl, Hitems, Hob.
      destruct fs; reflexivity. }
    rewrite filter_by_query_eq.
    cbn [FilterQuery.groups FilterQuery.order_by FilterQuery.desc FilterQuery.offset
         FilterQuery.limit].
    rewrite Hq, Hsort. cbv zeta.
    destruct (apply_filter_groups_shape _ _ _ _ Hq) as [_ [Hoff Hlim]].
    destruct (run_select_unpaged (table s) q Hoff Hlim) as [counted [-> _]].
    destruct (apply_pagination_clauses self qs o l) as [Hdl [Hdo _]].
    split; [destruct (run_select (table s) (_apply_pagination self qs o l)); reflexivity|].
    split; [exact Hdo|]. split; [exact Hdl|]. split.
    + intros Hneg.
      destruct (run_select (table s) (_apply_pagination self qs o l)) as [page|e] eqn:Ep.
      * exfalso. unfold run_select in Ep. rewrite Hdo, Hdl in Ep.
        unfold drop_rows, take_rows in Ep.
        destruct (o <? 0) eqn:E1; [discriminate Ep|]. cbn [bind] in Ep.
        destruct (Z.min l (FilterConfig.max_limit (_config self)) <? 0) eqn:E2;
          [discriminate Ep|].
        apply Z.ltb_ge in E1. apply Z.ltb_ge in E2. lia.
      * cbn [fst]. now rewrite (run_select_Raise _ _ _ Ep).
    + intros Hoff' Hmin.
      destruct (run_select_paged (table s) _ _ _ Hdo Hdl Hoff' Hmin) as [page ->].
      eexists. reflexivity.
Qed.

End Paging.

(** * Further properties of the service *)

Section JsonService.
Context {RT : PyRuntime} {B : Backend}.
Variable parse_FilterQuery : pydict -> result FilterQuery.t.
Variable parse_FilterParams : pydict -> result FilterParams.t.
Local Open Scope list_scope.

Import AsyncQueryFilterEngine.

Lemma reraise_fst {A} (m : M A) (s : session) :
  fst (FilterService.reraise m s)
  = match fst (m s) with
    | Raise (ValidationError errors) => Raise (EXC ValidationErrorCode errors)
    | Raise (ValueError msg) => Raise (EXC ValidationErrorCode [msg])
    | r => r
    end
  /\ snd (FilterService.reraise m s) = snd (m s).
Proof.
  unfold FilterService.reraise. destruct (m s) as [[a|e] s']; [split; reflexivity|].
  destruct e; split; reflexivity.
Qed.

Lemma reraise_same {A} (m m' : M A) (s : session) :
  fst (m s) = fst (m' s) ->
  fst (FilterService.reraise m s) = fst (FilterService.reraise m' s).
Proof.
  intros H. rewrite (proj1 (reraise_fst m s)), (proj1 (reraise_fst m' s)), H. reflexivity.
Qed.

Lemma json_nonempty (model : ModelClass) (json_data : pydict) (engine : option t) :
  json_data <> [] ->
  FilterService.filter_with_json parse_FilterQuery parse_FilterParams model json_data engine
  = FilterService.reraise
      (if dict_has json_data "groups" then
         query <~ lift (parse_FilterQuery json_data) ;;
         filter_by_query (FilterService._get_engine model engine) query
       else
         params <~ lift (parse_FilterParams json_data) ;;
         if FilterParams.has_only_pagination_and_sorting params then
           filter_query <~ lift (FilterQuery.make (FilterParams.offset params)
                                   (FilterParams.limit params)
                                   (FilterParams.order_by params)
                                   (FilterParams.is_desc params) []) ;;
           filter_by_query (FilterService._get_engine model engine) filter_query
         else filter_by_params (FilterService._get_engine model engine) params).
Proof. intros H. destruct json_data; [contradiction | reflexivity]. Qed.


(** X22. A refused key among the simple filters of a request body reaches
    the caller as the service's validation error, whose single detail is
    the engine's message with every refused key of the mapping, and no
    statement is executed. *)
Theorem X22_json_unauthorized_field (model : ModelClass) (json_data : pydict)
    (engine : option t) (s : session) (p : FilterParams.t) (d : pydict)
    (Hjson : json_data <> [])
    (Hgroups : dict_has json_data "groups" = false)
    (Hparse : parse_FilterParams json_data = Ok p)
    (Hfilters : FilterParams.filters p = FilterParams.FDict d)
    (Hrefused : unauthorized (FilterService._get_engine model engine) (map fst d) <> [])
    (Hbuild : forall k v, In (k, v) d ->
                _validate_field (FilterService._get_engine model engine) k = true ->
                exists f, Filter.make (VStr k) (inl Op.EQ) v VNone = Ok f) :
  FilterService.filter_with_json parse_FilterQuery parse_FilterParams model json_data engine s
  = (Raise (EXC ValidationErrorCode
              [invalid_fields_message
                 (PyStr.join ", "
                    (unauthorized (FilterService._get_engine model engine) (map fst d)))]),
     s).
Proof.
  rewrite (json_nonempty _ _ _ Hjson), Hgroups.
  unfold FilterService.reraise, bindM, lift. rewrite Hparse.
  assert (FilterParams.has_only_pagination_and_sorting p = false) as ->.
  { unfold FilterParams.has_only_pagination_and_sorting, FilterParams.has_simple.
    rewrite Hfilters. destruct d; [now contradiction Hrefused | reflexivity]. }
  rewrite (filter_by_params_simple_Raise _ p s _
             (eq_trans (f_equal (fun f => simple_stage _ f Select.select) Hfilters)
                (simple_stage_refused_message _ d Select.select Hrefused Hbuild))).
  reflexivity.
Qed.

(** X23. The branch of [filter_with_json] for a body with paging and
    ordering only changes no answer: for validated parameters without
    filters the query it builds is accepted, and the call returns what
    [filter_by_params] would have returned on the parameters. *)
Theorem X23_pagination_only_branch (model : ModelClass) (json_data : pydict)
    (engine : option t) (s : session) (p : FilterParams.t)
    (o l a : Z) (ob : option string) (f : FilterParams.filters_t)
    (adv : option (list pydict))
    (Hjson : json_data <> [])
    (Hgroups : dict_has json_data "groups" = false)
    (Hparse : parse_FilterParams json_data = Ok p)
    (Hvalid : FilterParams.make o l ob a f adv = Ok p)
    (Honly : FilterParams.has_only_pagination_and_sorting p = true) :
  FilterService.filter_with_json parse_FilterQuery parse_FilterParams model json_data engine s
  = FilterService.reraise
      (filter_by_query (FilterService._get_engine model engine) (translated p [])) s
  /\ fst (FilterService.filter_with_json parse_FilterQuery parse_FilterParams
            model json_data engine s)
     = fst (FilterService.reraise
              (filter_by_params (FilterService._get_engine model engine) p) s).
Proof.
  set (self := FilterService._get_engine model engine).
  apply params_make_Ok in Hvalid.
  destruct Hvalid as [[Ho Ho'] [[Hl Hl'] [[_ Hob] [_ [Hlist _]]]]].
  assert (FilterQuery.make (FilterParams.offset p) (FilterParams.limit p)
            (FilterParams.order_by p) (FilterParams.is_desc p) []
          = Ok (translated p [])) as Hmake.
  { apply query_make_Ok. exists (FilterParams.order_by p). rewrite Ho', Hl'.
    split; [now apply validate_offset_Ok|]. split; [now apply validate_limit_Ok|].
    split; [exact Hob|]. unfold translated. now rewrite Ho', Hl'. }
  assert (FilterService.filter_with_json parse_FilterQuery parse_FilterParams
            model json_data engine s
          = FilterService.reraise (filter_by_query self (translated p [])) s) as Heq.
  { rewrite (json_nonempty _ _ _ Hjson), Hgroups.
    unfold FilterService.reraise, bindM, lift. rewrite Hparse, Honly, Hmake. reflexivity. }
  split; [exact Heq|]. rewrite Heq. apply reraise_same. symmetry.
  unfold FilterParams.has_only_pagination_and_sorting in Honly.
  apply negb_true_iff, orb_false_iff in Honly. destruct Honly as [Hs Ha].
  assert (simple_mapping (FilterParams.filters p) = Some []) as Hm.
  { unfold FilterParams.has_simple in Hs.
    destruct (FilterParams.filters p) as [|[|kv d]|gl]; try discriminate Hs;
      try reflexivity. discriminate Hlist. }
  assert (FilterParams.advanced_or_empty (FilterParams.advanced_filters p) = []) as Hadv.
  { unfold FilterParams.has_advanced in Ha.
    destruct (FilterParams.advanced_filters p) as [[|x xs]|]; try discriminate Ha;
      reflexivity. }
  apply (params_query_agree self p s [] [] [] Hm eq_refl). now rewrite Hadv.
Qed.

End JsonService.

Lemma X17_paginate_validation_witness :
  (exists errors,
     errors <> []
     /\ AsyncQueryFilterEngine.paginate (RT := Sample.runtime) (B := Sample.backend)
          Sample.engine 0 (Some 2) None false Sample.fresh_session
        = (Raise (ValidationError errors), Sample.fresh_session))
  /\ (exists errors,
        errors <> []
        /\ FilterService.paginate (RT := Sample.runtime) (B := Sample.backend)
             Sample.User 1 (-20) None None false Sample.fresh_session
           = (Raise (ValidationError errors), Sample.fresh_session)).
Proof.
  split.
  - apply (proj1 (proj2 (X17_paginate_validation (RT := Sample.runtime) (B := Sample.backend)
                           Sample.engine 0 (Some 2) None false Sample.fresh_session))).
    left. simpl. lia.
  - apply (proj2 (proj2 (X17_paginate_validation (RT := Sample.runtime) (B := Sample.backend)
                           Sample.engine 1 None None false Sample.fresh_session))).
    lia.
Defined.

Lemma X18_paginate_window_witness :
  fst (AsyncQueryFilterEngine.paginate (RT := Sample.runtime) (B := Sample.backend)
         small_page_engine 2 None None false Sample.fresh_session)
  = Ok {| FilterResult.items :=
            page_window (B := Sample.backend) small_page_engine Select.select
              Sample.fresh_session 2 2;
          FilterResult.total := 3 |}.
Proof.
  apply (X18_paginate_window (RT := Sample.runtime) (B := Sample.backend)
           small_page_engine 2 None None None false Sample.fresh_session Select.select).
  - lia.
  - simpl. lia.
  - simpl. lia.
  - reflexivity.
  - reflexivity.
Defined.


Lemma X20_url_paging_unvalidated_witness :
  (exists e,
     AsyncQueryFilterEngine.filter_by_url (RT := Sample.runtime) (B := Sample.backend)
       Sample.engine [("offset", VStr "x")] Sample.fresh_session
     = (Raise e, Sample.fresh_session))
  /\ (exists q,
        AsyncQueryFilterEngine._apply_filter_groups (RT := Sample.runtime) Sample.engine
          Select.select (and_group [equals "age" (VInt 30)]) = Ok q
        /\ forall qs,
             AsyncQueryFilterEngine._apply_sorting Sample.engine q (Some "age")
               (AsyncQueryFilterEngine.url_desc wide_url) = Ok qs ->
             snd (AsyncQueryFilterEngine.filter_by_url (RT := Sample.runtime)
                    (B := Sample.backend) Sample.engine wide_url Sample.fresh_session)
             = {| table := table Sample.fresh_session;
                  executed :=
                    (executed Sample.fresh_session ++
                     [Count q;
                      Rows (AsyncQueryFilterEngine._apply_pagination Sample.engine qs 0 5000)])%list |}
             /\ Select.offset_clause
                  (AsyncQueryFilterEngine._apply_pagination Sample.engine qs 0 5000) = Some 0
             /\ Select.limit_clause
                  (AsyncQueryFilterEngine._apply_pagination Sample.engine qs 0 5000)
                = Some (Z.min 5000
                          (FilterConfig.max_limit (AsyncQueryFilterEngine._config Sample.engine)))
             /\ (0 < 0 \/ Z.min 5000
                            (FilterConfig.max_limit
                               (AsyncQueryFilterEngine._config Sample.engine)) < 0 ->
                 fst (AsyncQueryFilterEngine.filter_by_url (RT := Sample.runtime)
                        (B := Sample.backend) Sample.engine wide_url Sample.fresh_session)
                 = Raise StorageError)
             /\ (0 <= 0 ->
                 0 <= Z.min 5000
                        (FilterConfig.max_limit (AsyncQueryFilterEngine._config Sample.engine)) ->
                 exists r,
                   fst (AsyncQueryFilterEngine.filter_by_url (RT := Sample.runtime)
                          (B := Sample.backend) Sample.engine wide_url Sample.fresh_session)
                   = Ok r)).
Proof.
  split.
  - apply (proj1 (X20_url_paging_unvalidated (RT := Sample.runtime) (B := Sample.backend)
                    Sample.engine [("offset", VStr "x")] Sample.fresh_session)
             (ValueError "invalid literal for int() with base 10: 'x'")).
    left. vm_compute. reflexivity.
  - apply (proj2 (X20_url_paging_unvalidated (RT := Sample.runtime) (B := Sample.backend)
                    Sample.engine wide_url Sample.fresh_session)
             0 5000 [equals "age" (VInt 30)] (Some "age")); vm_compute; reflexivity.
Defined.


Lemma X22_json_unauthorized_field_witness :
  FilterService.filter_with_json (RT := Sample.runtime) (B := Sample.backend)
    no_query (params_with [("secret", VInt 1); ("age", VInt 30); ("hidden", VInt 2)])
    Sample.User
    [("filters", VDict [("secret", VInt 1); ("age", VInt 30); ("hidden", VInt 2)])]
    None Sample.fresh_session
  = (Raise (EXC ValidationErrorCode
              [AsyncQueryFilterEngine.invalid_fields_message "secret, hidden"]),
     Sample.fresh_session).
Proof.
  apply (X22_json_unauthorized_field (RT := Sample.runtime) (B := Sample.backend)
           no_query (params_with [("secret", VInt 1); ("age", VInt 30); ("hidden", VInt 2)])
           Sample.User
    [("filters", VDict [("secret", VInt 1); ("age", VInt 30); ("hidden", VInt 2)])]
    None Sample.fresh_session
           {| FilterParams.offset := 0; FilterParams.limit := 50;
              FilterParams.order_by := None; FilterParams.asc := 1;
              FilterParams.filters :=
                FilterParams.FDict [("secret", VInt 1); ("age", VInt 30); ("hidden", VInt 2)];
              FilterParams.advanced_filters := None |}
           [("secret", VInt 1); ("age", VInt 30); ("hidden", VInt 2)]).
  - discriminate.
  - reflexivity.
  - vm_compute. reflexivity.
  - reflexivity.
  - vm_compute. discriminate.
  - intros k v [H|[H|[H|[]]]] Hv; injection H as <- <-;
      first [discriminate Hv | eexists; vm_compute; reflexivity].
Defined.

Lemma X23_pagination_only_branch_witness :
  fst (FilterService.filter_with_json (RT := Sample.runtime) (B := Sample.backend)
         no_query (params_with []) Sample.User [("limit", VInt 50)] None
         Sample.fresh_session)
  = fst (FilterService.reraise
           (AsyncQueryFilterEngine.filter_by_params (RT := Sample.runtime)
              (B := Sample.backend) (FilterService._get_engine Sample.User None)
              {| FilterParams.offset := 0; FilterParams.limit := 50;
                 FilterParams.order_by := None; FilterParams.asc := 1;
                 FilterParams.filters := FilterParams.FDict [];
                 FilterParams.advanced_filters := None |})
           Sample.fresh_session).
Proof.
  apply (proj2 (X23_pagination_only_branch (RT := Sample.runtime) (B := Sample.backend)
                  no_query (params_with []) Sample.User [("limit", VInt 50)] None
                  Sample.fresh_session
                  {| FilterParams.offset := 0; FilterParams.limit := 50;
                     FilterParams.order_by := None; FilterParams.asc := 1;
                     FilterParams.filters := FilterParams.FDict [];
                     FilterParams.advanced_filters := None |}
                  0 50 1 None (FilterParams.FDict []) None
                  ltac:(discriminate) eq_refl ltac:(vm_compute; reflexivity)
                  ltac:(vm_compute; reflexivity) eq_refl)).
Defined.
